(** * EU4-Autobackup: the monitoring and retention engine

    A shallow embedding of [eu4_autobackup.py]: the metadata scanners
    ([get_player_tag], [get_save_year], [get_backup_year]), the pruning
    pass ([cleanup_old_backups]) and the body of the monitoring loop,
    over a small model of the Python values, strings and operating-system
    calls the script uses. *)

From Stdlib Require Import ZArith NArith List Bool Lia String Ascii SpecFloat.
From Stdlib Require Strings.Byte.
From stdpp Require Import base option list gmap.

Local Open Scope Z_scope.

(** ** Python strings

    A Python [str] is a sequence of Unicode code points, a [bytes] object
    a sequence of bytes. *)

Abbreviation pystr := (list N).
Abbreviation pybytes := (list Byte.byte).

(** A [str] literal of ASCII characters. *)
Definition py (s : string) : pystr :=
  map N_of_ascii (list_ascii_of_string s).

(** A [bytes] literal. *)
Definition pyb (s : string) : pybytes := list_byte_of_string s.

Module PyStr.

(** [str.isspace] on one character: the code points for which CPython's
    [Py_UNICODE_ISSPACE] holds. *)
Definition isspace (c : N) : bool :=
  ((9 <=? c) && (c <=? 13) || (28 <=? c) && (c <=? 32)
   || (c =? 133) || (c =? 160) || (c =? 5760)
   || (8192 <=? c) && (c <=? 8202)
   || (c =? 8232) || (c =? 8233) || (c =? 8239) || (c =? 8287)
   || (c =? 12288))%N.

Fixpoint dropwhile (p : N → bool) (s : pystr) : pystr :=
  match s with
  | c :: r => if p c then dropwhile p r else s
  | [] => []
  end.

Definition lstrip_by (p : N → bool) (s : pystr) : pystr := dropwhile p s.
Definition rstrip_by (p : N → bool) (s : pystr) : pystr :=
  rev (dropwhile p (rev s)).
Definition strip_by (p : N → bool) (s : pystr) : pystr :=
  rstrip_by p (lstrip_by p s).

(** [s.strip()] *)
Definition strip (s : pystr) : pystr := strip_by isspace s.

Definition mem (c : N) (chars : pystr) : bool :=
  existsb (N.eqb c) chars.

(** [s.strip(chars)] *)
Definition strip_chars (chars s : pystr) : pystr :=
  strip_by (λ c, mem c chars) s.

(** [s.split(sep)] for a separator of one character; the result is
    never empty. *)
Fixpoint split (sep : N) (s : pystr) : list pystr :=
  match s with
  | [] => [[]]
  | c :: r =>
      if (c =? sep)%N then [] :: split sep r
      else match split sep r with
           | w :: ws => (c :: w) :: ws
           | [] => [[c]]
           end
  end.

(** [s.startswith(pre)] *)
Fixpoint startswith (pre s : pystr) : bool :=
  match pre, s with
  | [], _ => true
  | p :: pre', c :: s' => (p =? c)%N && startswith pre' s'
  | _ :: _, [] => false
  end.

(** [s.endswith(suf)] *)
Definition endswith (suf s : pystr) : bool :=
  startswith (rev suf) (rev s).

(** Universal-newline translation of a text-mode file opened with
    [newline=None]: CR LF and a lone CR are read as LF. *)
Fixpoint universal_newlines (s : pystr) : pystr :=
  match s with
  | [] => []
  | c :: r =>
      if (c =? 13)%N then
        match r with
        | d :: r' => if (d =? 10)%N then 10%N :: universal_newlines r'
                     else 10%N :: universal_newlines r
        | [] => [10%N]
        end
      else c :: universal_newlines r
  end.

(** The lines a text-mode file yields when iterated: each keeps its
    terminating LF; the last one may lack it. *)
Fixpoint lines_keepends (s : pystr) : list pystr :=
  match s with
  | [] => []
  | c :: r =>
      if (c =? 10)%N then [c] :: lines_keepends r
      else match lines_keepends r with
           | l :: ls => (c :: l) :: ls
           | [] => [[c]]
           end
  end.

Definition text_lines (s : pystr) : list pystr :=
  lines_keepends (universal_newlines s).

(** The code points of the digit zero of every decimal script (category
    Nd, Unicode 14 as shipped with CPython 3.11); the nine digits that
    follow each have the values 1 to 9. *)
Definition decimal_zeros : list N :=
  [48; 1632; 1776; 1984; 2406; 2534; 2662; 2790;
   2918; 3046; 3174; 3302; 3430; 3558; 3664; 3792;
   3872; 4160; 4240; 6112; 6160; 6470; 6608; 6784;
   6800; 6992; 7088; 7232; 7248; 42528; 43216; 43264;
   43472; 43504; 43600; 44016; 65296; 66720; 68912; 69734;
   69872; 69942; 70096; 70384; 70736; 70864; 71248; 71360;
   71472; 71904; 72016; 72784; 73040; 73120; 92768; 92864;
   93008; 120782; 120792; 120802; 120812; 120822; 123200; 123632;
   125264; 130032]%N.

(** [unicodedata.decimal] *)
Definition decimal (c : N) : option N :=
  match find (λ z, (z <=? c) && (c <? z + 10))%N decimal_zeros with
  | Some z => Some (c - z)%N
  | None => None
  end.

End PyStr.

(** ** UTF-8 decoding with [errors='ignore'] *)

Module Utf8.

Definition is_cont (b : N) : bool := ((128 <=? b) && (b <? 192))%N.

(** The second byte of a three-byte sequence: E0 needs A0..BF (no
    overlong form), ED needs 80..9F (no surrogate). *)
Definition second3 (b0 b1 : N) : bool :=
  (is_cont b1 && negb ((b0 =? 224) && (b1 <? 160))
   && negb ((b0 =? 237) && (160 <=? b1)))%N.

(** The second byte of a four-byte sequence: F0 needs 90..BF, F4 needs
    80..8F. *)
Definition second4 (b0 b1 : N) : bool :=
  (is_cont b1 && negb ((b0 =? 240) && (b1 <? 144))
   && negb ((b0 =? 244) && (144 <=? b1)))%N.

Definition cp2 (b0 b1 : N) : N :=
  N.lor (N.shiftl (N.land b0 31) 6) (N.land b1 63).
Definition cp3 (b0 b1 b2 : N) : N :=
  N.lor (N.shiftl (N.land b0 15) 12)
    (N.lor (N.shiftl (N.land b1 63) 6) (N.land b2 63)).
Definition cp4 (b0 b1 b2 b3 : N) : N :=
  N.lor (N.shiftl (N.land b0 7) 18)
    (N.lor (N.shiftl (N.land b1 63) 12)
       (N.lor (N.shiftl (N.land b2 63) 6) (N.land b3 63))).

(** CPython's decoder reports an invalid start byte as an error of one
    byte, an invalid continuation byte as an error covering the bytes
    before it, and a truncated sequence as an error reaching the end of
    the data; the [ignore] handler drops the bytes of the error and
    resumes behind them. *)
Fixpoint decode_ignore (bs : list N) : pystr :=
  match bs with
  | [] => []
  | b0 :: r0 =>
      if (b0 <? 128)%N then b0 :: decode_ignore r0
      else if (b0 <? 194)%N then decode_ignore r0
      else if (b0 <? 224)%N then
        match r0 with
        | [] => []
        | b1 :: r1 =>
            if is_cont b1 then cp2 b0 b1 :: decode_ignore r1
            else decode_ignore r0
        end
      else if (b0 <? 240)%N then
        match r0 with
        | [] => []
        | b1 :: r1 =>
            if second3 b0 b1 then
              match r1 with
              | [] => []
              | b2 :: r2 =>
                  if is_cont b2 then cp3 b0 b1 b2 :: decode_ignore r2
                  else decode_ignore r1
              end
            else decode_ignore r0
        end
      else if (b0 <? 245)%N then
        match r0 with
        | [] => []
        | b1 :: r1 =>
            if second4 b0 b1 then
              match r1 with
              | [] => []
              | b2 :: r2 =>
                  if is_cont b2 then
                    match r2 with
                    | [] => []
                    | b3 :: r3 =>
                        if is_cont b3 then
                          cp4 b0 b1 b2 b3 :: decode_ignore r3
                        else decode_ignore r2
                    end
                  else decode_ignore r1
              end
            else decode_ignore r0
        end
      else decode_ignore r0
  end.

(** [content.decode('utf-8', errors='ignore')] *)
Definition decode (content : pybytes) : pystr :=
  decode_ignore (map Byte.to_N content).

End Utf8.

(** ** Exceptions and results *)

Inductive exn :=
| FileNotFoundError | PermissionError | IsADirectoryError | NotADirectoryError
| SameFileError | OSError
| ValueError | TypeError | OverflowError | IndexError | ZeroDivisionError
| KeyboardInterrupt | SystemExit.

#[global] Instance exn_eq_dec : EqDecision exn.
Proof. solve_decision. Defined.

(** [except Exception] catches everything but the two exceptions that
    derive from [BaseException] directly. *)
Definition is_Exception (e : exn) : bool :=
  match e with
  | KeyboardInterrupt | SystemExit => false
  | _ => true
  end.

(** ** Python values, as far as the settings dictionary holds them

    [json.load] yields [None], booleans, integers, floats (the literals
    [Infinity] and [NaN] included), strings, lists and dictionaries; the
    menu stores integers, floats and strings. *)

Inductive pyval :=
| PyNone
| PyBool (b : bool)
| PyInt (z : Z)
| PyFloat (f : spec_float)
| PyStr (s : pystr)
| PyList
| PyDict.

Module PyInt.
Import PyStr.

(** [_PyUnicode_TransformDecimalAndSpaceToASCII]: outside ASCII, a space
    becomes a blank, a decimal digit its ASCII digit and anything else a
    question mark. *)
Definition to_ascii (c : N) : N :=
  (if c <? 128 then c
   else if isspace c then 32
   else match decimal c with
        | Some d => 48 + d
        | None => 63
        end)%N.

(** [Py_ISSPACE] and [isdigit] of the C locale. *)
Definition c_isspace (c : N) : bool := ((9 <=? c) && (c <=? 13) || (c =? 32))%N.
Definition c_isdigit (c : N) : bool := ((48 <=? c) && (c <=? 57))%N.

(** The digit scan of [PyLong_FromString] in base 10: digits, with single
    underscores between them. [prev] is the character before, [acc] the
    value so far, [digits] the number of digits seen. *)
Fixpoint scan_digits (s : list N) (prev : N) (acc : Z) (digits : N)
  : option (Z * N * list N) :=
  match s with
  | c :: r =>
      if c_isdigit c then
        scan_digits r c (10 * acc + Z.of_N (c - 48)) (digits + 1)%N
      else if (c =? 95)%N then
        if (prev =? 95)%N then None else scan_digits r c acc digits
      else if (prev =? 95)%N then None else Some (acc, digits, s)
  | [] => if (prev =? 95)%N then None else Some (acc, digits, [])
  end.

(** [sys.int_info.default_max_str_digits] *)
Definition int_max_str_digits : N := 4300.

Definition parse_sign (s : list N) : bool * list N :=
  match s with
  | c :: r =>
      if (c =? 43)%N then (false, r)
      else if (c =? 45)%N then (true, r)
      else (false, s)
  | [] => (false, [])
  end.

Definition leading_underscore (s : list N) : bool :=
  match s with
  | c :: _ => (c =? 95)%N
  | [] => false
  end.

(** [PyLong_FromString(s, &end, 10)] followed by the check that the whole
    buffer was consumed; [None] is [ValueError]. *)
Definition long_from_string (s : list N) : option Z :=
  let '(neg, body) := parse_sign (dropwhile c_isspace s) in
  if leading_underscore body then None
  else
    match scan_digits body 0 0 0 with
    | Some (v, digits, rest) =>
        if (digits =? 0)%N then None
        else if (int_max_str_digits <? digits)%N then None
        else match dropwhile c_isspace rest with
             | [] => Some (if neg then - v else v)
             | _ :: _ => None
             end
    | None => None
    end.

(** [int(s)] for a [str]. *)
Definition of_str (s : pystr) : exn + Z :=
  match long_from_string (map to_ascii s) with
  | Some z => inr z
  | None => inl ValueError
  end.

(** [int(f)] for a [float]: truncation towards zero. *)
Definition of_float (f : spec_float) : exn + Z :=
  match f with
  | S754_zero _ => inr 0
  | S754_infinity _ => inl OverflowError
  | S754_nan => inl ValueError
  | S754_finite neg m e =>
      let mag := if 0 <=? e then Z.pos m * 2 ^ e else Z.pos m / 2 ^ (- e) in
      inr (if neg then - mag else mag)
  end.

(** [int(v)] *)
Definition int (v : pyval) : exn + Z :=
  match v with
  | PyNone => inl TypeError
  | PyBool b => inr (if b then 1 else 0)
  | PyInt z => inr z
  | PyFloat f => of_float f
  | PyStr s => of_str s
  | PyList | PyDict => inl TypeError
  end.

End PyInt.

(** ** The world: a file system and the console

    Files are addressed by the list of their path components; [resolve]
    walks a path string as a POSIX system does (empty components and [.]
    are skipped, [..] steps up), with the working directory at the root. *)

Inductive kind :=
| KFile (data : pybytes)
| KDir.

Record node := Node {
  n_kind : kind;
  n_mtime : spec_float;      (* st_mtime, as [os.path.getmtime] returns it *)
  n_readable : bool;         (* opening for reading is permitted *)
  n_locked : bool            (* removal and overwriting are refused *)
}.

(** One entry per [log] call site that the engine reaches, with the
    values interpolated into its message. *)
Inductive log_entry :=
| LogTagWarning (e : exn)
| LogCleanedUp (fname : pystr) (backup_year : Z)
| LogWatching
| LogBackupCreated (backup_name : pystr)
| LogReturningToMenu
| LogResumed
| LogGoodbye.

Record world := World {
  w_fs : gmap (list pystr) node;
  w_free : N;                     (* free space on the volume, in bytes *)
  w_console : list log_entry;     (* what [log] has printed, oldest first *)
  w_clock : spec_float            (* the system clock, which stamps a write *)
}.

Inductive res (A : Type) :=
| Ok (a : A) (w : world)
| Raise (e : exn) (w : world).
Arguments Ok {A} a w.
Arguments Raise {A} e w.

(** Computations that read and change the world and may raise. *)
Definition M (A : Type) : Type := world → res A.

Definition ret {A} (a : A) : M A := λ w, Ok a w.
Definition raise {A} (e : exn) : M A := λ w, Raise e w.
Definition bind {A B} (m : M A) (k : A → M B) : M B :=
  λ w, match m w with
       | Ok a w' => k a w'
       | Raise e w' => Raise e w'
       end.
Definition lift {A} (r : exn + A) : M A :=
  match r with
  | inr a => ret a
  | inl e => raise e
  end.

(** [try: m  except <exceptions matching catches>: handler] *)
Definition try_except {A} (m : M A) (catches : exn → bool) (handler : exn → M A)
  : M A :=
  λ w, match m w with
       | Ok a w' => Ok a w'
       | Raise e w' => if catches e then handler e w' else Raise e w'
       end.

Notation "'let*' x := m 'in' k" := (bind m (λ x, k))
  (at level 10, x name, m at level 100, k at level 200).

(** [log(msg, ...)]: the line goes to the console. *)
Definition log (entry : log_entry) : M unit :=
  λ w, Ok tt (World (w_fs w) (w_free w) (w_console w ++ [entry])
                    (w_clock w)).

Module OS.
Import PyStr.

Definition slash : N := 47.

(** One step along a path: an empty component and [.] stay, [..] steps
    up, a name steps down. *)
Definition walk (acc : list pystr) (c : pystr) : list pystr :=
  if bool_decide (c = []) || bool_decide (c = py ".") then acc
  else if bool_decide (c = py "..") then removelast acc
  else acc ++ [c].

(** The file that the path string [p] addresses. *)
Definition resolve (p : pystr) : list pystr :=
  fold_left walk (split slash p) [].

(** [os.path.join(a, b)] of [posixpath] *)
Definition join (a b : pystr) : pystr :=
  if startswith [slash] b then b
  else if bool_decide (a = []) || endswith [slash] a then a ++ b
  else a ++ slash :: b.

(** [os.path.basename(p)] *)
Definition basename (p : pystr) : pystr :=
  match last (split slash p) with
  | Some b => b
  | None => []
  end.

Definition lookup_path (p : pystr) (w : world) : option node :=
  w_fs w !! resolve p.

(** Some directory on the way to [key] is in fact a file. *)
Definition under_file (key : list pystr) (fs : gmap (list pystr) node)
  : bool :=
  existsb (λ i, match fs !! take i key with
                | Some (Node (KFile _) _ _ _) => true
                | _ => false
                end)
          (seq 1 (length key - 1)).

(** The error for a path at which nothing is found: ENOTDIR when a
    component on the way is a file, ENOENT otherwise. *)
Definition absent_error (p : pystr) (w : world) : exn :=
  if under_file (resolve p) (w_fs w) then NotADirectoryError
  else FileNotFoundError.

(** [os.path.getmtime(path)] *)
Definition getmtime (path : pystr) : M spec_float :=
  λ w, match lookup_path path w with
       | Some n => Ok (n_mtime n) w
       | None => Raise (absent_error path w) w
       end.

(** [open(path, 'rb')] followed by [f.read()], and equally what opening
    the file in text mode needs. *)
Definition read_bytes (path : pystr) : M pybytes :=
  λ w, match lookup_path path w with
       | None => Raise (absent_error path w) w
       | Some n =>
           match n_kind n with
           | KDir => Raise IsADirectoryError w
           | KFile data =>
               if n_readable n then Ok data w else Raise PermissionError w
           end
       end.

(** The names directly below the directory [d], in the order the map
    enumerates them. *)
Definition entries (d : list pystr) (fs : gmap (list pystr) node)
  : list pystr :=
  omap (λ kn : list pystr * node,
          match last kn.1 with
          | Some name =>
              if bool_decide (kn.1 = d ++ [name]) then Some name else None
          | None => None
          end)
       (map_to_list fs).

(** [os.listdir(path)] *)
Definition listdir (path : pystr) : M (list pystr) :=
  λ w, match lookup_path path w with
       | None => Raise (absent_error path w) w
       | Some n =>
           match n_kind n with
           | KFile _ => Raise NotADirectoryError w
           | KDir =>
               if n_readable n then Ok (entries (resolve path) (w_fs w)) w
               else Raise PermissionError w
           end
       end.

(** [os.remove(path)] *)
Definition remove (path : pystr) : M unit :=
  λ w, match lookup_path path w with
       | None => Raise (absent_error path w) w
       | Some n =>
           match n_kind n with
           | KDir => Raise IsADirectoryError w
           | KFile data =>
               if n_locked n then Raise PermissionError w
               else Ok tt (World (delete (resolve path) (w_fs w))
                             (w_free w + N.of_nat (length data))
                             (w_console w) (w_clock w))
           end
       end.

(** The directory that is to hold [key] exists. *)
Definition parent_check (key : list pystr) (w : world) : option exn :=
  match removelast key with
  | [] => None
  | d => match w_fs w !! d with
         | None => Some FileNotFoundError
         | Some n => match n_kind n with
                     | KDir => if n_locked n then Some PermissionError else None
                     | KFile _ => Some NotADirectoryError
                     end
         end
  end.

(** What a copy that runs out of space leaves at the destination: the
    file was opened for writing, which keeps the permissions of a file
    that was there, and holds as many bytes as fitted, stamped by the
    clock; the metadata of the source were not yet copied. *)
Definition torn (data : pybytes) (room : N) (old : option node)
    (clock : spec_float) : node :=
  Node (KFile (take (N.to_nat room) data)) clock
       (match old with Some n => n_readable n | None => true end) false.

(** [shutil.copy2(src, dst)]: the content and the modification time of
    [src] are written to [dst], or into [dst] when that is a directory.
    The source is opened first and the destination second, so that a
    failure of either leaves the files as they were; the destination is
    then truncated and written, and a volume that is full leaves it
    torn. The metadata are copied last, which is taken to succeed: the
    files belong to the user who runs the script. *)
Definition copy2 (src dst : pystr) : M unit :=
  λ w,
    let dst' := match lookup_path dst w with
                | Some (Node KDir _ _ _) => join dst (basename src)
                | _ => dst
                end in
    match lookup_path src w with
    | None => Raise (absent_error src w) w
    | Some n =>
        if bool_decide (resolve src = resolve dst') then Raise SameFileError w
        else
          match n_kind n with
          | KDir => Raise IsADirectoryError w
          | KFile data =>
              if negb (n_readable n) then Raise PermissionError w
              else
                match parent_check (resolve dst') w with
                | Some e => Raise e w
                | None =>
                    let old := match lookup_path dst' w with
                               | Some (Node (KFile d) _ _ _) => N.of_nat (length d)
                               | _ => 0%N
                               end in
                    match lookup_path dst' w with
                    | Some (Node KDir _ _ _) => Raise IsADirectoryError w
                    | Some (Node (KFile _) _ _ true) => Raise PermissionError w
                    | _ =>
                        if (w_free w + old <? N.of_nat (length data))%N
                        then Raise OSError
                               (World
                                  (<[resolve dst' :=
                                       torn data (w_free w + old)
                                            (lookup_path dst' w) (w_clock w)]>
                                     (w_fs w))
                                  0 (w_console w) (w_clock w))
                        else Ok tt (World
                                      (<[resolve dst' := Node (KFile data) (n_mtime n)
                                                           (n_readable n) false]> (w_fs w))
                                      (w_free w + old - N.of_nat (length data))
                                      (w_console w) (w_clock w))
                    end
                end
          end
    end.

End OS.

(** ** The metadata scanners *)

Import PyStr.

(** [l[i]] *)
Definition item (l : list pystr) (i : nat) : exn + pystr :=
  match l !! i with
  | Some x => inr x
  | None => inl IndexError
  end.

(** [line.split('=')[1]], stripped of white space and then of double
    quotes (code point 34). *)
Definition value_of (line : pystr) : exn + pystr :=
  match item (split 61 line) 1 with
  | inr v => inr (strip_chars [34%N] (strip v))
  | inl e => inl e
  end.

(** [tag and tag != '---'] *)
Definition tag_set (tag : pystr) : bool :=
  negb (bool_decide (tag = [])) && negb (bool_decide (tag = py "---")).

(** The [for] loop over the lines in [get_player_tag]; the first pass
    tests [line.strip()], the second [line] itself. [Some tag] is the
    [return tag] inside the loop. *)
Fixpoint scan_player (stripped : bool) (lines : list pystr)
  : exn + option pystr :=
  match lines with
  | [] => inr None
  | line :: rest =>
      if startswith (py "player=") (if stripped then strip line else line)
      then
        match value_of line with
        | inl e => inl e
        | inr tag =>
            if tag_set tag then inr (Some tag)
            else scan_player stripped rest
        end
      else scan_player stripped rest
  end.

(** The [for] loop over the lines in [get_save_year] and
    [get_backup_year]: the first [date=] line decides. *)
Fixpoint scan_date (stripped : bool) (lines : list pystr)
  : exn + option Z :=
  match lines with
  | [] => inr None
  | line :: rest =>
      if startswith (py "date=") (if stripped then strip line else line)
      then
        match value_of line with
        | inl e => inl e
        | inr date_str =>
            match item (split 46 date_str) 0 with
            | inl e => inl e
            | inr y =>
                match PyInt.of_str y with
                | inl e => inl e
                | inr year => inr (Some year)
                end
            end
        end
      else scan_date stripped rest
  end.

(** The lines of the first pass: the whole content decoded, split at
    line feeds. *)
Definition binary_lines (content : pybytes) : list pystr :=
  split 10 (Utf8.decode content).

(** The lines of the second pass: the file opened as text with
    [encoding='utf-8', errors='ignore'] and iterated. *)
Definition read_text_lines (path : pystr) : M (list pystr) :=
  let* content := OS.read_bytes path in
  ret (text_lines (Utf8.decode content)).

Definition get_mtime (path : pystr) : M (option spec_float) :=
  try_except
    (let* t := OS.getmtime path in ret (Some t))
    (λ e, bool_decide (e = FileNotFoundError))
    (λ _, ret None).

Definition UNKNOWN : pystr := py "UNKNOWN".

(** The statements inside [try:] in [get_player_tag]; [Some tag] is a
    [return tag], [None] is falling out of the block. *)
Definition player_tag_body (save_path : pystr) : M (option pystr) :=
  let* content := OS.read_bytes save_path in
  let* first := lift (scan_player true (binary_lines content)) in
  match first with
  | Some tag => ret (Some tag)
  | None =>
      let* lines := read_text_lines save_path in
      lift (scan_player false lines)
  end.

Definition get_player_tag (save_path : pystr) : M pystr :=
  let* found :=
    try_except (player_tag_body save_path) is_Exception
      (λ e, let* _ := log (LogTagWarning e) in ret None) in
  match found with
  | Some tag => ret tag
  | None => ret UNKNOWN
  end.

(** The statements inside [try:] in [get_save_year]. *)
Definition save_year_body (save_path : pystr) : M (option Z) :=
  let* content := OS.read_bytes save_path in
  let* first := lift (scan_date true (binary_lines content)) in
  match first with
  | Some year => ret (Some year)
  | None =>
      let* lines := read_text_lines save_path in
      lift (scan_date false lines)
  end.

Definition get_save_year (save_path : pystr) : M (option Z) :=
  try_except (save_year_body save_path) is_Exception (λ _, ret None).

(** The statements inside [try:] in [get_backup_year], the same as in
    [get_save_year]. *)
Definition backup_year_body (filename : pystr) : M (option Z) :=
  let* content := OS.read_bytes filename in
  let* first := lift (scan_date true (binary_lines content)) in
  match first with
  | Some year => ret (Some year)
  | None =>
      let* lines := read_text_lines filename in
      lift (scan_date false lines)
  end.

Definition get_backup_year (filename : pystr) : M (option Z) :=
  try_except (backup_year_body filename) is_Exception (λ _, ret None).

(** ** Pruning *)

Definition eu4_ext : pystr := py ".eu4".

(** The body of the [for fname in os.listdir(backup_dir)] loop. *)
Definition cleanup_entry (backup_dir : pystr) (current_year keep_years : Z)
    (fname : pystr) : M unit :=
  if endswith eu4_ext fname then
    let fpath := OS.join backup_dir fname in
    let* backup_year := get_backup_year fpath in
    match backup_year with
    | Some y =>
        if y <? current_year - keep_years then
          try_except
            (let* _ := OS.remove fpath in log (LogCleanedUp fname y))
            is_Exception
            (λ _, ret tt)
        else ret tt
    | None => ret tt
    end
  else ret tt.

Fixpoint cleanup_loop (backup_dir : pystr) (current_year keep_years : Z)
    (names : list pystr) : M unit :=
  match names with
  | [] => ret tt
  | fname :: rest =>
      let* _ := cleanup_entry backup_dir current_year keep_years fname in
      cleanup_loop backup_dir current_year keep_years rest
  end.

(** [keep_years == 'all'] *)
Definition is_all (keep_years : pyval) : bool :=
  match keep_years with
  | PyStr s => bool_decide (s = py "all")
  | _ => false
  end.

Definition cleanup_old_backups (backup_dir : pystr) (current_year : Z)
    (keep_years : pyval) : M unit :=
  if is_all keep_years then ret tt
  else
    match PyInt.int keep_years with
    | inl e =>
        if bool_decide (e = TypeError) || bool_decide (e = ValueError)
        then ret tt
        else raise e
    | inr keep =>
        let* names := OS.listdir backup_dir in
        cleanup_loop backup_dir current_year keep names
    end.

(** ** The monitoring loop *)

(** The fields of [time.localtime()] that the backup name uses. *)
Record struct_time := StructTime {
  tm_year : N; tm_mon : N; tm_mday : N;
  tm_hour : N; tm_min : N; tm_sec : N
}.

(** The ASCII digit for the units of [n]. *)
Definition digit (n : N) : N := (48 + n mod 10)%N.

(** The decimal digits of [n], units first. *)
Fixpoint decimal_rev (fuel : nat) (n : N) : pystr :=
  match fuel with
  | O => []
  | S fuel' =>
      digit n :: (if (n <? 10)%N then [] else decimal_rev fuel' (n / 10))
  end.

(** [n] in decimal, as [%Y] prints the year; a number has no more
    decimal digits than binary ones. *)
Definition decimal_str (n : N) : pystr :=
  rev (decimal_rev (S (N.to_nat (N.log2 n))) n).

(** A field printed with at least two digits, as [%m %d %H %M %S] are. *)
Definition pad2 (n : N) : pystr :=
  if (n <? 10)%N then 48%N :: decimal_str n else decimal_str n.

(** [time.strftime('%Y-%m-%d_%H-%M-%S')] at the local time [t]. *)
Definition strftime (t : struct_time) : pystr :=
  decimal_str (tm_year t) ++ py "-" ++ pad2 (tm_mon t) ++ py "-"
  ++ pad2 (tm_mday t) ++ py "_" ++ pad2 (tm_hour t) ++ py "-"
  ++ pad2 (tm_min t) ++ py "-" ++ pad2 (tm_sec t).

(** The settings as the loop reads them, every [settings.get] default
    applied; the two paths are strings. *)
Record settings := Settings {
  SOURCE : pystr;
  BACKUP_DIR : pystr;
  interval : pyval;
  keep_years : pyval
}.

Record monitor := Monitor {
  m_settings : settings;
  heartbeat : Z;
  last_mtime : option spec_float
}.

(** Truth value of a float: every float but zero. *)
Definition float_truthy (f : spec_float) : bool :=
  negb (SFeqb f (S754_zero false)).

(** [a != b] where [a] is a float and [b] a float or [None]. *)
Definition mtime_ne (a : spec_float) (b : option spec_float) : bool :=
  match b with
  | Some b' => negb (SFeqb a b')
  | None => true
  end.

(** [current_mtime and current_mtime != last_mtime] *)
Definition mtime_changed (current_mtime last : option spec_float) : bool :=
  match current_mtime with
  | Some c => float_truthy c && mtime_ne c last
  | None => false
  end.

(** [heartbeat % interval == 0]. The float case relies on [fmod] being
    exact and on the heartbeat being below 2^53, where its conversion to
    a float is exact as well. *)
Definition mod_is_zero (h : Z) (v : pyval) : exn + bool :=
  match v with
  | PyInt z => if z =? 0 then inl ZeroDivisionError else inr (h mod z =? 0)
  | PyBool b => if b then inr true else inl ZeroDivisionError
  | PyFloat f =>
      match f with
      | S754_zero _ => inl ZeroDivisionError
      | S754_infinity _ => inr (h =? 0)
      | S754_nan => inr false
      | S754_finite _ m e =>
          inr (if 0 <=? e then h mod (Z.pos m * 2 ^ e) =? 0
               else (h * 2 ^ (- e)) mod Z.pos m =? 0)
      end
  | PyNone | PyStr _ | PyList | PyDict => inl TypeError
  end.

Definition backup_name_of (tag timestamp : pystr) : pystr :=
  py "mp_autosave_" ++ tag ++ py "_" ++ timestamp ++ py ".eu4".

(** The backup itself: the tag, the name, the copy and its log line. *)
Definition make_backup (now : struct_time) (cfg : settings) : M unit :=
  let* tag := get_player_tag (SOURCE cfg) in
  let timestamp := strftime now in
  let backup_name := backup_name_of tag timestamp in
  let backup_path := OS.join (BACKUP_DIR cfg) backup_name in
  let* _ := OS.copy2 (SOURCE cfg) backup_path in
  log (LogBackupCreated backup_name).

(** The cleanup that follows a backup. *)
Definition prune_after_backup (cfg : settings) : M unit :=
  let* current_year := get_save_year (SOURCE cfg) in
  match current_year with
  | Some y => cleanup_old_backups (BACKUP_DIR cfg) y (keep_years cfg)
  | None => ret tt
  end.

(** The statements under [if heartbeat % interval == 0:]. *)
Definition change_check (now : struct_time) (st : monitor) : M monitor :=
  let cfg := m_settings st in
  let* current_mtime := get_mtime (SOURCE cfg) in
  let* _ := if heartbeat st mod 10 =? 0 then log LogWatching else ret tt in
  if mtime_changed current_mtime (last_mtime st) then
    let* _ := make_backup now cfg in
    let* _ := prune_after_backup cfg in
    ret (Monitor cfg (heartbeat st) current_mtime)
  else ret st.

(** What the operator does during one second of sleep: nothing, Ctrl+Q
    (the settings menu then either hands back settings or calls
    [exit(0)]), or Ctrl+C. *)
Inductive keypress :=
| NoKey
| CtrlQ (menu : option settings)
| CtrlC.

(** The surroundings of one iteration: what other processes did to the
    world while the loop slept, the key pressed and the local time. *)
Record tick_env := TickEnv {
  te_others : world → world;
  te_key : keypress;
  te_now : struct_time
}.

(** The body of [while True:]. *)
Definition tick (env : tick_env) (st : monitor) : M monitor :=
  let st1 := Monitor (m_settings st) (heartbeat st + 1) (last_mtime st) in
  match te_key env with
  | CtrlC => raise KeyboardInterrupt
  | CtrlQ menu =>
      let* _ := log LogReturningToMenu in
      match menu with
      | None => raise SystemExit
      | Some cfg =>
          let* _ := log LogResumed in
          let* t := get_mtime (SOURCE cfg) in
          ret (Monitor cfg 0 t)
      end
  | NoKey =>
      let* due := lift (mod_is_zero (heartbeat st1) (interval (m_settings st1))) in
      if due then change_check (te_now env) st1 else ret st1
  end.

(** The statements before the loop: [heartbeat = 0] and the first
    sample of the modification time. *)
Definition start (cfg : settings) : M monitor :=
  let* t := get_mtime (SOURCE cfg) in
  ret (Monitor cfg 0 t).

Inductive outcome :=
| Running (st : monitor) (w : world)   (* the loop is still going *)
| Exited (w : world)                   (* [exit(0)] *)
| Crashed (e : exn) (w : world).       (* an uncaught exception *)

(** The [try: while True: ... except KeyboardInterrupt:] statement, run
    for as many iterations as there are surroundings. *)
Fixpoint run (envs : list tick_env) (st : monitor) (w : world) : outcome :=
  match envs with
  | [] => Running st w
  | env :: rest =>
      match tick env st (te_others env w) with
      | Ok st' w' => run rest st' w'
      | Raise KeyboardInterrupt w' =>
          match log LogGoodbye w' with
          | Ok _ w'' => Exited w''
          | Raise e w'' => Crashed e w''
          end
      | Raise SystemExit w' => Exited w'
      | Raise e w' => Crashed e w'
      end
  end.

(** ** Derived notions used in the statements *)

(** What [open(path, 'rb')] and [f.read()] give at a node. *)
Definition read_node (o : option node) : exn + pybytes :=
  match o with
  | None => inl FileNotFoundError
  | Some n =>
      match n_kind n with
      | KDir => inl IsADirectoryError
      | KFile data => if n_readable n then inr data else inl PermissionError
      end
  end.

(** What reading the file at [path] gives. *)
Definition read_at (path : pystr) (w : world) : exn + pybytes :=
  match OS.lookup_path path w with
  | None => inl (OS.absent_error path w)
  | Some n => read_node (Some n)
  end.

(** What [os.path.getmtime] gives at [path], seen through [get_mtime]. *)
Definition mtime_at (path : pystr) (w : world) : exn + option spec_float :=
  match OS.lookup_path path w with
  | Some n => inr (Some (n_mtime n))
  | None =>
      if OS.under_file (OS.resolve path) (w_fs w) then inl NotADirectoryError
      else inr None
  end.

(** The tag that both passes of [get_player_tag] find in a content;
    [inl] when a pass raises. *)
Definition tag_of_content (data : pybytes) : exn + option pystr :=
  match scan_player true (binary_lines data) with
  | inl e => inl e
  | inr (Some tag) => inr (Some tag)
  | inr None => scan_player false (text_lines (Utf8.decode data))
  end.

(** The year that both passes of [get_save_year] and [get_backup_year]
    find in a content. *)
Definition year_of_content (data : pybytes) : exn + option Z :=
  match scan_date true (binary_lines data) with
  | inl e => inl e
  | inr (Some y) => inr (Some y)
  | inr None => scan_date false (text_lines (Utf8.decode data))
  end.

Definition node_year (o : option node) : option Z :=
  match read_node o with
  | inr data =>
      match year_of_content data with
      | inr y => y
      | inl _ => None
      end
  | inl _ => None
  end.

(** The tag [get_player_tag] returns for what it read, and the warning
    it logs when its [try] block raised. *)
Definition node_tag (r : exn + pybytes) : pystr * list log_entry :=
  match r with
  | inr data =>
      match tag_of_content data with
      | inr (Some tag) => (tag, [])
      | inr None => (UNKNOWN, [])
      | inl e => (UNKNOWN, [LogTagWarning e])
      end
  | inl e => (UNKNOWN, [LogTagWarning e])
  end.

Definition printed (w : world) (lines : list log_entry) : world :=
  World (w_fs w) (w_free w) (w_console w ++ lines) (w_clock w).

(** [a == b] on what [get_mtime] returns: a float or [None]. *)
Definition mtime_eq (a b : option spec_float) : bool :=
  match a, b with
  | Some x, Some y => SFeqb x y
  | None, None => true
  | _, _ => false
  end.

(** The line [Watching for file changes...], printed on every tenth
    heartbeat. *)
Definition watching (h : Z) : list log_entry :=
  if h mod 10 =? 0 then [LogWatching] else [].

(** The state after [heartbeat += 1]. *)
Definition beat (st : monitor) : monitor :=
  Monitor (m_settings st) (heartbeat st + 1) (last_mtime st).

(** The name of the backup that a tick at time [now] writes for a source
    read as [r]. *)
Definition backup_name_at (now : struct_time) (r : exn + pybytes) : pystr :=
  backup_name_of (node_tag r).1 (strftime now).

(** The claim that a failing copy leaves the loop running: whenever the
    copy of a due backup raises, the iteration still completes. *)
Definition copy_failure_is_survived : Prop :=
  ∀ env st w cur e w',
    te_key env = NoKey →
    mod_is_zero (heartbeat st + 1) (interval (m_settings st)) = inr true →
    get_mtime (SOURCE (m_settings st)) w = Ok cur w →
    mtime_changed cur (last_mtime st) = true →
    OS.copy2 (SOURCE (m_settings st))
      (OS.join (BACKUP_DIR (m_settings st))
         (backup_name_at (te_now env) (read_at (SOURCE (m_settings st)) w)))
      (printed w (watching (heartbeat st + 1)
                  ++ (node_tag (read_at (SOURCE (m_settings st)) w)).2))
    = Raise e w' →
    ∃ st' w'', tick env st w = Ok st' w''.

(** ** Sample worlds *)

Definition LF : Byte.byte := Byte.x0a.
Definition CR : Byte.byte := Byte.x0d.

Definition sample_file (data : pybytes) (mtime : positive) : node :=
  Node (KFile data) (S754_finite false mtime 0) true false.

Definition sample_dir : node :=
  Node KDir (S754_finite false 1 0) true false.

(** The clock of the sample worlds. *)
Definition sample_clock : spec_float := S754_finite false 9 0.

Definition sample_time : struct_time := StructTime 2024 1 2 3 4 5.

Definition sample_save : pybytes :=
  pyb "EU4txt" ++ [LF] ++ pyb "date=1523.4.12" ++ [LF]
  ++ pyb "player=" ++ [Byte.x22] ++ pyb "SWE" ++ [Byte.x22; LF].

(** A save game, changed at time 7, and no backup directory. *)
Definition world_without_backup_dir : world :=
  World (list_to_map
           [([py "saves"], sample_dir);
            ([py "saves"; py "mp_autosave.eu4"], sample_file sample_save 7)])
        1000 [] sample_clock.

Definition sample_settings (keep : pyval) : settings :=
  Settings (py "/saves/mp_autosave.eu4") (py "/saves/backups")
    (PyFloat (S754_finite false 15 2)) keep.

Definition sample_env : tick_env := TickEnv id NoKey sample_time.

(** A monitor one heartbeat before its next change check (the interval is
    60.0), remembering the modification time [t]. *)
Definition sample_monitor (keep : pyval) (t : positive) : monitor :=
  Monitor (sample_settings keep) 59 (Some (S754_finite false t 0)).

(** The save game and an empty backup directory on a volume with room
    for ten more bytes. *)
Definition world_with_full_volume : world :=
  World (list_to_map
           [([py "saves"], sample_dir);
            ([py "saves"; py "mp_autosave.eu4"], sample_file sample_save 7);
            ([py "saves"; py "backups"], sample_dir)])
        10 [] sample_clock.

(** The same save game, with no file at the source path. *)
Definition world_without_source : world :=
  World (list_to_map [([py "saves"], sample_dir)]) 1000 [] sample_clock.

(** ** Notions for the pruning pass *)

(** The file that the loop addresses for the directory entry [fname]. *)
Definition entry_key (backup_dir fname : pystr) : list pystr :=
  OS.resolve (OS.join backup_dir fname).

(** [os.remove] succeeds on the node. *)
Definition removable (o : option node) : bool :=
  match o with
  | Some n =>
      match n_kind n with
      | KFile _ => negb (n_locked n)
      | KDir => false
      end
  | None => false
  end.

(** The year of the node is present and below the cutoff. *)
Definition too_old (cutoff : Z) (o : option node) : bool :=
  match node_year o with
  | Some y => y <? cutoff
  | None => false
  end.

(** Some listed name with the save-file extension addresses the file. *)
Definition selected (backup_dir : pystr) (names : list pystr)
    (k : list pystr) : bool :=
  existsb (λ fname, endswith eu4_ext fname
                    && bool_decide (entry_key backup_dir fname = k)) names.

(** The file is one that the pass over [names] deletes. *)
Definition doomed (fs : gmap (list pystr) node) (backup_dir : pystr)
    (cutoff : Z) (names : list pystr) (k : list pystr) : bool :=
  selected backup_dir names k && too_old cutoff (fs !! k)
  && removable (fs !! k).

(** A backup whose content is the one line [date=<year>.1.1]. *)
Definition backup_of_year (year : string) (locked : bool) : node :=
  Node (KFile (pyb "date=" ++ pyb year ++ pyb ".1.1" ++ [LF]))
       (S754_finite false 3 0) true locked.

(** The save game of year 1523 with a backup directory that holds the
    years 1500 (its removal refused), 1510 and 1522, a backup without a
    date and a text file. *)
Definition world_with_backups : world :=
  World (list_to_map
           [([py "saves"], sample_dir);
            ([py "saves"; py "mp_autosave.eu4"], sample_file sample_save 7);
            ([py "saves"; py "backups"], sample_dir);
            ([py "saves"; py "backups"; py "a.eu4"], backup_of_year "1500" true);
            ([py "saves"; py "backups"; py "b.eu4"], backup_of_year "1510" false);
            ([py "saves"; py "backups"; py "c.eu4"], backup_of_year "1522" false);
            ([py "saves"; py "backups"; py "d.eu4"], sample_file (pyb "no date") 3);
            ([py "saves"; py "backups"; py "old.txt"], backup_of_year "1400" false)])
        1000 [] sample_clock.

Definition sample_backup_dir : pystr := py "/saves/backups".

(** ** The backup name as the specification words it *)

Definition two_digits (n : N) : pystr := [digit (n / 10); digit n].

Definition four_digits (n : N) : pystr :=
  [digit (n / 1000); digit (n / 100); digit (n / 10); digit n].

(** [YYYY-MM-DD_HH-MM-SS] *)
Definition stamp_format (t : struct_time) : pystr :=
  four_digits (tm_year t) ++ [45%N] ++ two_digits (tm_mon t) ++ [45%N]
  ++ two_digits (tm_mday t) ++ [95%N] ++ two_digits (tm_hour t) ++ [45%N]
  ++ two_digits (tm_min t) ++ [45%N] ++ two_digits (tm_sec t).

(** A local time with a year of four digits. *)
Definition valid_time (t : struct_time) : bool :=
  ((1000 <=? tm_year t) && (tm_year t <=? 9999)
   && (1 <=? tm_mon t) && (tm_mon t <=? 12)
   && (1 <=? tm_mday t) && (tm_mday t <=? 31)
   && (tm_hour t <=? 23) && (tm_min t <=? 59) && (tm_sec t <=? 61))%N.

Definition is_dir (o : option node) : bool :=
  match o with
  | Some n => match n_kind n with KDir => true | KFile _ => false end
  | None => false
  end.

(** The claim that every backup is created under the backup directory
    with the exact filename [mp_autosave_<TAG>_<YYYY-MM-DD_HH-MM-SS>.eu4]:
    after the backup step the backup directory has an entry of that
    name. *)
Definition backup_is_created_in_backup_dir : Prop :=
  ∀ now cfg w w',
    let tag := (node_tag (read_at (SOURCE cfg) w)).1 in
    let name := py "mp_autosave_" ++ tag ++ py "_" ++ stamp_format now
                ++ py ".eu4" in
    valid_time now = true →
    make_backup now cfg w = Ok tt w' →
    is_dir (OS.lookup_path (OS.join (BACKUP_DIR cfg) name) w) = false →
    is_Some (w_fs w' !! (OS.resolve (BACKUP_DIR cfg) ++ [name])).

(** A save game whose player line holds a path separator, and a backup
    directory with a subdirectory [mp_autosave_x]. *)
Definition slash_save : pybytes := pyb "player=x/y" ++ [LF].

Definition world_with_tag_directory : world :=
  World (list_to_map
           [([py "saves"], sample_dir);
            ([py "saves"; py "mp_autosave.eu4"], sample_file slash_save 7);
            ([py "saves"; py "backups"], sample_dir);
            ([py "saves"; py "backups"; py "mp_autosave_x"], sample_dir)])
        1000 [] sample_clock.

(** ** Notions for the scans *)

(** The characters that a decimal integer literal is made of, after
    [PyInt.to_ascii]: white space, digits, signs and the underscore. *)
Definition int_char (a : N) : bool :=
  (PyInt.c_isspace a || PyInt.c_isdigit a
   || (a =? 43) || (a =? 45) || (a =? 95))%N.

(** The scan of [get_save_year] tests the line for [date=]. *)
Definition date_line (stripped : bool) (line : pystr) : bool :=
  startswith (py "date=") (if stripped then strip line else line).

(** The scan of [get_player_tag] tests the line for [player=]. *)
Definition player_line (stripped : bool) (line : pystr) : bool :=
  startswith (py "player=") (if stripped then strip line else line).

(** The line makes the scan return [tag]. *)
Definition yields_tag (stripped : bool) (line tag : pystr) : Prop :=
  player_line stripped line = true
  ∧ value_of line = inr tag
  ∧ tag ≠ [] ∧ tag ≠ py "---".

(** The scan passes over the line: it is no [player=] line, or its value
    is empty or [---]. *)
Definition passed_over (stripped : bool) (line : pystr) : Prop :=
  player_line stripped line = false
  ∨ value_of line = inr [] ∨ value_of line = inr (py "---").

(** The claim that any line [date=YYYY.M.D] of the content determines
    the year. *)
Definition any_date_line_gives_year : Prop :=
  ∀ path w data yyyy m d y,
    read_at path w = inr data →
    (py "date=" ++ yyyy ++ py "." ++ m ++ py "." ++ d) ∈ binary_lines data →
    PyInt.of_str yyyy = inr y →
    get_save_year path w = Ok (Some y) w.

(** The claim that the first [player=] line alone decides the tag, with
    [---] standing for no player. *)
Definition first_player_line_decides : Prop :=
  ∀ path w data pre line post,
    read_at path w = inr data →
    binary_lines data = pre ++ line :: post →
    Forall (λ l, player_line true l = false) pre →
    player_line true line = true →
    value_of line = inr (py "---") →
    get_player_tag path w = Ok UNKNOWN w.

(** A content with two dates, and one whose first player line is unset. *)
Definition two_dates : pybytes :=
  pyb "date=1444.11.11" ++ [LF] ++ pyb "date=1500.1.1" ++ [LF].

Definition unset_then_set : pybytes :=
  pyb "player=---" ++ [LF] ++ pyb "player=" ++ [Byte.x22] ++ pyb "SWE"
  ++ [Byte.x22; LF].

Definition world_of_file (data : pybytes) : world :=
  World (list_to_map [([py "save.eu4"], sample_file data 7)]) 1000 [] sample_clock.

(** A save with bytes that are no UTF-8 around its date line. *)
Definition noisy_save : pybytes :=
  [Byte.xff; Byte.xfe; Byte.x00] ++ pyb "EU4bin" ++ [Byte.xe2; LF]
  ++ [Byte.x09] ++ pyb "date=1523.4.12" ++ [CR; LF]
  ++ [Byte.xc3; Byte.x28; LF] ++ pyb "date=1600.1.1".
(** * Further parts of the program *)

(** ** Detection of the save-game paths *)

(** The part of the process environment that detection reads: the
    variables [HOME] and [USERNAME], and the home directory in the
    password database, which [os.path.expanduser] falls back to when
    [HOME] is not set. *)
Record environ := Environ {
  HOME : option pystr;
  pw_dir : option pystr;
  USERNAME : option pystr
}.

(** [os.path.expanduser("~")] of [posixpath]: the home directory without
    its trailing slashes, the root when nothing is left, and the path
    itself when no home directory is known. *)
Definition expanduser_home (env : environ) : pystr :=
  match (match HOME env with Some h => Some h | None => pw_dir env end) with
  | None => py "~"
  | Some userhome =>
      let h := rstrip_by (λ c, c =? OS.slash)%N userhome in
      if bool_decide (h = []) then [OS.slash] else h
  end.

(** [os.path.join(a, *p)] *)
Definition join_all (a : pystr) (p : list pystr) : pystr :=
  fold_left OS.join p a.

(** [os.path.dirname(p)] of [posixpath]: the part up to the last slash,
    without its trailing slashes unless it consists of slashes only. *)
Definition dirname (p : pystr) : pystr :=
  let head := rev (dropwhile (λ c, negb (c =? OS.slash)%N) (rev p)) in
  if negb (bool_decide (head = [])) && negb (forallb (λ c, c =? OS.slash)%N head)
  then rstrip_by (λ c, c =? OS.slash)%N head
  else head.

(** [os.path.exists(path)] *)
Definition path_exists (path : pystr) (w : world) : bool :=
  bool_decide (is_Some (OS.lookup_path path w)).

Definition save_games : list pystr :=
  [py "Documents"; py "Paradox Interactive"; py "Europa Universalis IV";
   py "save games"].

Definition autosave_name : pystr := py "mp_autosave.eu4".

(** The list [common_locations] of [detect_eu4_save_paths]; [os.sep] is
    the slash. *)
Definition common_locations (env : environ) : list pystr :=
  [ join_all (expanduser_home env) save_games;
    join_all (py "C:")
      ([OS.slash] :: py "Users" :: default [] (USERNAME env) :: save_games);
    join_all (py "D:") ([OS.slash] :: save_games);
    join_all (py "C:") ([OS.slash] :: save_games) ].

Definition detect_eu4_save_paths (env : environ) (w : world) : list pystr :=
  filter (λ path, path_exists path w = true) (common_locations env).

(** The loop of [detect_autosave_file] over the detected directories. *)
Fixpoint first_autosave (save_paths : list pystr) (w : world)
  : option pystr :=
  match save_paths with
  | [] => None
  | save_dir :: rest =>
      let autosave_path := OS.join save_dir autosave_name in
      if path_exists autosave_path w then Some autosave_path
      else first_autosave rest w
  end.

Definition detect_autosave_file (env : environ) (w : world) : option pystr :=
  first_autosave (detect_eu4_save_paths env w) w.

(** The paths chosen before the final double check of
    [get_detected_paths]. *)
Definition detected_pair (env : environ) (w : world) : pystr * pystr :=
  let detected_autosave := detect_autosave_file env w in
  let detected_save_dirs := detect_eu4_save_paths env w in
  let otherwise :=
    match detected_save_dirs with
    | first :: _ =>
        (OS.join first autosave_name, OS.join first (py "backups"))
    | [] =>
        let eu4_dir := join_all (expanduser_home env) save_games in
        (OS.join eu4_dir autosave_name, OS.join eu4_dir (py "backups"))
    end in
  match detected_autosave with
  | Some autosave =>
      if bool_decide (autosave = []) then otherwise
      else (autosave, OS.join (dirname autosave) (py "backups"))
  | None => otherwise
  end.

(** The condition of the double check. *)
Definition backup_dir_suspect (source_file backup_dir : pystr) : bool :=
  bool_decide (backup_dir = source_file) || endswith eu4_ext backup_dir.

Definition get_detected_paths (env : environ) (w : world) : pystr * pystr :=
  let '(source_file, backup_dir) := detected_pair env w in
  if backup_dir_suspect source_file backup_dir
  then (source_file, OS.join (dirname source_file) (py "backups"))
  else (source_file, backup_dir).

(** The double 60.0. *)
Definition float_60 : spec_float := S754_finite false 8444249301319680 (-47).

(** [DEFAULT_SETTINGS]: the detected paths, a check every 60.0 seconds
    and every backup kept. *)
Definition DEFAULT_SETTINGS (env : environ) (w : world) : settings :=
  let '(default_source, default_backup) := get_detected_paths env w in
  Settings default_source default_backup
           (PyFloat float_60) (PyStr (py "all")).

(** ** [float] of a string *)

Module PyFloat.
Import PyStr.

(** [_Py_string_to_number_with_underscores]: the string without its
    underscores, each of which must stand between two digits; [prev] is
    the character before. [None] is [ValueError]. *)
Fixpoint drop_underscores (s : list N) (prev : N) : option (list N) :=
  match s with
  | [] => if (prev =? 95)%N then None else Some []
  | c :: r =>
      if (c =? 95)%N then
        if PyInt.c_isdigit prev then drop_underscores r c else None
      else if (prev =? 95)%N && negb (PyInt.c_isdigit c) then None
      else option_map (cons c) (drop_underscores r c)
  end.

(** The longest prefix of digits, and what follows it. *)
Fixpoint span_digits (s : list N) : list N * list N :=
  match s with
  | c :: r =>
      if PyInt.c_isdigit c
      then let '(d, rest) := span_digits r in (c :: d, rest)
      else ([], s)
  | [] => ([], [])
  end.

Definition digits_value (d : list N) : Z :=
  fold_left (λ acc c, 10 * acc + Z.of_N (c - 48)) d 0.

(** The exponent part: [e] or [E], a sign and digits. Without a digit
    there is no exponent part, and the parse ends before the [e]. *)
Definition parse_exponent (s : list N) : Z * list N :=
  match s with
  | c :: r =>
      if ((c =? 101) || (c =? 69))%N then
        let '(neg, r1) := PyInt.parse_sign r in
        let '(d, rest) := span_digits r1 in
        match d with
        | [] => (0, s)
        | _ :: _ => (if neg then - digits_value d else digits_value d, rest)
        end
      else (0, s)
  | [] => (0, [])
  end.

(** The decimal numeral that [_Py_dg_strtod] reads at the front of [s]:
    its sign, the value of its digits, the power of ten to apply, the
    number of its digits and the rest of the string. At least one digit is
    needed. *)
Definition parse_decimal (s : list N)
  : option (bool * Z * Z * nat * list N) :=
  let '(neg, s1) := PyInt.parse_sign s in
  let '(ip, s2) := span_digits s1 in
  let '(fp, s3) := match s2 with
                   | c :: r => if (c =? 46)%N then span_digits r else ([], s2)
                   | [] => ([], [])
                   end in
  match ip ++ fp with
  | [] => None
  | _ :: _ =>
      let '(x, rest) := parse_exponent s3 in
      Some (neg, digits_value (ip ++ fp), x - Z.of_nat (length fp),
            length (ip ++ fp), rest)
  end.

(** The double nearest to [m * 10 ^ e], ties to even, where [m] has at
    most [nd] decimal digits. Beyond the exponents 400 and -400 the
    result is an infinity or a zero whatever the digits are. *)
Definition of_decimal (neg : bool) (m e : Z) (nd : nat) : spec_float :=
  match m with
  | Z.pos p =>
      if 400 <? e then S754_infinity neg
      else if e + Z.of_nat nd <? -400 then S754_zero neg
      else if 0 <=? e then
        SFdiv 53 1024 (S754_finite neg (p * Z.to_pos (10 ^ e)) 0)
                      (S754_finite false 1 0)
      else
        SFdiv 53 1024 (S754_finite neg p 0)
                      (S754_finite false (Z.to_pos (10 ^ (- e))) 0)
  | _ => S754_zero neg
  end.

(** [Py_TOLOWER] *)
Definition tolower (c : N) : N :=
  (if (65 <=? c) && (c <=? 90) then c + 32 else c)%N.

(** [case_insensitive_match]: what follows the prefix [t] of [s]. *)
Fixpoint match_ci (t s : list N) : option (list N) :=
  match t, s with
  | [], _ => Some s
  | x :: t', c :: s' => if (tolower c =? x)%N then match_ci t' s' else None
  | _ :: _, [] => None
  end.

(** [_Py_parse_inf_or_nan] *)
Definition parse_inf_or_nan (s : list N) : option (spec_float * list N) :=
  let '(neg, s1) := PyInt.parse_sign s in
  match match_ci (py "inf") s1 with
  | Some r =>
      Some (S754_infinity neg,
            match match_ci (py "inity") r with Some r' => r' | None => r end)
  | None =>
      match match_ci (py "nan") s1 with
      | Some r => Some (S754_nan, r)
      | None => None
      end
  end.

(** [PyOS_string_to_double] with the check that the whole string was
    read; [None] is [ValueError]. *)
Definition string_to_double (s : list N) : option spec_float :=
  match parse_decimal s with
  | Some (neg, m, e, nd, rest) =>
      match rest with
      | [] => Some (of_decimal neg m e nd)
      | _ :: _ => None
      end
  | None =>
      match parse_inf_or_nan s with
      | Some (f, []) => Some f
      | _ => None
      end
  end.

(** [float(s)] for a [str]. *)
Definition of_str (s : pystr) : exn + spec_float :=
  match strip_by PyInt.c_isspace (map PyInt.to_ascii s) with
  | [] => inl ValueError
  | c :: r =>
      match drop_underscores (c :: r) 0 with
      | None => inl ValueError
      | Some t =>
          match string_to_double t with
          | Some f => inr f
          | None => inl ValueError
          end
      end
  end.

End PyFloat.

(** ** The prompts for the interval and the retention *)

(** [s.lower() == target] for a target spelled with the letters [a],
    [l] and [y]: each of them is the lower case of itself and of its
    capital, and of no other character. *)
Definition lower_is (target s : pystr) : bool :=
  bool_decide (map (λ c, if (65 <=? c) && (c <=? 90) then c + 32 else c)%N s
               = target).

(** What the two prompts write to the terminal, one constructor for each
    [print], [log] and [input] prompt. *)
Inductive tty_line :=
| IntervalCurrent (current_value : pyval)
| IntervalSuggestions
| IntervalPrompt
| IntervalTooShort
| IntervalOverOneHour
| IntervalNotANumber
| KeepCurrent (current_value : pyval)
| KeepOptions
| KeepOptionAll
| KeepOptionNumber
| KeepPrompt
| KeepNotPositive
| KeepOnlyFew (years : Z)
| KeepNotANumber.

(** [EOFError] is what [input] raises when no line is left. *)
Inductive tty_exn :=
| EOFError
| Builtin (e : exn).

(** The outcome of a dialogue: the lines not yet read and everything
    written. *)
Inductive tty_res (A : Type) :=
| Returned (a : A) (stdin : list pystr) (out : list tty_line)
| Raised (e : tty_exn) (stdin : list pystr) (out : list tty_line).
Arguments Returned {A} a stdin out.
Arguments Raised {A} e stdin out.

(** The doubles 5.0 and 3600.0. *)
Definition float_5 : spec_float := S754_finite false 5629499534213120 (-50).
Definition float_3600 : spec_float :=
  S754_finite false 7916483719987200 (-41).

(** [validate_interval_input]; [stdin] holds the lines the operator
    types, each read by one [input]. *)
Fixpoint validate_interval_input (current_value : pyval)
    (stdin : list pystr) (out : list tty_line) {struct stdin}
  : tty_res pyval :=
  let out1 :=
    out ++ [IntervalCurrent current_value; IntervalSuggestions;
            IntervalPrompt] in
  match stdin with
  | [] => Raised EOFError [] out1
  | line :: rest =>
      let value := strip line in
      if bool_decide (value = []) then Returned current_value rest out1
      else
        match PyFloat.of_str value with
        | inr interval =>
            if SFltb interval float_5 then
              validate_interval_input current_value rest
                (out1 ++ [IntervalTooShort])
            else if SFltb float_3600 interval then
              match rest with
              | [] => Raised EOFError [] (out1 ++ [IntervalOverOneHour])
              | answer :: rest' =>
                  if negb (lower_is (py "y") (strip answer)) then
                    validate_interval_input current_value rest'
                      (out1 ++ [IntervalOverOneHour])
                  else
                    Returned (PyFloat interval) rest'
                      (out1 ++ [IntervalOverOneHour])
              end
            else Returned (PyFloat interval) rest out1
        | inl e =>
            if bool_decide (e = ValueError) then
              validate_interval_input current_value rest
                (out1 ++ [IntervalNotANumber])
            else Raised (Builtin e) rest out1
        end
  end.

(** [validate_keep_years_input] *)
Fixpoint validate_keep_years_input (current_value : pyval)
    (stdin : list pystr) (out : list tty_line) {struct stdin}
  : tty_res pyval :=
  let out1 :=
    out ++ [KeepCurrent current_value; KeepOptions; KeepOptionAll;
            KeepOptionNumber; KeepPrompt] in
  match stdin with
  | [] => Raised EOFError [] out1
  | line :: rest =>
      let value := strip line in
      if bool_decide (value = []) then Returned current_value rest out1
      else if lower_is (py "all") value then
        Returned (PyStr (py "all")) rest out1
      else
        match PyInt.of_str value with
        | inr years =>
            if years <? 1 then
              validate_keep_years_input current_value rest
                (out1 ++ [KeepNotPositive])
            else if years <? 10 then
              match rest with
              | [] => Raised EOFError [] (out1 ++ [KeepOnlyFew years])
              | answer :: rest' =>
                  if negb (lower_is (py "y") (strip answer)) then
                    validate_keep_years_input current_value rest'
                      (out1 ++ [KeepOnlyFew years])
                  else
                    Returned (PyInt years) rest' (out1 ++ [KeepOnlyFew years])
              end
            else Returned (PyInt years) rest out1
        | inl e =>
            if bool_decide (e = ValueError) then
              validate_keep_years_input current_value rest
                (out1 ++ [KeepNotANumber])
            else Raised (Builtin e) rest out1
        end
  end.

(** The last line read before [rest] was the answer [y] to a request for
    confirmation. *)
Definition confirmed (stdin rest : list pystr) : Prop :=
  ∃ used answer,
    stdin = used ++ answer :: rest
    ∧ lower_is (py "y") (strip answer) = true.

(** The dialogue read at least one line, read nothing but a prefix of
    what was typed and only added to what was written. *)
Definition dialogue (stdin rest : list pystr) (out out' : list tty_line)
  : Prop :=
  ∃ used printed, stdin = used ++ rest ∧ used ≠ [] ∧ out' = out ++ printed.

(** * Notions for the further properties *)


(** ** Notions for the schedule of the loop *)

(** The world after the other processes acted during the sleeps of the
    iterations [envs]. *)
Definition others_acted (envs : list tick_env) (w : world) : world :=
  fold_left (λ w' env, te_others env w') envs w.

(** No key is pressed during the iterations. *)
Definition quiet (envs : list tick_env) : Prop :=
  Forall (λ env, te_key env = NoKey) envs.

(** The state after [n] more heartbeats. *)
Definition beats (n : nat) (st : monitor) : monitor :=
  Monitor (m_settings st) (heartbeat st + Z.of_nat n) (last_mtime st).

(** ** Notions for paths *)

(** A name that a directory entry can bear: not empty, not [.] or [..],
    and free of the separator. *)
Definition simple_name (name : pystr) : Prop :=
  name ≠ [] ∧ name ≠ py "." ∧ name ≠ py ".."
  ∧ Forall (λ c, c ≠ OS.slash) name.

(** The number of bytes that removing the node gives back. *)
Definition node_size (o : option node) : N :=
  match o with
  | Some (Node (KFile data) _ _ _) => N.of_nat (length data)
  | _ => 0%N
  end.

(** The world after one pass of the pruning loop body that removes. *)
Definition pruned_entry (backup_dir fname : pystr) (y : Z) (w : world)
    : world :=
  World (delete (entry_key backup_dir fname) (w_fs w))
        (w_free w + node_size (w_fs w !! entry_key backup_dir fname))
        (w_console w ++ [LogCleanedUp fname y]) (w_clock w).

(** ** Sample data for the further properties *)

(** The sample paths with the interval [v], and a monitor on them at the
    heartbeat [h] that remembers no modification time. *)
Definition settings_with_interval (v : pyval) : settings :=
  Settings (py "/saves/mp_autosave.eu4") (py "/saves/backups") v (PyInt 10).

Definition monitor_with_interval (v : pyval) (h : Z) : monitor :=
  Monitor (settings_with_interval v) h None.

(** The double 2.5. *)
Definition float_2_5 : spec_float :=
  S754_finite false 5629499534213120 (-51).

(** The save game with a modification time at the epoch. *)
Definition world_at_epoch : world :=
  World (list_to_map
           [([py "saves"], sample_dir);
            ([py "saves"; py "mp_autosave.eu4"],
             Node (KFile sample_save) (S754_zero false) true false)])
        1000 [] sample_clock.

(** Ctrl+Q, with the menu handing back [cfg]. *)
Definition menu_env (cfg : settings) : tick_env :=
  TickEnv id (CtrlQ (Some cfg)) sample_time.

(** A save game that names its player but bears no date, next to an
    empty backup directory. *)
Definition undated_save : pybytes := pyb "player=SWE" ++ [LF].

Definition world_undated : world :=
  World (list_to_map
           [([py "saves"], sample_dir);
            ([py "saves"; py "mp_autosave.eu4"], sample_file undated_save 7);
            ([py "saves"; py "backups"], sample_dir)])
        1000 [] sample_clock.

(** A content whose first date line bears no number. *)
Definition bad_date_save : pybytes :=
  pyb "EU4txt" ++ [LF] ++ pyb "date=abc.1.1" ++ [LF]
  ++ pyb "date=1500.1.1" ++ [LF].

(** A home directory that holds the save games of the game. *)
Definition sample_environ : environ :=
  Environ (Some (py "/home/bob")) None (Some (py "bob")).

Definition sample_save_dir : list pystr :=
  [py "home"; py "bob"; py "Documents"; py "Paradox Interactive";
   py "Europa Universalis IV"; py "save games"].

Definition world_with_home : world :=
  World (list_to_map
           [(sample_save_dir, sample_dir);
            (sample_save_dir ++ [py "mp_autosave.eu4"],
             sample_file sample_save 7)])
        1000 [] sample_clock.

(** The save game of year 1523 next to an empty backup directory. *)
Definition world_with_empty_backup_dir : world :=
  World (list_to_map
           [([py "saves"], sample_dir);
            ([py "saves"; py "mp_autosave.eu4"], sample_file sample_save 7);
            ([py "saves"; py "backups"], sample_dir)])
        1000 [] sample_clock.

(** A world in which [saves], the directory of the sample source, is a
    file. *)
Definition world_saves_is_a_file : world :=
  World (list_to_map [([py "saves"], sample_file (pyb "x") 7)]) 1000 [] sample_clock.


(** * Properties *)

(** ** The scanners only read *)

Lemma item_exn l i e : item l i = inl e → e = IndexError.
Proof. unfold item. destruct (l !! i); congruence. Qed.

Lemma value_of_exn line e : value_of line = inl e → e = IndexError.
Proof.
  unfold value_of. destruct (item (split 61 line) 1) eqn:E; [|discriminate].
  intros [= <-]. eauto using item_exn.
Qed.

Lemma of_str_exn s e : PyInt.of_str s = inl e → e = ValueError.
Proof. unfold PyInt.of_str. destruct PyInt.long_from_string; congruence. Qed.

Lemma scan_player_exn b lines e :
  scan_player b lines = inl e → e = IndexError.
Proof.
  induction lines as [|line rest IH]; simpl; [discriminate|].
  case_match; [|exact IH].
  destruct (value_of line) as [e'|tag] eqn:E.
  - intros [= <-]. eauto using value_of_exn.
  - destruct (tag_set tag); [discriminate|exact IH].
Qed.

Lemma scan_date_exn b lines e :
  scan_date b lines = inl e → e = IndexError ∨ e = ValueError.
Proof.
  induction lines as [|line rest IH]; simpl; [discriminate|].
  case_match; [|exact IH].
  destruct (value_of line) as [e'|v] eqn:E.
  { intros [= <-]. left. eauto using value_of_exn. }
  destruct (item (split 46 v) 0) as [e'|y] eqn:E2.
  { intros [= <-]. left. eauto using item_exn. }
  destruct (PyInt.of_str y) as [e'|z] eqn:E3; [|discriminate].
  intros [= <-]. right. eauto using of_str_exn.
Qed.

Lemma read_bytes_spec path w :
  OS.read_bytes path w = lift (read_at path w) w.
Proof.
  unfold OS.read_bytes, read_at, read_node.
  destruct (OS.lookup_path path w) as [[[data|] t r l]|]; simpl; try done.
  by destruct r.
Qed.

Lemma read_at_exn path w e : read_at path w = inl e → is_Exception e = true.
Proof.
  unfold read_at, read_node, OS.absent_error.
  destruct (OS.lookup_path path w) as [[[data|] t r l]|]; simpl.
  - destruct r; [discriminate|]. by intros [= <-].
  - by intros [= <-].
  - intros [= <-]. by destruct (OS.under_file _ _).
Qed.

(** Reading succeeds at a path exactly when it does at its node. *)
Lemma read_at_node path w :
  match read_at path w with
  | inr data => read_node (OS.lookup_path path w) = inr data
  | inl _ => ∃ e, read_node (OS.lookup_path path w) = inl e
  end.
Proof.
  unfold read_at. destruct (OS.lookup_path path w) as [n|].
  - cbv iota. destruct (read_node (Some n)); [by eexists|done].
  - by eexists.
Qed.

Lemma player_tag_body_spec path w :
  player_tag_body path w =
  match read_at path w with
  | inr data => lift (tag_of_content data) w
  | inl e => Raise e w
  end.
Proof.
  unfold player_tag_body, bind, read_text_lines, bind.
  rewrite read_bytes_spec.
  destruct (read_at _ _) as [e|data] eqn:E; simpl; [done|].
  unfold tag_of_content.
  destruct (scan_player true _) as [e|[tag|]]; simpl; try done.
  by rewrite read_bytes_spec, E.
Qed.

Lemma save_year_body_spec path w :
  save_year_body path w =
  match read_at path w with
  | inr data => lift (year_of_content data) w
  | inl e => Raise e w
  end.
Proof.
  unfold save_year_body, bind, read_text_lines, bind.
  rewrite read_bytes_spec.
  destruct (read_at _ _) as [e|data] eqn:E; simpl; [done|].
  unfold year_of_content.
  destruct (scan_date true _) as [e|[y|]]; simpl; try done.
  by rewrite read_bytes_spec, E.
Qed.

Lemma backup_year_body_spec path w :
  backup_year_body path w = save_year_body path w.
Proof. reflexivity. Qed.

Lemma year_of_content_exn data e :
  year_of_content data = inl e → is_Exception e = true.
Proof.
  unfold year_of_content.
  destruct (scan_date true _) as [e'|[y|]] eqn:E; try discriminate.
  - intros [= <-]. by destruct (scan_date_exn _ _ _ E) as [-> | ->].
  - intros E'. by destruct (scan_date_exn _ _ _ E') as [-> | ->].
Qed.

Lemma tag_of_content_exn data e :
  tag_of_content data = inl e → is_Exception e = true.
Proof.
  unfold tag_of_content.
  destruct (scan_player true _) as [e'|[y|]] eqn:E; try discriminate.
  - intros [= <-]. by rewrite (scan_player_exn _ _ _ E).
  - intros E'. by rewrite (scan_player_exn _ _ _ E').
Qed.

(** [get_save_year] and [get_backup_year] return the year of the node
    and leave the world as it is. *)
Lemma get_save_year_spec path w :
  get_save_year path w = Ok (node_year (OS.lookup_path path w)) w.
Proof.
  unfold get_save_year, try_except, node_year. rewrite save_year_body_spec.
  pose proof (read_at_node path w) as Hn.
  destruct (read_at _ _) as [e|data] eqn:E; simpl.
  - destruct Hn as [e' ->]. by rewrite (read_at_exn _ _ _ E).
  - rewrite Hn.
    destruct (year_of_content data) as [e|y] eqn:E2; simpl; [|done].
    by rewrite (year_of_content_exn _ _ E2).
Qed.

Lemma get_backup_year_spec path w :
  get_backup_year path w = Ok (node_year (OS.lookup_path path w)) w.
Proof. apply get_save_year_spec. Qed.

Lemma printed_nil w : printed w [] = w.
Proof. destruct w. unfold printed. simpl. by rewrite app_nil_r. Qed.

Lemma get_player_tag_spec path w :
  get_player_tag path w =
  Ok (node_tag (read_at path w)).1 (printed w (node_tag (read_at path w)).2).
Proof.
  unfold get_player_tag, bind, try_except, node_tag.
  rewrite player_tag_body_spec.
  destruct (read_at _ _) as [e|data] eqn:E; simpl.
  - by rewrite (read_at_exn _ _ _ E).
  - destruct (tag_of_content data) as [e|[tag|]] eqn:E2; simpl;
      rewrite ?printed_nil; try done.
    by rewrite (tag_of_content_exn _ _ E2).
Qed.

(** ** Strings: stripping and splitting *)

Section dropwhile.
Context (p : N → bool).

Lemma dropwhile_all s : Forall (λ c, p c = true) s → dropwhile p s = [].
Proof. induction 1 as [|c s Hc _ IH]; simpl; [done|]. by rewrite Hc. Qed.

Lemma dropwhile_nil s : dropwhile p s = [] → Forall (λ c, p c = true) s.
Proof.
  induction s as [|c s IH]; simpl; [by constructor|].
  destruct (p c) eqn:Hc; [|discriminate]. intros H. constructor; auto.
Qed.

Lemma dropwhile_head s c t : dropwhile p s = c :: t → p c = false.
Proof.
  induction s as [|c' s IH]; simpl; [discriminate|].
  destruct (p c') eqn:Hc; [exact IH|]. by intros [= <- _].
Qed.

Lemma dropwhile_stop c s : p c = false → dropwhile p (c :: s) = c :: s.
Proof. intros H. simpl. by rewrite H. Qed.

(** A character that is kept shields what follows it. *)
Lemma dropwhile_app_stop s c t :
  p c = false → dropwhile p (s ++ c :: t) = dropwhile p s ++ c :: t.
Proof.
  intros Hc. induction s as [|c' s IH]; simpl; [by rewrite Hc|].
  by destruct (p c').
Qed.

Lemma dropwhile_app_ne s t :
  dropwhile p s ≠ [] → dropwhile p (s ++ t) = dropwhile p s ++ t.
Proof.
  induction s as [|c s IH]; simpl; [done|]. by destruct (p c).
Qed.

Lemma dropwhile_app_all s t :
  Forall (λ c, p c = true) s → dropwhile p (s ++ t) = dropwhile p t.
Proof. induction 1 as [|c s Hc _ IH]; simpl; [done|]. by rewrite Hc. Qed.

Lemma rstrip_by_app_stop s c t :
  p c = false → rstrip_by p (s ++ c :: t) = s ++ c :: rstrip_by p t.
Proof.
  intros Hc. unfold rstrip_by.
  rewrite rev_app_distr. simpl. rewrite <- app_assoc. simpl.
  rewrite dropwhile_app_stop by done.
  rewrite rev_app_distr. simpl. rewrite rev_involutive.
  by rewrite <- app_assoc.
Qed.

(** Whatever holds of the characters that are left holds of all, when it
    holds of those dropped. *)
Lemma Forall_dropwhile (Q : N → Prop) s :
  (∀ c, p c = true → Q c) → Forall Q (dropwhile p s) → Forall Q s.
Proof.
  intros Hp. induction s as [|c s IH]; simpl; [done|].
  destruct (p c) eqn:Hc; [|done]. intros H. constructor; auto.
Qed.

End dropwhile.

Lemma split_no_sep sep s : Forall (λ c, c ≠ sep) s → split sep s = [s].
Proof.
  induction 1 as [|c s Hc _ IH]; simpl; [done|].
  rewrite (proj2 (N.eqb_neq c sep)) by done. by rewrite IH.
Qed.

Lemma split_app_sep sep a b :
  Forall (λ c, c ≠ sep) a → split sep (a ++ sep :: b) = a :: split sep b.
Proof.
  induction 1 as [|c s Hc _ IH]; simpl.
  - by rewrite N.eqb_refl.
  - rewrite (proj2 (N.eqb_neq c sep)) by done. by rewrite IH.
Qed.

(** The first field of a split is what precedes the first separator. *)
Lemma split_first sep a b :
  Forall (λ c, c ≠ sep) a →
  b = [] ∨ (∃ b', b = sep :: b') →
  item (split sep (a ++ b)) 0 = inr a.
Proof.
  intros Ha [->|[b' ->]].
  - rewrite app_nil_r, split_no_sep; done.
  - rewrite split_app_sep; done.
Qed.

Lemma split_first_any sep a c b :
  Forall (λ c, c ≠ sep) a → c ≠ sep →
  ∃ b', item (split sep (a ++ c :: b)) 0 = inr (a ++ c :: b')
        ∧ ∃ b'', b = b' ++ b''.
Proof.
  intros Ha Hc. revert a Ha c Hc.
  induction b as [|d b IH]; intros a Ha c Hc.
  - exists []. split; [|by exists []].
    rewrite split_no_sep; [done|]. apply Forall_app. auto.
  - destruct (decide (d = sep)) as [->|Hd].
    + exists []. split; [|by eexists].
      replace (a ++ c :: sep :: b) with ((a ++ [c]) ++ sep :: b)
        by (by rewrite <- app_assoc).
      rewrite split_app_sep; [done|].
      apply Forall_app. auto.
    + assert (Hac : Forall (λ c, c ≠ sep) (a ++ [c])).
      { apply Forall_app. auto. }
      destruct (IH (a ++ [c]) Hac d Hd) as (b' & Hitem & b'' & ->).
      exists (d :: b'). split; [|by exists b''].
      rewrite <- !app_assoc in Hitem. simpl in Hitem. done.
Qed.

(** ** Integer literals *)

Lemma below_forallb (P : N → bool) (bound : nat) :
  forallb (λ i, P (N.of_nat i)) (seq 0 bound) = true →
  ∀ n, (n < N.of_nat bound)%N → P n = true.
Proof.
  intros H n Hn. rewrite forallb_forall in H.
  specialize (H (N.to_nat n)). rewrite N2Nat.id in H. apply H.
  apply in_seq. lia.
Qed.

Lemma scan_digits_int_char s prev acc n v k rest :
  PyInt.scan_digits s prev acc n = Some (v, k, rest) →
  Forall (λ a, int_char a = true) rest →
  Forall (λ a, int_char a = true) s.
Proof.
  revert prev acc n. induction s as [|c s IH]; intros prev acc n; simpl.
  { intros _ _. constructor. }
  destruct (PyInt.c_isdigit c) eqn:Hd.
  { intros H Hr. constructor; [|by eapply IH].
    unfold int_char. rewrite Hd. by rewrite orb_true_r. }
  destruct (c =? 95)%N eqn:Hu.
  { destruct (prev =? 95)%N; [discriminate|].
    intros H Hr. constructor; [|by eapply IH].
    unfold int_char. rewrite Hu. by rewrite !orb_true_r. }
  destruct (prev =? 95)%N; [discriminate|]. by intros [= _ _ <-].
Qed.

Lemma long_from_string_int_char s z :
  PyInt.long_from_string s = Some z → Forall (λ a, int_char a = true) s.
Proof.
  unfold PyInt.long_from_string. intros H.
  apply (Forall_dropwhile PyInt.c_isspace).
  { intros c Hc. unfold int_char. by rewrite Hc. }
  destruct (dropwhile PyInt.c_isspace s) as [|c s1]; simpl in H.
  { constructor. }
  assert (Hbody : ∀ neg body,
    (if PyInt.leading_underscore body then None
     else match PyInt.scan_digits body 0 0 0 with
          | Some (v, digits, rest) =>
              if (digits =? 0)%N then None
              else if (PyInt.int_max_str_digits <? digits)%N then None
              else match dropwhile PyInt.c_isspace rest with
                   | [] => Some (if neg : bool then - v else v)
                   | _ :: _ => None
                   end
          | None => None
          end) = Some z →
    Forall (λ a, int_char a = true) body).
  { intros neg body Hb. destruct (PyInt.leading_underscore body); [done|].
    destruct (PyInt.scan_digits body 0 0 0) as [[[v k] rest]|] eqn:Hs; [|done].
    eapply scan_digits_int_char; [exact Hs|].
    destruct (k =? 0)%N; [done|].
    destruct (PyInt.int_max_str_digits <? k)%N; [done|].
    destruct (dropwhile PyInt.c_isspace rest) eqn:Hrest; [|done].
    eapply Forall_impl; [exact (dropwhile_nil _ _ Hrest)|].
    intros a Ha. simpl in Ha. unfold int_char. by rewrite Ha. }
  unfold PyInt.parse_sign in H.
  destruct (c =? 43)%N eqn:H43.
  { constructor; [|exact (Hbody false s1 H)].
    unfold int_char. rewrite H43. by rewrite !orb_true_r. }
  destruct (c =? 45)%N eqn:H45.
  { constructor; [|exact (Hbody true s1 H)].
    unfold int_char. rewrite H45. by rewrite !orb_true_r. }
  exact (Hbody false (c :: s1) H).
Qed.

(** A literal that does not begin with one of its characters is
    rejected. *)
Lemma long_from_string_bad_head a s :
  int_char a = false → PyInt.long_from_string (a :: s) = None.
Proof.
  intros H. destruct (PyInt.long_from_string (a :: s)) as [z|] eqn:E; [|done].
  apply long_from_string_int_char in E. inversion E; congruence.
Qed.

Lemma long_from_string_space_head a s :
  PyInt.c_isspace a = true →
  PyInt.long_from_string (a :: s) = PyInt.long_from_string s.
Proof. intros H. unfold PyInt.long_from_string. simpl. by rewrite H. Qed.

Lemma to_ascii_low c : (c < 128)%N → PyInt.to_ascii c = c.
Proof.
  intros H. unfold PyInt.to_ascii. by rewrite (proj2 (N.ltb_lt _ _) H).
Qed.

(** A space that [int] accepts at all is one that it skips. *)
Lemma space_int_char c :
  isspace c = true → int_char (PyInt.to_ascii c) = true →
  PyInt.c_isspace (PyInt.to_ascii c) = true.
Proof.
  intros Hs Hi. destruct (N.lt_ge_cases c 128) as [Hlo|Hhi].
  - rewrite to_ascii_low in * by done. revert Hs Hi.
    enough (H : negb (isspace c && int_char c) || PyInt.c_isspace c = true).
    { intros Hs Hi. by rewrite Hs, Hi in H. }
    revert c Hlo.
    apply (below_forallb
             (λ c, negb (isspace c && int_char c) || PyInt.c_isspace c) 128).
    vm_compute. reflexivity.
  - unfold PyInt.to_ascii. rewrite (proj2 (N.ltb_ge _ _) Hhi), Hs. done.
Qed.

Lemma of_str_space_head c s y :
  isspace c = true → PyInt.of_str (c :: s) = inr y → PyInt.of_str s = inr y.
Proof.
  unfold PyInt.of_str. simpl. intros Hs.
  destruct (int_char (PyInt.to_ascii c)) eqn:Hi.
  - by rewrite (long_from_string_space_head _ _ (space_int_char _ Hs Hi)).
  - by rewrite (long_from_string_bad_head _ _ Hi).
Qed.

(** [int] reads a string and the string stripped on the left alike. *)
Lemma of_str_lstrip s y :
  PyInt.of_str s = inr y → PyInt.of_str (dropwhile isspace s) = inr y.
Proof.
  induction s as [|c s IH]; simpl; [done|].
  destruct (isspace c) eqn:Hs; [|done].
  intros H. apply IH. by eapply of_str_space_head.
Qed.

(** No character of an integer literal is [=], [.] or a double quote. *)
Lemma of_str_chars s y :
  PyInt.of_str s = inr y →
  Forall (λ c, c ≠ 61%N ∧ c ≠ 46%N ∧ c ≠ 34%N) s.
Proof.
  unfold PyInt.of_str.
  destruct (PyInt.long_from_string _) as [z|] eqn:E; [|discriminate].
  intros _. apply long_from_string_int_char in E.
  rewrite Forall_map in E. eapply Forall_impl; [exact E|].
  intros c Hc. simpl in Hc. split_and!; intros ->; vm_compute in Hc; done.
Qed.
(** ** Paths and directory listings *)

Lemma split_nonempty sep a : split sep a ≠ [].
Proof.
  destruct a as [|c a]; simpl; [done|].
  destruct (c =? sep)%N; [done|]. by destruct (split sep a).
Qed.

Lemma split_app sep a b :
  split sep (a ++ sep :: b) = split sep a ++ split sep b.
Proof.
  induction a as [|c a IH]; simpl.
  - by rewrite N.eqb_refl.
  - rewrite IH. destruct (c =? sep)%N; [done|].
    pose proof (split_nonempty sep a). by destruct (split sep a).
Qed.

Lemma walk_simple acc name : simple_name name → OS.walk acc name = acc ++ [name].
Proof.
  intros (H1 & H2 & H3 & _). unfold OS.walk.
  by rewrite !bool_decide_eq_false_2.
Qed.

Lemma resolve_slash_name d name :
  simple_name name →
  OS.resolve (d ++ OS.slash :: name) = OS.resolve d ++ [name].
Proof.
  intros Hn. unfold OS.resolve. rewrite split_app, fold_left_app.
  rewrite split_no_sep by apply Hn. simpl. by apply walk_simple.
Qed.

Lemma endswith_slash d :
  endswith [OS.slash] d = true → ∃ d', d = d' ++ [OS.slash].
Proof.
  unfold endswith. change (rev [OS.slash]) with [OS.slash].
  destruct (rev d) as [|c r] eqn:E; [done|].
  change (startswith [OS.slash] (c :: r)) with ((OS.slash =? c)%N && true).
  rewrite andb_true_r. intros Hc%N.eqb_eq. subst c.
  exists (rev r). rewrite <- (rev_involutive d), E. done.
Qed.

Lemma resolve_trailing_slash d : OS.resolve (d ++ [OS.slash]) = OS.resolve d.
Proof.
  unfold OS.resolve. rewrite split_app, fold_left_app. done.
Qed.

(** A simple name joined to a directory addresses the entry of that name
    in the directory. *)
Lemma resolve_join d name :
  simple_name name → OS.resolve (OS.join d name) = OS.resolve d ++ [name].
Proof.
  intros Hn. unfold OS.join.
  assert (startswith [OS.slash] name = false) as ->.
  { destruct Hn as (H1 & _ & _ & Hs). destruct name as [|c name]; [done|].
    change (startswith [OS.slash] (c :: name))
      with ((OS.slash =? c)%N && true).
    rewrite andb_true_r. apply N.eqb_neq.
    intros <-. by inversion Hs. }
  destruct (bool_decide (d = [])) eqn:Hd.
  { apply bool_decide_eq_true in Hd. subst d. simpl.
    unfold OS.resolve. rewrite split_no_sep by apply Hn. simpl.
    by apply (walk_simple []). }
  simpl. destruct (endswith [OS.slash] d) eqn:He.
  - destruct (endswith_slash _ He) as [d' ->].
    rewrite <- app_assoc. simpl.
    by rewrite resolve_slash_name, resolve_trailing_slash.
  - by apply resolve_slash_name.
Qed.

(** The listing of a directory holds exactly the names of the files
    directly below it. *)
Lemma entries_spec d fs name :
  name ∈ OS.entries d fs ↔ is_Some (fs !! (d ++ [name])).
Proof.
  unfold OS.entries. rewrite list_elem_of_omap. split.
  - intros ([k n] & Hin & Hf). apply elem_of_map_to_list in Hin.
    simpl in Hf. destruct (last k) as [nm|] eqn:Hl; [|done].
    case_bool_decide as Hk; [|done]. injection Hf as ->.
    rewrite <- Hk. eauto.
  - intros [n Hn]. exists (d ++ [name], n). split.
    + by apply elem_of_map_to_list.
    + simpl. rewrite last_snoc. by rewrite bool_decide_eq_true_2.
Qed.

(** ** The name of a backup *)

Lemma startswith_app pre s : startswith pre (pre ++ s) = true.
Proof.
  induction pre as [|c pre IH]; simpl; [done|]. by rewrite N.eqb_refl.
Qed.

Lemma endswith_app suf s : endswith suf (s ++ suf) = true.
Proof. unfold endswith. rewrite rev_app_distr. apply startswith_app. Qed.

Lemma digit_not_slash n : digit n ≠ OS.slash.
Proof.
  unfold digit, OS.slash. generalize (n mod 10)%N. intros m H. lia.
Qed.

Lemma decimal_rev_no_slash fuel n :
  Forall (λ c, c ≠ OS.slash) (decimal_rev fuel n).
Proof.
  revert n. induction fuel as [|fuel IH]; intros n; simpl; [constructor|].
  constructor; [apply digit_not_slash|].
  destruct (n <? 10)%N; [constructor|apply IH].
Qed.

Lemma decimal_str_no_slash n : Forall (λ c, c ≠ OS.slash) (decimal_str n).
Proof.
  unfold decimal_str. apply Forall_rev, decimal_rev_no_slash.
Qed.

Lemma pad2_no_slash n : Forall (λ c, c ≠ OS.slash) (pad2 n).
Proof.
  unfold pad2. destruct (n <? 10)%N; [constructor; [done|]|];
    apply decimal_str_no_slash.
Qed.

Lemma strftime_no_slash t : Forall (λ c, c ≠ OS.slash) (strftime t).
Proof.
  unfold strftime. rewrite !Forall_app.
  split_and!;
    try apply decimal_str_no_slash; try apply pad2_no_slash;
    apply (bool_decide_unpack _); vm_compute; exact I.
Qed.

(** A backup name is a simple name when the tag is free of the
    separator. *)
Lemma backup_name_simple tag stamp :
  Forall (λ c, c ≠ OS.slash) tag → Forall (λ c, c ≠ OS.slash) stamp →
  simple_name (backup_name_of tag stamp).
Proof.
  intros Ht Hs. unfold simple_name, backup_name_of. split_and!; try done.
  rewrite !Forall_app. split_and!; try done;
    apply (bool_decide_unpack _); vm_compute; exact I.
Qed.

(** ** Checking at sample data *)

(** An equation between closed terms, checked by evaluating both sides. *)
Ltac vm_refl :=
  match goal with
  | |- ?l = ?r => exact (@eq_refl _ r <: l = r)
  end.


(** ** The monad and the loop, unfolded *)

Lemma log_spec entry w : log entry w = Ok tt (printed w [entry]).
Proof. reflexivity. Qed.

Lemma printed_app w l1 l2 : printed (printed w l1) l2 = printed w (l1 ++ l2).
Proof. unfold printed. simpl. by rewrite app_assoc. Qed.

Lemma lookup_printed p w l : OS.lookup_path p (printed w l) = OS.lookup_path p w.
Proof. reflexivity. Qed.

Lemma get_mtime_spec path w :
  get_mtime path w = lift (mtime_at path w) w.
Proof.
  unfold get_mtime, try_except, bind, OS.getmtime, mtime_at, OS.absent_error.
  destruct (OS.lookup_path path w); [done|].
  by destruct (OS.under_file _ _).
Qed.

Lemma get_mtime_ok path w cur w' :
  get_mtime path w = Ok cur w' → mtime_at path w = inr cur.
Proof.
  rewrite get_mtime_spec. destruct (mtime_at path w); [discriminate|].
  by intros [= -> _].
Qed.

Lemma watching_spec h w :
  (if h mod 10 =? 0 then log LogWatching else ret tt) w
  = Ok tt (printed w (watching h)).
Proof.
  unfold watching. destruct (h mod 10 =? 0); [done|].
  by rewrite printed_nil.
Qed.

Lemma tick_nokey env st w :
  te_key env = NoKey →
  mod_is_zero (heartbeat st + 1) (interval (m_settings st)) = inr true →
  tick env st w = change_check (te_now env) (beat st) w.
Proof.
  intros Hk Hd. unfold tick, bind. rewrite Hk. simpl. by rewrite Hd.
Qed.

Lemma change_check_spec now st w cur :
  mtime_at (SOURCE (m_settings st)) w = inr cur →
  change_check now st w =
  let w1 := printed w (watching (heartbeat st)) in
  if mtime_changed cur (last_mtime st) then
    match make_backup now (m_settings st) w1 with
    | Ok _ w2 =>
        match prune_after_backup (m_settings st) w2 with
        | Ok _ w3 => Ok (Monitor (m_settings st) (heartbeat st) cur) w3
        | Raise e w3 => Raise e w3
        end
    | Raise e w2 => Raise e w2
    end
  else Ok st w1.
Proof.
  intros Hcur. unfold change_check, bind.
  rewrite get_mtime_spec, Hcur. simpl. rewrite watching_spec. simpl.
  destruct (mtime_changed _ _); [|done].
  destruct (make_backup _ _ _); [|done].
  by destruct (prune_after_backup _ _).
Qed.

Lemma make_backup_spec now cfg w :
  make_backup now cfg w =
  let r := read_at (SOURCE cfg) w in
  let name := backup_name_at now r in
  match OS.copy2 (SOURCE cfg) (OS.join (BACKUP_DIR cfg) name)
          (printed w (node_tag r).2) with
  | Ok _ w' => Ok tt (printed w' [LogBackupCreated name])
  | Raise e w' => Raise e w'
  end.
Proof.
  unfold make_backup, bind. rewrite get_player_tag_spec. simpl.
  by destruct (OS.copy2 _ _ _).
Qed.

(** [shutil.copy2] raises operating-system errors only; it prints
    nothing, and what it leaves behind when it raises differs from what
    it found at most at the destination. *)
Lemma copy2_raise src dst w e w' :
  OS.copy2 src dst w = Raise e w' →
  is_Exception e = true
  ∧ w_console w' = w_console w
  ∧ OS.lookup_path src w' = OS.lookup_path src w.
Proof.
  unfold OS.copy2, OS.parent_check, OS.absent_error, OS.lookup_path.
  repeat case_match; intros [= <- <-]; simplify_eq; simpl;
    split_and!; try done;
    (rewrite lookup_insert_ne; [done|]);
    match goal with
    | H : bool_decide _ = false |- _ => apply bool_decide_eq_false in H
    end; congruence.
Qed.

Lemma mtime_eq_unchanged cur last :
  mtime_eq cur last = true → mtime_changed cur last = false.
Proof.
  unfold mtime_eq, mtime_changed, mtime_ne.
  destruct cur as [c|], last as [l|]; try done.
  intros ->. by rewrite andb_false_r.
Qed.

(** ** The pruning pass, entry by entry *)

Lemma remove_spec path w :
  OS.remove path w =
  if removable (OS.lookup_path path w) then
    Ok tt (World (delete (OS.resolve path) (w_fs w))
             (w_free w
              + match OS.lookup_path path w with
                | Some (Node (KFile data) _ _ _) => N.of_nat (length data)
                | _ => 0
                end)%N
             (w_console w) (w_clock w))
  else
    Raise match OS.lookup_path path w with
          | None => OS.absent_error path w
          | Some (Node KDir _ _ _) => IsADirectoryError
          | Some (Node (KFile _) _ _ _) => PermissionError
          end w.
Proof.
  unfold OS.remove, removable.
  destruct (OS.lookup_path path w) as [[[data|] t r []]|]; done.
Qed.

Lemma remove_raise path w e w' :
  OS.remove path w = Raise e w' →
  w' = w ∧ is_Exception e = true ∧ removable (OS.lookup_path path w) = false.
Proof.
  rewrite remove_spec. destruct (removable _); [discriminate|].
  intros [= <- <-]. split; [done|]. split; [|done].
  unfold OS.absent_error.
  destruct (OS.lookup_path path w) as [[[data|] t r l]|]; try done.
  by destruct (OS.under_file _ _).
Qed.

(** One pass of the loop body returns, and deletes the addressed file
    exactly when the name has the extension, the year is below the
    cutoff and the removal succeeds. *)
Lemma cleanup_entry_spec backup_dir current_year keep fname w :
  ∃ w', cleanup_entry backup_dir current_year keep fname w = Ok tt w'
    ∧ w_fs w' =
      if endswith eu4_ext fname
         && too_old (current_year - keep) (w_fs w !! entry_key backup_dir fname)
         && removable (w_fs w !! entry_key backup_dir fname)
      then delete (entry_key backup_dir fname) (w_fs w)
      else w_fs w.
Proof.
  unfold cleanup_entry. destruct (endswith eu4_ext fname); [|by eexists].
  unfold bind. rewrite get_backup_year_spec. unfold too_old, entry_key.
  change (w_fs w !! OS.resolve (OS.join backup_dir fname))
    with (OS.lookup_path (OS.join backup_dir fname) w).
  destruct (node_year _) as [y|]; [|by eexists].
  destruct (y <? current_year - keep); [|by eexists].
  unfold try_except, bind. rewrite remove_spec.
  destruct (removable _) eqn:Hr; simpl.
  - by eexists.
  - eexists. split; [|done].
    unfold OS.absent_error.
    destruct (OS.lookup_path _ w) as [[[data|] t r l]|]; try done.
    by destruct (OS.under_file _ _).
Qed.

Lemma doomed_cons fs backup_dir cutoff fname names k :
  doomed fs backup_dir cutoff (fname :: names) k
  = (endswith eu4_ext fname && bool_decide (entry_key backup_dir fname = k)
     && too_old cutoff (fs !! k) && removable (fs !! k))
    || doomed fs backup_dir cutoff names k.
Proof.
  unfold doomed, selected. simpl.
  destruct (endswith eu4_ext fname), (bool_decide _), (existsb _ names),
    (too_old _ _), (removable _); done.
Qed.

(** The whole loop returns, and a file is gone afterwards exactly when it
    was doomed; every other file is as before. *)
Lemma cleanup_loop_spec backup_dir current_year keep names w :
  ∃ w', cleanup_loop backup_dir current_year keep names w = Ok tt w'
    ∧ ∀ k, w_fs w' !! k =
           if doomed (w_fs w) backup_dir (current_year - keep) names k
           then None else w_fs w !! k.
Proof.
  revert w. induction names as [|fname rest IH]; intros w.
  { exists w. split; [done|]. intros k. unfold doomed. done. }
  destruct (cleanup_entry_spec backup_dir current_year keep fname w)
    as (w1 & H1 & Hfs1).
  destruct (IH w1) as (w' & H' & Hfs').
  exists w'. split.
  { simpl. unfold bind. by rewrite H1. }
  intros k. rewrite Hfs', doomed_cons. clear Hfs' H' H1 IH.
  set (key := entry_key backup_dir fname) in *.
  set (cutoff := current_year - keep) in *.
  unfold doomed at 1.
  destruct (decide (key = k)) as [<-|Hne].
  - rewrite bool_decide_eq_true_2 by done. rewrite Hfs1.
    destruct (endswith eu4_ext fname); simpl.
    + destruct (too_old cutoff (w_fs w !! key)) eqn:Ho; simpl.
      * destruct (removable (w_fs w !! key)) eqn:Hr; simpl.
        -- rewrite lookup_delete_eq. unfold removable at 1. simpl.
           by rewrite andb_false_r.
        -- rewrite Ho, Hr. unfold doomed. rewrite Ho, Hr.
           by rewrite !andb_false_r.
      * rewrite Ho. unfold doomed. rewrite Ho. by rewrite !andb_false_r.
    + done.
  - rewrite bool_decide_eq_false_2 by done. rewrite andb_false_r. simpl.
    assert (w_fs w1 !! k = w_fs w !! k) as ->; [|done].
    rewrite Hfs1. case_match; [|done]. by rewrite lookup_delete_ne.
Qed.


Lemma doomed_spec fs backup_dir cutoff names k :
  doomed fs backup_dir cutoff names k = true ↔
  ∃ fname y, fname ∈ names ∧ endswith eu4_ext fname = true
    ∧ entry_key backup_dir fname = k
    ∧ node_year (fs !! k) = Some y ∧ y < cutoff
    ∧ removable (fs !! k) = true.
Proof.
  unfold doomed, selected, too_old.
  rewrite !andb_true_iff, existsb_exists. split.
  - intros [[(fname & Hin & Hsel) Hold] Hrem].
    apply andb_true_iff in Hsel as [He Hk]. apply bool_decide_eq_true in Hk.
    destruct (node_year (fs !! k)) as [y|] eqn:Hy; [|done].
    exists fname, y. apply list_elem_of_In in Hin. split_and!; try done. lia.
  - intros (fname & y & Hin & He & Hk & Hy & Hlt & Hrem). split_and!; try done.
    + exists fname. apply list_elem_of_In in Hin. split; [done|].
      rewrite He. simpl. by apply bool_decide_eq_true.
    + rewrite Hy. lia.
Qed.

Lemma cleanup_old_backups_int backup_dir current_year keep_years keep w :
  PyInt.int keep_years = inr keep →
  cleanup_old_backups backup_dir current_year keep_years w =
  match OS.listdir backup_dir w with
  | Ok names w' => cleanup_loop backup_dir current_year keep names w'
  | Raise e w' => Raise e w'
  end.
Proof.
  intros Hint. unfold cleanup_old_backups.
  assert (is_all keep_years = false) as ->.
  { destruct keep_years; try done. simpl. apply bool_decide_eq_false.
    intros ->. vm_compute in Hint. discriminate. }
  by rewrite Hint.
Qed.

(** ** Extraction never raises *)

(** C6: for every path and every world, [get_player_tag] and
    [get_save_year] return and do not raise; whenever the statements
    under their [try] raise, the tag is the sentinel UNKNOWN and the year
    is absent; and when the file cannot be read at all (missing,
    unreadable, a directory) both are absent. *)
Theorem extraction_never_raises (path : pystr) (w : world) :
  (∃ tag w1, get_player_tag path w = Ok tag w1 ∧ w_fs w1 = w_fs w)
  ∧ (∃ year, get_save_year path w = Ok year w)
  ∧ (∀ e w1, player_tag_body path w = Raise e w1 →
       get_player_tag path w = Ok UNKNOWN (printed w [LogTagWarning e]))
  ∧ (∀ e w1, save_year_body path w = Raise e w1 →
       get_save_year path w = Ok None w)
  ∧ (∀ e, OS.read_bytes path w = Raise e w →
       get_player_tag path w = Ok UNKNOWN (printed w [LogTagWarning e])
       ∧ get_save_year path w = Ok None w).
Proof.
  rewrite get_player_tag_spec, get_save_year_spec.
  pose proof (read_at_node path w) as Hn.
  split_and!.
  - eauto.
  - eauto.
  - intros e w1. rewrite player_tag_body_spec. unfold node_tag.
    destruct (read_at _ _) as [e'|data]; [by intros [= -> _]|].
    destruct (tag_of_content data) as [e'|t]; simpl; [by intros [= -> _]|].
    discriminate.
  - intros e w1. rewrite save_year_body_spec. unfold node_year.
    destruct (read_at _ _) as [e'|data].
    + by destruct Hn as [e'' ->].
    + rewrite Hn.
      destruct (year_of_content data) as [e'|t]; simpl; [done|discriminate].
  - intros e. rewrite read_bytes_spec. unfold node_tag, node_year.
    destruct (read_at _ _) as [e'|data]; simpl; [|discriminate].
    intros [= ->]. by destruct Hn as [e'' ->].
Qed.

(** ** Retention values that [int] rejects *)

(** [None], lists, dictionaries, NaN and strings that are no integer make
    [cleanup_old_backups] return at once. *)
Lemma cleanup_rejected_value_is_noop backup_dir current_year keep w e :
  is_all keep = false →
  PyInt.int keep = inl e →
  e = TypeError ∨ e = ValueError →
  cleanup_old_backups backup_dir current_year keep w = Ok tt w.
Proof.
  intros Hall Hint He. unfold cleanup_old_backups. rewrite Hall, Hint.
  by destruct He as [-> | ->].
Qed.

(** C10: at an infinite float, which [json.load] reads from the literal
    [Infinity], [int] raises [OverflowError]; the [except] clause names
    [TypeError] and [ValueError] only, so the exception leaves
    [cleanup_old_backups]. *)
Theorem cleanup_infinite_retention_raises
    (backup_dir : pystr) (current_year : Z) (negative : bool) (w : world) :
  PyInt.int (PyFloat (S754_infinity negative)) = inl OverflowError
  ∧ cleanup_old_backups backup_dir current_year
      (PyFloat (S754_infinity negative)) w = Raise OverflowError w.
Proof. done. Qed.

(** ** The change check *)

(** C2: on a tick that performs the change check, when the modification
    time just sampled equals the last known one, the iteration ends with
    the file system, the free space and the remembered time as they were;
    at most the line [Watching] is printed. The content of the files
    plays no part. *)
Theorem unchanged_mtime_no_backup
    (env : tick_env) (st : monitor) (w : world)
    (current_mtime : option spec_float) :
  te_key env = NoKey →
  mod_is_zero (heartbeat st + 1) (interval (m_settings st)) = inr true →
  get_mtime (SOURCE (m_settings st)) w = Ok current_mtime w →
  mtime_eq current_mtime (last_mtime st) = true →
  tick env st w = Ok (beat st) (printed w (watching (heartbeat st + 1))).
Proof.
  intros Hk Hd Hcur Heq.
  rewrite (tick_nokey _ _ _ Hk Hd).
  rewrite (change_check_spec (te_now env) (beat st) _ _ (get_mtime_ok _ _ _ _ Hcur)). simpl.
  by rewrite (mtime_eq_unchanged _ _ Heq).
Qed.

(** C8: on a tick that performs the change check, when the source file
    is missing, [get_mtime] returns [None], the iteration ends without an
    exception, nothing is written, the last known modification time
    stays, and the loop goes on with the next iteration. *)
Theorem missing_source_is_no_change
    (env : tick_env) (rest : list tick_env) (st : monitor) (w : world) :
  te_key env = NoKey →
  mod_is_zero (heartbeat st + 1) (interval (m_settings st)) = inr true →
  OS.getmtime (SOURCE (m_settings st)) (te_others env w)
  = Raise FileNotFoundError (te_others env w) →
  get_mtime (SOURCE (m_settings st)) (te_others env w)
  = Ok None (te_others env w)
  ∧ tick env st (te_others env w)
    = Ok (beat st) (printed (te_others env w) (watching (heartbeat st + 1)))
  ∧ run (env :: rest) st w
    = run rest (beat st)
        (printed (te_others env w) (watching (heartbeat st + 1))).
Proof.
  intros Hk Hd Hmiss.
  assert (Hget : get_mtime (SOURCE (m_settings st)) (te_others env w)
                 = Ok None (te_others env w)).
  { unfold get_mtime, try_except, bind. by rewrite Hmiss. }
  assert (Ht : tick env st (te_others env w)
               = Ok (beat st)
                   (printed (te_others env w) (watching (heartbeat st + 1)))).
  { rewrite (tick_nokey _ _ _ Hk Hd).
    by rewrite (change_check_spec (te_now env) (beat st) _ _ (get_mtime_ok _ _ _ _ Hget)). }
  split_and!; [done|done|].
  simpl. by rewrite Ht.
Qed.

(** C3, as the code has it: when the copy of a due backup raises, the
    exception leaves the iteration and the [while] loop, whose only
    handler is for [KeyboardInterrupt]: the process ends with that
    exception, whatever iterations would have followed. Nothing is
    logged, neither about the failure nor about a backup, and nothing is
    cleaned up: the world is as the failed copy left it, with whatever
    it wrote at the backup path. *)
Theorem copy_failure_ends_monitoring
    (env : tick_env) (rest : list tick_env) (st : monitor) (w : world)
    (current_mtime : option spec_float) (e : exn) (w' : world) :
  let cfg := m_settings st in
  let w0 := te_others env w in
  let r := read_at (SOURCE cfg) w0 in
  let w1 := printed w0 (watching (heartbeat st + 1) ++ (node_tag r).2) in
  te_key env = NoKey →
  mod_is_zero (heartbeat st + 1) (interval cfg) = inr true →
  get_mtime (SOURCE cfg) w0 = Ok current_mtime w0 →
  mtime_changed current_mtime (last_mtime st) = true →
  OS.copy2 (SOURCE cfg)
    (OS.join (BACKUP_DIR cfg) (backup_name_at (te_now env) r)) w1
  = Raise e w' →
  get_player_tag (SOURCE cfg) (printed w0 (watching (heartbeat st + 1)))
  = Ok (node_tag r).1 w1
  ∧ w_console w' = w_console w1
  ∧ tick env st w0 = Raise e w'
  ∧ run (env :: rest) st w = Crashed e w'.
Proof.
  intros cfg w0 r w1 Hk Hd Hcur Hch Hcopy.
  split.
  { rewrite get_player_tag_spec.
    change (read_at (SOURCE cfg) (printed w0 (watching (heartbeat st + 1))))
      with r.
    by rewrite printed_app. }
  destruct (copy2_raise _ _ _ _ _ Hcopy) as (He & Hcon & _).
  assert (Ht : tick env st w0 = Raise e w').
  { rewrite (tick_nokey _ _ _ Hk Hd).
    rewrite (change_check_spec (te_now env) (beat st) _ _ (get_mtime_ok _ _ _ _ Hcur)). simpl.
    fold cfg. rewrite Hch, make_backup_spec. simpl.
    change (read_at (SOURCE cfg) (printed w0 (watching (heartbeat st + 1))))
      with r.
    rewrite printed_app. fold w1. by rewrite Hcopy. }
  split_and!; [done|done|].
  simpl. fold w0. rewrite Ht. by destruct e.
Qed.

Lemma unchanged_mtime_no_backup_witness :
  let st := sample_monitor (PyInt 10) 7 in
  let w := world_without_backup_dir in
  (te_key sample_env = NoKey
   ∧ mod_is_zero (heartbeat st + 1) (interval (m_settings st)) = inr true
   ∧ get_mtime (SOURCE (m_settings st)) w
     = Ok (Some (S754_finite false 7 0)) w
   ∧ mtime_eq (Some (S754_finite false 7 0)) (last_mtime st) = true)
  ∧ tick sample_env st w = Ok (beat st) (printed w [LogWatching]).
Proof.
  intros st w.
  assert (H1 : te_key sample_env = NoKey) by reflexivity.
  assert (H2 : mod_is_zero (heartbeat st + 1) (interval (m_settings st))
               = inr true) by reflexivity.
  assert (H3 : get_mtime (SOURCE (m_settings st)) w
               = Ok (Some (S754_finite false 7 0)) w)
    by (vm_compute; reflexivity).
  assert (H4 : mtime_eq (Some (S754_finite false 7 0)) (last_mtime st) = true)
    by reflexivity.
  split; [exact (conj H1 (conj H2 (conj H3 H4)))|].
  exact (unchanged_mtime_no_backup sample_env st w _ H1 H2 H3 H4).
Defined.

Lemma missing_source_is_no_change_witness :
  let st := sample_monitor (PyInt 10) 7 in
  let w := world_without_source in
  (te_key sample_env = NoKey
   ∧ mod_is_zero (heartbeat st + 1) (interval (m_settings st)) = inr true
   ∧ OS.getmtime (SOURCE (m_settings st)) (te_others sample_env w)
     = Raise FileNotFoundError (te_others sample_env w))
  ∧ run [sample_env; sample_env] st w
    = run [sample_env] (beat st) (printed w [LogWatching]).
Proof.
  intros st w.
  assert (H1 : te_key sample_env = NoKey) by reflexivity.
  assert (H2 : mod_is_zero (heartbeat st + 1) (interval (m_settings st))
               = inr true) by reflexivity.
  assert (H3 : OS.getmtime (SOURCE (m_settings st)) (te_others sample_env w)
               = Raise FileNotFoundError (te_others sample_env w))
    by (vm_compute; reflexivity).
  split; [exact (conj H1 (conj H2 H3))|].
  exact (proj2 (proj2
    (missing_source_is_no_change sample_env [sample_env] st w H1 H2 H3))).
Defined.

Lemma copy_failure_ends_monitoring_witness :
  let st := sample_monitor (PyInt 10) 1 in
  let w := world_with_full_volume in
  let name := backup_name_at sample_time (read_at (SOURCE (m_settings st)) w) in
  ∃ w',
    (te_key sample_env = NoKey
     ∧ mod_is_zero (heartbeat st + 1) (interval (m_settings st)) = inr true
     ∧ get_mtime (SOURCE (m_settings st)) w
       = Ok (Some (S754_finite false 7 0)) w
     ∧ mtime_changed (Some (S754_finite false 7 0)) (last_mtime st) = true
     ∧ OS.copy2 (SOURCE (m_settings st))
         (OS.join (BACKUP_DIR (m_settings st)) name) (printed w [LogWatching])
       = Raise OSError w')
    ∧ w_console w' = [LogWatching]
    ∧ w_fs w' !! [py "saves"; py "backups"; name]
      = Some (Node (KFile (pyb "EU4txt" ++ [LF] ++ pyb "dat")) sample_clock
                   true false)
    ∧ run [sample_env; sample_env] st w = Crashed OSError w'.
Proof.
  intros st w name.
  pose (w' := match OS.copy2 (SOURCE (m_settings st))
                      (OS.join (BACKUP_DIR (m_settings st)) name)
                      (printed w [LogWatching]) with
              | Ok _ w1 => w1
              | Raise _ w1 => w1
              end).
  assert (H1 : te_key sample_env = NoKey) by reflexivity.
  assert (H2 : mod_is_zero (heartbeat st + 1) (interval (m_settings st))
               = inr true) by reflexivity.
  assert (H3 : get_mtime (SOURCE (m_settings st)) w
               = Ok (Some (S754_finite false 7 0)) w) by vm_refl.
  assert (H4 : mtime_changed (Some (S754_finite false 7 0)) (last_mtime st)
               = true) by reflexivity.
  assert (H5 : OS.copy2 (SOURCE (m_settings st))
                 (OS.join (BACKUP_DIR (m_settings st)) name)
                 (printed w [LogWatching])
               = Raise OSError w') by vm_refl.
  assert (H6 : w_console w' = [LogWatching]) by vm_refl.
  assert (H7 : w_fs w' !! [py "saves"; py "backups"; name]
               = Some (Node (KFile (pyb "EU4txt" ++ [LF] ++ pyb "dat"))
                            sample_clock true false)) by vm_refl.
  exists w'.
  split; [exact (conj H1 (conj H2 (conj H3 (conj H4 H5))))|].
  split; [exact H6|]. split; [exact H7|].
  exact (proj2 (proj2 (proj2
    (copy_failure_ends_monitoring sample_env [sample_env] st w _
       OSError w' H1 H2 H3 H4 H5)))).
Defined.

(** With no backup directory the copy raises [FileNotFoundError], and
    the iteration does not complete: the claim that a failing copy is
    survived does not hold. *)
Lemma copy_failure_is_not_survived : ¬ copy_failure_is_survived.
Proof.
  intros H.
  destruct (H sample_env (sample_monitor (PyInt 10) 1) world_without_backup_dir
              (Some (S754_finite false 7 0)) FileNotFoundError
              (printed world_without_backup_dir [LogWatching]))
    as (st' & w'' & Ht); try (vm_compute; reflexivity).
  vm_compute in Ht. discriminate Ht.
Qed.

(** ** Pruning *)

(** C7: with the backup directory listed, [cleanup_old_backups] returns
    and does not raise, whichever removals the system refuses. A refused
    removal is caught inside the loop body, which then returns with the
    world untouched, and the scan goes on: after the pass every listed
    backup that is too old is gone if its removal is permitted and is
    still in place if not, wherever in the listing it stands. *)
Theorem prune_survives_failed_removals
    (backup_dir : pystr) (current_year keep : Z) (keep_years : pyval)
    (names : list pystr) (w : world) :
  PyInt.int keep_years = inr keep →
  OS.listdir backup_dir w = Ok names w →
  (∀ fname w0 e w1,
     OS.remove (OS.join backup_dir fname) w0 = Raise e w1 →
     cleanup_entry backup_dir current_year keep fname w0 = Ok tt w0)
  ∧ ∃ w',
      cleanup_old_backups backup_dir current_year keep_years w = Ok tt w'
      ∧ ∀ fname,
          fname ∈ names →
          endswith eu4_ext fname = true →
          too_old (current_year - keep) (w_fs w !! entry_key backup_dir fname)
          = true →
          w_fs w' !! entry_key backup_dir fname =
          if removable (w_fs w !! entry_key backup_dir fname) then None
          else w_fs w !! entry_key backup_dir fname.
Proof.
  intros Hint Hls. split.
  - intros fname w0 e w1 Hrm.
    destruct (remove_raise _ _ _ _ Hrm) as (-> & He & Hr).
    unfold cleanup_entry. destruct (endswith eu4_ext fname); [|done].
    unfold bind. rewrite get_backup_year_spec.
    destruct (node_year _) as [y|]; [|done].
    destruct (y <? current_year - keep); [|done].
    unfold try_except, bind. by rewrite Hrm, He.
  - rewrite (cleanup_old_backups_int _ _ _ _ _ Hint), Hls.
    destruct (cleanup_loop_spec backup_dir current_year keep names w)
      as (w' & Hrun & Hfs).
    exists w'. split; [done|].
    intros fname Hin Hext Hold. rewrite Hfs. unfold doomed.
    rewrite Hold. simpl.
    assert (selected backup_dir names (entry_key backup_dir fname) = true)
      as ->.
    { unfold selected. apply existsb_exists. exists fname.
      split; [by apply list_elem_of_In|].
      rewrite Hext. simpl. by apply bool_decide_eq_true. }
    done.
Qed.

Lemma prune_survives_failed_removals_witness :
  let w := world_with_backups in
  let d := sample_backup_dir in
  (PyInt.int (PyInt 10) = inr 10
   ∧ OS.listdir d w = Ok (OS.entries (OS.resolve d) (w_fs w)) w)
  ∧ ∃ w',
      cleanup_old_backups d 1523 (PyInt 10) w = Ok tt w'
      ∧ w_fs w' !! entry_key d (py "a.eu4")
        = Some (backup_of_year "1500" true)
      ∧ w_fs w' !! entry_key d (py "b.eu4") = None.
Proof.
  intros w d.
  assert (H1 : PyInt.int (PyInt 10) = inr 10) by reflexivity.
  assert (H2 : OS.listdir d w = Ok (OS.entries (OS.resolve d) (w_fs w)) w)
    by (vm_compute; reflexivity).
  split; [exact (conj H1 H2)|].
  destruct (proj2 (prune_survives_failed_removals d 1523 10 (PyInt 10) _ w H1 H2))
    as (w' & Hrun & Hall).
  exists w'. split; [exact Hrun|].
  assert (Ha : py "a.eu4" ∈ OS.entries (OS.resolve d) (w_fs w))
    by (apply (bool_decide_unpack _); vm_compute; exact I).
  assert (Hb : py "b.eu4" ∈ OS.entries (OS.resolve d) (w_fs w))
    by (apply (bool_decide_unpack _); vm_compute; exact I).
  split.
  - etrans; [apply (Hall _ Ha)|]; vm_compute; reflexivity.
  - etrans; [apply (Hall _ Hb)|]; vm_compute; reflexivity.
Defined.



(** ** The name of a backup *)

Lemma pad2_two_digits n : (n < 100)%N → pad2 n = two_digits n.
Proof.
  intros Hn.
  apply (bool_decide_eq_true_1 (pad2 n = two_digits n)).
  revert n Hn.
  apply (below_forallb (λ n, bool_decide (pad2 n = two_digits n)) 100).
  vm_compute. reflexivity.
Qed.

Lemma decimal_str_four_digits n :
  (1000 ≤ n)%N → (n < 10000)%N → decimal_str n = four_digits n.
Proof.
  intros Hlo Hhi. unfold decimal_str, four_digits.
  assert (Hlog : (9 ≤ N.log2 n)%N).
  { change 9%N with (N.log2 512). apply N.log2_le_mono. lia. }
  destruct (N.to_nat (N.log2 n)) as [|[|[|f]]] eqn:Hf; try lia.
  assert (H1 : (n <? 10)%N = false) by (apply N.ltb_ge; lia).
  assert (H2 : (n / 10 <? 10)%N = false).
  { apply N.ltb_ge. apply N.div_le_lower_bound; lia. }
  assert (H3 : (n / 10 / 10 <? 10)%N = false).
  { apply N.ltb_ge. rewrite N.Div0.div_div.
    apply N.div_le_lower_bound; lia. }
  assert (H4 : (n / 10 / 10 / 10 <? 10)%N = true).
  { apply N.ltb_lt. rewrite !N.Div0.div_div.
    apply N.Div0.div_lt_upper_bound. lia. }
  simpl decimal_rev. rewrite H1, H2, H3, H4. simpl.
  by rewrite !N.Div0.div_div.
Qed.

Lemma strftime_format t : valid_time t = true → strftime t = stamp_format t.
Proof.
  unfold valid_time. rewrite !andb_true_iff, !N.leb_le.
  intros [[[[[[[[? ?] ?] ?] ?] ?] ?] ?] ?].
  unfold strftime, stamp_format.
  rewrite decimal_str_four_digits by lia.
  rewrite !pad2_two_digits by lia. reflexivity.
Qed.

Lemma copy2_ok src dst w w' :
  OS.copy2 src dst w = Ok tt w' →
  is_dir (OS.lookup_path dst w) = false →
  ∃ n data,
    OS.lookup_path src w = Some n ∧ n_kind n = KFile data
    ∧ w_fs w' = <[OS.resolve dst :=
                   Node (KFile data) (n_mtime n) (n_readable n) false]> (w_fs w)
    ∧ w_console w' = w_console w.
Proof.
  unfold OS.copy2, is_dir. intros H Hd.
  destruct (OS.lookup_path dst w) as [[[d|] t r l]|] eqn:Edst;
    try discriminate Hd;
    repeat case_match; simplify_eq; eauto 10.
Qed.

(** C9, as the code has it: when the backup step at a local time with a
    four-digit year returns, the tag is what [get_player_tag] gave for
    the source (a tag found by the scan, or UNKNOWN), the time stamp reads
    YYYY-MM-DD_HH-MM-SS down to the second, the name is
    [mp_autosave_<tag>_<stamp>.eu4] and is what the log line reports, and
    the path is the backup directory joined with that name. When the tag
    holds no path separator, that path addresses the entry of that name
    in the backup directory, and (unless a directory of that name stood
    there before) the entry is a file that holds the content and the
    modification time of the source. *)
Theorem backup_is_named_by_tag_and_time
    (now : struct_time) (cfg : settings) (w w' : world) :
  let r := read_at (SOURCE cfg) w in
  let tag := (node_tag r).1 in
  let name := py "mp_autosave_" ++ tag ++ py "_" ++ stamp_format now
              ++ py ".eu4" in
  let path := OS.join (BACKUP_DIR cfg) name in
  valid_time now = true →
  make_backup now cfg w = Ok tt w' →
  is_dir (OS.lookup_path path w) = false →
  Forall (λ c, c ≠ OS.slash) tag →
  get_player_tag (SOURCE cfg) w = Ok tag (printed w (node_tag r).2)
  ∧ (tag = UNKNOWN
     ∨ ∃ data, r = inr data ∧ tag_of_content data = inr (Some tag))
  ∧ (∃ sep, (sep = [] ∨ sep = [OS.slash])
            ∧ path = BACKUP_DIR cfg ++ sep ++ name)
  ∧ simple_name name
  ∧ OS.resolve path = OS.resolve (BACKUP_DIR cfg) ++ [name]
  ∧ w_console w' = w_console w ++ (node_tag r).2 ++ [LogBackupCreated name]
  ∧ ∃ n data,
      OS.lookup_path (SOURCE cfg) w = Some n ∧ n_kind n = KFile data
      ∧ w_fs w' !! (OS.resolve (BACKUP_DIR cfg) ++ [name])
        = Some (Node (KFile data) (n_mtime n) (n_readable n) false).
Proof.
  intros r tag name path Hvalid Hrun Hnodir Htag.
  assert (Hname : backup_name_at now r = name).
  { unfold backup_name_at, backup_name_of, name.
    by rewrite (strftime_format _ Hvalid). }
  assert (Hsimple : simple_name name).
  { rewrite <- Hname. apply backup_name_simple; [done|].
    apply strftime_no_slash. }
  pose proof (resolve_join (BACKUP_DIR cfg) name Hsimple) as Hkey.
  fold path in Hkey.
  rewrite make_backup_spec in Hrun. simpl in Hrun. fold r in Hrun.
  rewrite Hname in Hrun. fold path in Hrun.
  destruct (OS.copy2 _ path _) as [[] w1|] eqn:Hcopy; [|discriminate].
  injection Hrun as <-.
  destruct (copy2_ok _ _ _ _ Hcopy) as (n & data & Hsrc & Hkind & Hfs & Hcon);
    [done|].
  split_and!.
  - apply get_player_tag_spec.
  - unfold tag, node_tag.
    destruct r as [e|data'] eqn:Hr; [by left|].
    destruct (tag_of_content data') as [e|[t|]] eqn:Ht; simpl; eauto.
  - unfold path, OS.join.
    assert (startswith [OS.slash] name = false) as -> by done.
    case_match; [exists []|exists [OS.slash]]; eauto.
  - done.
  - done.
  - simpl. rewrite Hcon. simpl. by rewrite app_assoc.
  - exists n, data. split_and!; try done.
    rewrite <- Hkey. simpl. rewrite Hfs. apply lookup_insert_eq.
Qed.

Lemma backup_is_named_by_tag_and_time_witness :
  let cfg := sample_settings (PyInt 10) in
  let w := world_with_backups in
  let name := py "mp_autosave_SWE_2024-01-02_03-04-05.eu4" in
  (valid_time sample_time = true
   ∧ (∃ w', make_backup sample_time cfg w = Ok tt w')
   ∧ is_dir (OS.lookup_path (OS.join (BACKUP_DIR cfg) name) w) = false
   ∧ Forall (λ c, c ≠ OS.slash) (node_tag (read_at (SOURCE cfg) w)).1)
  ∧ ∃ w', make_backup sample_time cfg w = Ok tt w'
          ∧ w_console w' = [LogBackupCreated name]
          ∧ w_fs w' !! [py "saves"; py "backups"; name]
            = Some (sample_file sample_save 7).
Proof.
  intros cfg w name.
  pose (w' := match make_backup sample_time cfg w with
              | Ok _ w1 => w1
              | Raise _ w1 => w1
              end).
  assert (Hrun : make_backup sample_time cfg w = Ok tt w') by vm_refl.
  assert (H1 : valid_time sample_time = true) by reflexivity.
  assert (H3 : is_dir (OS.lookup_path (OS.join (BACKUP_DIR cfg) name) w)
               = false) by vm_refl.
  assert (H4 : Forall (λ c, c ≠ OS.slash)
                 (node_tag (read_at (SOURCE cfg) w)).1)
    by (apply (bool_decide_unpack _); vm_compute; exact I).
  split; [exact (conj H1 (conj (ex_intro _ w' Hrun) (conj H3 H4)))|].
  exists w'. split; [exact Hrun|].
  destruct (backup_is_named_by_tag_and_time sample_time cfg w w' H1 Hrun H3 H4)
    as (_ & _ & _ & _ & _ & Hcon & n & data & Hn & Hk & Hfs).
  split.
  - etrans; [exact Hcon|]. vm_refl.
  - etrans; [exact Hfs|].
    vm_compute in Hn. injection Hn as <-. vm_compute in Hk.
    injection Hk as <-. vm_refl.
Defined.

(** With [player=x/y] in the save and a directory [mp_autosave_x] in the
    backup directory, the backup step returns, and the file lands in that
    subdirectory under the name [y_2024-01-02_03-04-05.eu4]: the backup
    directory gets no entry that bears the name of the backup. The claim
    that every backup is created in the backup directory under its name
    does not hold. *)
Lemma tag_with_separator_leaves_the_backup_directory :
  ¬ backup_is_created_in_backup_dir.
Proof.
  intros H.
  pose (cfg := sample_settings (PyInt 10)).
  pose (w := world_with_tag_directory).
  pose (w' := match make_backup sample_time cfg w with
              | Ok _ w1 => w1
              | Raise _ w1 => w1
              end).
  pose (name := py "mp_autosave_x/y_2024-01-02_03-04-05.eu4").
  assert (Hrun : make_backup sample_time cfg w = Ok tt w') by vm_refl.
  assert (Hnd : is_dir (OS.lookup_path (OS.join (BACKUP_DIR cfg) name) w)
                = false) by vm_refl.
  assert (Hnone : w_fs w' !! (OS.resolve (BACKUP_DIR cfg) ++ [name]) = None)
    by vm_refl.
  pose proof (H sample_time cfg w w' eq_refl Hrun Hnd) as Hsome.
  change (is_Some (w_fs w' !! (OS.resolve (BACKUP_DIR cfg) ++ [name])))
    in Hsome.
  rewrite Hnone in Hsome. by destruct Hsome.
Qed.

(** Where that backup is found instead. *)
Example tag_with_separator_lands_in_a_subdirectory :
  match make_backup sample_time (sample_settings (PyInt 10))
          world_with_tag_directory with
  | Ok _ w' =>
      w_fs w' !! [py "saves"; py "backups"; py "mp_autosave_x";
                  py "y_2024-01-02_03-04-05.eu4"]
  | Raise _ _ => None
  end
  = Some (sample_file slash_save 7).
Proof. vm_compute. reflexivity. Qed.

(** ** The year of a save *)

Lemma item_cons_1 x l : item (x :: l) 1 = item l 0.
Proof. reflexivity. Qed.

Lemma isspace_not_eq c : isspace c = true → c ≠ 61%N.
Proof. intros H ->. vm_compute in H. done. Qed.

Lemma scan_date_cons b line rest :
  scan_date b (line :: rest) =
  if date_line b line then
    match value_of line with
    | inl e => inl e
    | inr date_str =>
        match item (split 46 date_str) 0 with
        | inl e => inl e
        | inr y =>
            match PyInt.of_str y with
            | inl e => inl e
            | inr year => inr (Some year)
            end
        end
    end
  else scan_date b rest.
Proof. reflexivity. Qed.

(** A line [date=YYYY.<rest>], white space before it allowed, is a date
    line for the first pass, and the scan reads from it the integer that
    [int] reads from [YYYY]. *)
Lemma date_line_year ws yyyy rest y post :
  Forall (λ c, isspace c = true) ws →
  PyInt.of_str yyyy = inr y →
  scan_date true ((ws ++ py "date=" ++ yyyy ++ 46%N :: rest) :: post)
  = inr (Some y).
Proof.
  intros Hws Hy.
  change (py "date=") with ([100; 97; 116; 101] ++ [61])%N.
  pose proof (of_str_chars _ _ Hy) as Hchars.
  pose proof (of_str_lstrip _ _ Hy) as Hcore.
  destruct (dropwhile isspace yyyy) as [|c0 core] eqn:Edrop;
    [by vm_compute in Hcore|].
  pose proof (dropwhile_head _ _ _ _ Edrop) as Hc0.
  pose proof (of_str_chars _ _ Hcore) as Hcore_chars.
  assert (Hline : strip (ws ++ ([100; 97; 116; 101] ++ [61])%N
                         ++ yyyy ++ 46%N :: rest)
          = ([100; 97; 116; 101] ++ 61 :: rstrip_by isspace
                                            (yyyy ++ 46 :: rest))%N).
  { unfold strip, strip_by, lstrip_by.
    rewrite dropwhile_app_all by done.
    change (([100; 97; 116; 101] ++ [61])%N ++ yyyy ++ 46%N :: rest)
      with (100%N :: ([97; 116; 101]%N ++ 61%N :: (yyyy ++ 46%N :: rest))).
    rewrite dropwhile_stop by done.
    change (100%N :: ([97; 116; 101]%N ++ 61%N :: (yyyy ++ 46%N :: rest)))
      with ([100; 97; 116; 101]%N ++ 61%N :: (yyyy ++ 46%N :: rest)).
    by rewrite rstrip_by_app_stop. }
  assert (Hvalue : ∃ rest',
             value_of (ws ++ ([100; 97; 116; 101] ++ [61])%N
                       ++ yyyy ++ 46%N :: rest)
             = inr ((c0 :: core) ++ 46%N :: rest')).
  { unfold value_of.
    replace (ws ++ ([100; 97; 116; 101] ++ [61])%N ++ yyyy ++ 46%N :: rest)
      with ((ws ++ [100; 97; 116; 101]%N) ++ 61%N :: (yyyy ++ 46%N :: rest))
      by (by rewrite <- !app_assoc).
    rewrite split_app_sep, item_cons_1.
    2:{ apply Forall_app. split.
        - eapply Forall_impl; [exact Hws|]. apply isspace_not_eq.
        - repeat constructor; done. }
    destruct (split_first_any 61%N yyyy 46%N rest) as (r1 & -> & _).
    { eapply Forall_impl; [exact Hchars|]. by intros c (? & ? & ?). }
    { done. }
    unfold strip, strip_by, lstrip_by.
    rewrite dropwhile_app_stop by done. rewrite Edrop.
    rewrite (rstrip_by_app_stop isspace (c0 :: core) 46%N) by done.
    unfold strip_chars, strip_by, lstrip_by.
    assert (Hq : mem c0 [34%N] = false).
    { unfold mem. simpl. rewrite orb_false_r. apply N.eqb_neq.
      by destruct (Forall_cons_1 _ _ _ Hcore_chars) as [(? & ? & ?) _]. }
    rewrite <- app_comm_cons. rewrite dropwhile_stop by done.
    rewrite app_comm_cons.
    rewrite (rstrip_by_app_stop _ (c0 :: core) 46%N) by done.
    eauto. }
  destruct Hvalue as (rest' & Hvalue).
  rewrite scan_date_cons. unfold date_line. rewrite Hline, Hvalue.
  change (startswith (py "date=") _) with true. cbv iota.
  rewrite (split_first 46%N (c0 :: core) (46%N :: rest')).
  - by rewrite Hcore.
  - eapply Forall_impl; [exact Hcore_chars|]. by intros c (? & ? & ?).
  - eauto.
Qed.

Lemma scan_date_skip b pre lines :
  Forall (λ l, date_line b l = false) pre →
  scan_date b (pre ++ lines) = scan_date b lines.
Proof.
  induction 1 as [|l pre Hl _ IH]; [done|].
  rewrite <- app_comm_cons, scan_date_cons. by rewrite Hl.
Qed.

(** C4, as the code has it: when the first line of the decoded content
    whose trimmed form starts with [date=] reads [date=YYYY.<rest>], with
    white space before it allowed and [YYYY] an integer literal,
    [get_save_year] returns that integer, whatever the lines before and
    after it hold. *)
Theorem first_date_line_gives_year
    (path : pystr) (w : world) (data : pybytes)
    (pre post : list pystr) (ws yyyy rest : pystr) (y : Z) :
  read_at path w = inr data →
  binary_lines data
  = pre ++ (ws ++ py "date=" ++ yyyy ++ py "." ++ rest) :: post →
  Forall (λ l, date_line true l = false) pre →
  Forall (λ c, isspace c = true) ws →
  PyInt.of_str yyyy = inr y →
  get_save_year path w = Ok (Some y) w.
Proof.
  intros Hread Hlines Hpre Hws Hy.
  rewrite get_save_year_spec. unfold node_year, year_of_content.
  pose proof (read_at_node path w) as Hn. rewrite Hread in Hn.
  rewrite Hn, Hlines, (scan_date_skip _ _ _ Hpre).
  change (py "." ++ rest) with (46%N :: rest).
  by rewrite (date_line_year _ _ _ _ _ Hws Hy).
Qed.

Lemma first_date_line_gives_year_witness :
  let w := world_of_file noisy_save in
  let pre := [[0; 69; 85; 52; 98; 105; 110]%N] in
  let post := [[40%N]; py "date=1600.1.1"] in
  (read_at (py "save.eu4") w = inr noisy_save
   ∧ binary_lines noisy_save
     = pre ++ ([9%N] ++ py "date=" ++ py "1523" ++ py "." ++ py "4.12" ++ [13%N])
            :: post
   ∧ Forall (λ l, date_line true l = false) pre
   ∧ Forall (λ c, isspace c = true) [9%N]
   ∧ PyInt.of_str (py "1523") = inr 1523)
  ∧ get_save_year (py "save.eu4") w = Ok (Some 1523) w.
Proof.
  intros w pre post.
  assert (H1 : read_at (py "save.eu4") w = inr noisy_save)
    by (vm_compute; reflexivity).
  assert (H2 : binary_lines noisy_save
               = pre ++ ([9%N] ++ py "date=" ++ py "1523" ++ py "."
                         ++ py "4.12" ++ [13%N]) :: post)
    by (vm_compute; reflexivity).
  assert (H3 : Forall (λ l, date_line true l = false) pre)
    by (repeat constructor).
  assert (H4 : Forall (λ c, isspace c = true) [9%N]) by (repeat constructor).
  assert (H5 : PyInt.of_str (py "1523") = inr 1523) by (vm_compute; reflexivity).
  split; [by split_and!|].
  exact (first_date_line_gives_year (py "save.eu4") w noisy_save pre post
           [9%N] (py "1523") (py "4.12" ++ [13%N]) 1523 H1 H2 H3 H4 H5).
Defined.

(** A content with the lines [date=1444.11.11] and [date=1500.1.1] has a
    line that gives the year 1500, yet [get_save_year] returns 1444. *)
Lemma later_date_line_is_not_read : ¬ any_date_line_gives_year.
Proof.
  intros H.
  specialize (H (py "save.eu4") (world_of_file two_dates) two_dates
                (py "1500") (py "1") (py "1") 1500).
  assert (Hyear : get_save_year (py "save.eu4") (world_of_file two_dates)
                  = Ok (Some 1444) (world_of_file two_dates))
    by (vm_compute; reflexivity).
  rewrite Hyear in H.
  assert (Ok (Some 1444) (world_of_file two_dates)
          = Ok (Some 1500) (world_of_file two_dates)) as [=].
  apply H.
  - vm_compute. reflexivity.
  - apply (bool_decide_unpack _). vm_compute. exact I.
  - vm_compute. reflexivity.
Qed.

(** ** The player tag *)

Lemma scan_player_cons b line rest :
  scan_player b (line :: rest) =
  if player_line b line then
    match value_of line with
    | inl e => inl e
    | inr tag => if tag_set tag then inr (Some tag) else scan_player b rest
    end
  else scan_player b rest.
Proof. reflexivity. Qed.

Lemma scan_player_passed b pre lines :
  Forall (passed_over b) pre →
  scan_player b (pre ++ lines) = scan_player b lines.
Proof.
  induction 1 as [|l pre Hl _ IH]; [done|].
  rewrite <- app_comm_cons, scan_player_cons.
  destruct Hl as [-> | [-> | ->]]; [done| |]; by destruct (player_line b l).
Qed.

Lemma scan_player_yield b line tag post :
  yields_tag b line tag → scan_player b (line :: post) = inr (Some tag).
Proof.
  intros (Hl & Hv & Hne & Hunset). rewrite scan_player_cons, Hl, Hv.
  unfold tag_set. by rewrite !bool_decide_eq_false_2.
Qed.

Lemma scan_player_none b lines :
  Forall (passed_over b) lines → scan_player b lines = inr None.
Proof.
  intros H. rewrite <- (app_nil_r lines). by rewrite scan_player_passed.
Qed.

(** The value of a line is what stands between its first [=] and the
    next one (or the end), stripped of white space and then of quotes. *)
Lemma value_of_field key v rest :
  Forall (λ c, c ≠ 61%N) key → Forall (λ c, c ≠ 61%N) v →
  rest = [] ∨ (∃ r, rest = 61%N :: r) →
  value_of (key ++ 61%N :: v ++ rest) = inr (strip_chars [34%N] (strip v)).
Proof.
  intros Hk Hv Hrest. unfold value_of.
  rewrite split_app_sep, item_cons_1 by done.
  by rewrite split_first.
Qed.

(** C5, as the code has it: the scan returns the value of the first line
    whose trimmed form starts with [player=] and whose value is neither
    empty nor [---]; lines before it that are no player line or whose
    value is empty or [---] are passed over. When the lines of the first
    pass are all passed over, the lines of the text-mode pass are scanned
    the same way (untrimmed), and when those are passed over too the tag
    is UNKNOWN. The value of a line is what stands between its first [=]
    and the next, trimmed of white space and then of double quotes. *)
Theorem first_set_player_line_gives_tag
    (path : pystr) (w : world) (data : pybytes) :
  read_at path w = inr data →
  (∀ pre line post tag,
     binary_lines data = pre ++ line :: post →
     Forall (passed_over true) pre →
     yields_tag true line tag →
     get_player_tag path w = Ok tag w)
  ∧ (∀ pre line post tag,
       Forall (passed_over true) (binary_lines data) →
       text_lines (Utf8.decode data) = pre ++ line :: post →
       Forall (passed_over false) pre →
       yields_tag false line tag →
       get_player_tag path w = Ok tag w)
  ∧ (Forall (passed_over true) (binary_lines data) →
     Forall (passed_over false) (text_lines (Utf8.decode data)) →
     get_player_tag path w = Ok UNKNOWN w)
  ∧ (∀ key v rest,
       Forall (λ c, c ≠ 61%N) key → Forall (λ c, c ≠ 61%N) v →
       rest = [] ∨ (∃ r, rest = 61%N :: r) →
       value_of (key ++ 61%N :: v ++ rest)
       = inr (strip_chars [34%N] (strip v))).
Proof.
  intros Hread. rewrite get_player_tag_spec. unfold node_tag, tag_of_content.
  rewrite Hread. split_and!.
  - intros pre line post tag -> Hpre Hline.
    rewrite (scan_player_passed _ _ _ Hpre), (scan_player_yield _ _ _ _ Hline).
    simpl. by rewrite printed_nil.
  - intros pre line post tag Hfirst -> Hpre Hline.
    rewrite (scan_player_none _ _ Hfirst).
    rewrite (scan_player_passed _ _ _ Hpre), (scan_player_yield _ _ _ _ Hline).
    simpl. by rewrite printed_nil.
  - intros Hfirst Hsecond.
    rewrite (scan_player_none _ _ Hfirst), (scan_player_none _ _ Hsecond).
    simpl. by rewrite printed_nil.
  - apply value_of_field.
Qed.

Lemma first_set_player_line_gives_tag_witness :
  let w := world_of_file unset_then_set in
  (read_at (py "save.eu4") w = inr unset_then_set
   ∧ binary_lines unset_then_set
     = [py "player=---"] ++ (py "player=" ++ [34%N] ++ py "SWE" ++ [34%N]) :: [[]]
   ∧ Forall (passed_over true) [py "player=---"]
   ∧ yields_tag true (py "player=" ++ [34%N] ++ py "SWE" ++ [34%N]) (py "SWE"))
  ∧ get_player_tag (py "save.eu4") w = Ok (py "SWE") w.
Proof.
  intros w.
  assert (H1 : read_at (py "save.eu4") w = inr unset_then_set) by (vm_compute; reflexivity).
  assert (H2 : binary_lines unset_then_set
               = [py "player=---"]
                 ++ (py "player=" ++ [34%N] ++ py "SWE" ++ [34%N]) :: [[]])
    by (vm_compute; reflexivity).
  assert (H3 : Forall (passed_over true) [py "player=---"]).
  { constructor; [|constructor]. right. right. vm_compute. reflexivity. }
  assert (H4 : yields_tag true (py "player=" ++ [34%N] ++ py "SWE" ++ [34%N])
                 (py "SWE")).
  { split_and!; [vm_compute; reflexivity|vm_compute; reflexivity|
                 discriminate|discriminate]. }
  split; [by split_and!|].
  exact (proj1 (first_set_player_line_gives_tag (py "save.eu4") w
                  unset_then_set H1) _ _ _ _ H2 H3 H4).
Defined.

(** The first player line of the content reads [player=---], yet the
    scan goes on to the next line and returns its tag. *)
Lemma scan_goes_past_unset_player : ¬ first_player_line_decides.
Proof.
  intros H.
  specialize (H (py "save.eu4") (world_of_file unset_then_set) unset_then_set
                [] (py "player=---")
                [py "player=" ++ [34%N] ++ py "SWE" ++ [34%N]; []]).
  assert (Htag : get_player_tag (py "save.eu4") (world_of_file unset_then_set)
                 = Ok (py "SWE") (world_of_file unset_then_set))
    by (vm_compute; reflexivity).
  rewrite Htag in H.
  assert (Ok (py "SWE") (world_of_file unset_then_set)
          = Ok UNKNOWN (world_of_file unset_then_set)) as [=].
  apply H; try (vm_compute; reflexivity). constructor.
Qed.

(** ** A whole iteration, computed

    The save of year 1523 has changed; the retention is 10 years. The
    iteration writes [mp_autosave_SWE_2024-01-02_03-04-05.eu4] and prunes
    with the cutoff 1513: the backup of 1510 goes, the one of 1500 stays
    because its removal is refused, and 1522, the backup without a date
    and the text file stay as well. *)
Example iteration_backs_up_and_prunes :
  match tick sample_env (sample_monitor (PyInt 10) 1) world_with_backups with
  | Ok st w =>
      Some (heartbeat st, last_mtime st, w_console w,
            match OS.listdir sample_backup_dir w with
            | Ok names _ => names
            | Raise _ _ => []
            end)
  | Raise _ _ => None
  end
  = Some (60, Some (S754_finite false 7 0),
          [LogWatching;
           LogBackupCreated (py "mp_autosave_SWE_2024-01-02_03-04-05.eu4");
           LogCleanedUp (py "b.eu4") 1510],
          [py "d.eu4"; py "mp_autosave_SWE_2024-01-02_03-04-05.eu4";
           py "a.eu4"; py "c.eu4"; py "old.txt"]).
Proof. vm_compute. reflexivity. Qed.

(** Ctrl+C ends the loop through the handler, which prints its farewell
    and exits. *)
Example interrupt_exits :
  run [TickEnv id CtrlC sample_time] (sample_monitor (PyInt 10) 7)
    world_without_source
  = Exited (printed world_without_source [LogGoodbye]).
Proof. vm_compute. reflexivity. Qed.

(** * Further properties *)

(** ** The schedule of the change check *)

Lemma tick_not_due env st w :
  te_key env = NoKey →
  mod_is_zero (heartbeat st + 1) (interval (m_settings st)) = inr false →
  tick env st w = Ok (beat st) w.
Proof.
  intros Hk Hd. unfold tick, bind. rewrite Hk. simpl. by rewrite Hd.
Qed.

Lemma tick_mod_raises env st w e :
  te_key env = NoKey →
  mod_is_zero (heartbeat st + 1) (interval (m_settings st)) = inl e →
  tick env st w = Raise e w.
Proof.
  intros Hk Hd. unfold tick, bind. rewrite Hk. simpl. by rewrite Hd.
Qed.

(** While no key is pressed and no check is due, the loop only counts:
    the world is what the other processes made of it. *)
Lemma run_not_due envs st w :
  quiet envs →
  (∀ i, (0 < i ≤ length envs)%nat →
        mod_is_zero (heartbeat st + Z.of_nat i) (interval (m_settings st))
        = inr false) →
  run envs st w = Running (beats (length envs) st) (others_acted envs w).
Proof.
  intros Hq. revert st w. induction Hq as [|env envs Hk _ IH]; intros st w Hnd.
  { simpl. unfold beats. simpl. rewrite Z.add_0_r. by destruct st. }
  simpl run. rewrite (tick_not_due env st _ Hk).
  2:{ apply (Hnd 1%nat). simpl. lia. }
  rewrite IH.
  - unfold beats, beat. simpl. do 2 f_equal. lia.
  - intros i Hi. simpl.
    replace (heartbeat st + 1 + Z.of_nat i) with (heartbeat st + Z.of_nat (S i))
      by lia.
    apply Hnd. simpl. lia.
Qed.

(** X1: with an interval that is NaN or infinite, no iteration from a
    heartbeat of at least zero ever performs the change check: however
    long the loop runs without a key, it writes and prints nothing and
    only counts heartbeats. *)
Theorem nonfinite_interval_never_checks
    (envs : list tick_env) (st : monitor) (w : world) (f : spec_float) :
  quiet envs →
  0 ≤ heartbeat st →
  interval (m_settings st) = PyFloat f →
  f = S754_nan ∨ (∃ negative, f = S754_infinity negative) →
  run envs st w = Running (beats (length envs) st) (others_acted envs w).
Proof.
  intros Hq Hh Hi Hf. apply run_not_due; [done|].
  intros i Hpos. rewrite Hi.
  destruct Hf as [->|[s ->]]; simpl; [done|].
  f_equal. apply Z.eqb_neq. lia.
Qed.

(** X2: with an interval of zero (the integer, the float or [False]) the
    first iteration without a key raises [ZeroDivisionError], and with an
    interval that is no number ([None], a string, a list, a dictionary)
    it raises [TypeError]; either way the exception is not handled and
    ends the loop before anything is sampled or written. *)
Theorem bad_interval_ends_the_loop
    (env : tick_env) (rest : list tick_env) (st : monitor) (w : world) :
  te_key env = NoKey →
  (interval (m_settings st) = PyInt 0
   ∨ interval (m_settings st) = PyBool false
   ∨ (∃ negative, interval (m_settings st) = PyFloat (S754_zero negative)) →
   run (env :: rest) st w = Crashed ZeroDivisionError (te_others env w))
  ∧ (interval (m_settings st) = PyNone
     ∨ (∃ s, interval (m_settings st) = PyStr s)
     ∨ interval (m_settings st) = PyList
     ∨ interval (m_settings st) = PyDict →
     run (env :: rest) st w = Crashed TypeError (te_others env w)).
Proof.
  intros Hk. split.
  - intros Hi. simpl.
    rewrite (tick_mod_raises env st _ ZeroDivisionError Hk); [done|].
    destruct Hi as [->|[->|[s ->]]]; done.
  - intros Hi. simpl.
    rewrite (tick_mod_raises env st _ TypeError Hk); [done|].
    destruct Hi as [->|[[s ->]|[->| ->]]]; done.
Qed.

(** X3: with a positive integer interval [k], counted from a heartbeat of
    zero (the start, or the return from the menu), the first [k - 1]
    iterations without a key perform no change check: nothing is written
    before [k] seconds have passed. *)
Theorem no_check_before_the_interval
    (envs : list tick_env) (st : monitor) (w : world) (k : Z) :
  quiet envs →
  heartbeat st = 0 →
  interval (m_settings st) = PyInt k →
  Z.of_nat (length envs) < k →
  run envs st w = Running (beats (length envs) st) (others_acted envs w).
Proof.
  intros Hq Hh Hi Hlen. apply run_not_due; [done|].
  intros i Hpos. rewrite Hi, Hh. simpl.
  destruct (k =? 0) eqn:Hk0; [lia|].
  f_equal. apply Z.eqb_neq. rewrite Z.mod_small; lia.
Qed.

(** An odd number that divides a multiple by a power of two divides
    the number itself. *)
Lemma odd_divides_power (o x : Z) (n : nat) :
  Z.odd o = true → (o | x * 2 ^ Z.of_nat n) → (o | x).
Proof.
  intros Hodd.
  assert (Hgcd : Z.gcd o 2 = 1).
  { pose proof (Z.gcd_divide_l o 2) as Hl.
    pose proof (Z.gcd_divide_r o 2) as Hr.
    pose proof (Z.gcd_nonneg o 2) as Hn.
    pose proof (Z.divide_pos_le (Z.gcd o 2) 2 eq_refl Hr) as Hle.
    destruct (Z.eq_dec (Z.gcd o 2) 0) as [H0'|H0'].
    { rewrite H0' in Hr. destruct Hr as [q Hq]. lia. }
    destruct (Z.eq_dec (Z.gcd o 2) 2) as [H2|H2]; [|lia].
    rewrite H2 in Hl. destruct Hl as [q Hq].
    rewrite Hq, Z.odd_mul in Hodd. by rewrite andb_false_r in Hodd. }
  revert x. induction n as [|n IH]; intros x Hx.
  - by rewrite Z.mul_1_r in Hx.
  - rewrite Nat2Z.inj_succ, Z.pow_succ_r in Hx by lia.
    apply IH. apply (Z.gauss _ 2); [|done].
    replace (2 * (x * 2 ^ Z.of_nat n)) with (x * (2 * 2 ^ Z.of_nat n))
      by lia. done.
Qed.

(** X4: an interval that is a float [o / 2^j] with [o] odd and [j > 0]
    (2.5 is 5/2) makes the change check due exactly on the heartbeats
    that are multiples of [o]: the check comes every [o] seconds, not
    every [o / 2^j]. The float is [m * 2^e] with [m = o * 2^k]. *)
Theorem fractional_interval_rounds_up
    (h : Z) (negative : bool) (m : positive) (e o k : Z) :
  e < 0 →
  0 ≤ k < - e →
  Z.pos m = o * 2 ^ k →
  Z.odd o = true →
  mod_is_zero h (PyFloat (S754_finite negative m e))
  = inr (h mod o =? 0).
Proof.
  intros He Hk Hm Hodd. simpl.
  destruct (0 <=? e) eqn:H0; [lia|]. f_equal.
  assert (Hpow : 0 < 2 ^ k) by (apply Z.pow_pos_nonneg; lia).
  assert (Ho : 0 < o) by nia.
  rewrite Hm.
  replace (h * 2 ^ (- e)) with ((h * 2 ^ (- e - k)) * 2 ^ k).
  2:{ rewrite <- Z.mul_assoc, <- Z.pow_add_r by lia. do 2 f_equal. lia. }
  rewrite Z.mul_mod_distr_r by lia.
  apply eq_true_iff_eq. rewrite !Z.eqb_eq.
  rewrite Z.mul_eq_0, Z.mod_divide, Z.mod_divide by lia.
  split.
  - intros [Hdiv|Hz]; [|lia].
    apply (odd_divides_power o h (Z.to_nat (- e - k)) Hodd).
    by rewrite Z2Nat.id by lia.
  - intros Hdiv. left. by apply Z.divide_mul_l.
Qed.

(** ** What the loop remembers *)

Lemma getmtime_get_mtime path w t :
  OS.getmtime path w = Ok t w → get_mtime path w = Ok (Some t) w.
Proof. intros H. unfold get_mtime, try_except, bind. by rewrite H. Qed.

(** A check that samples the remembered modification time writes
    nothing. *)
Lemma remembered_mtime_no_backup env st w cur :
  te_key env = NoKey →
  mod_is_zero (heartbeat st + 1) (interval (m_settings st)) = inr true →
  get_mtime (SOURCE (m_settings st)) w = Ok cur w →
  mtime_changed cur (last_mtime st) = false →
  tick env st w = Ok (beat st) (printed w (watching (heartbeat st + 1))).
Proof.
  intros Hk Hd Hcur Hsame.
  rewrite (tick_nokey _ _ _ Hk Hd).
  rewrite (change_check_spec (te_now env) (beat st) _ _
             (get_mtime_ok _ _ _ _ Hcur)).
  simpl. by rewrite Hsame.
Qed.

Lemma mtime_at_console path w c :
  mtime_at path (World (w_fs w) (w_free w) c (w_clock w)) = mtime_at path w.
Proof. reflexivity. Qed.

(** X5: a source whose modification time is 0.0 (the epoch) is never
    backed up: the sampled time is falsy in the change test, whatever
    time the loop remembers. *)
Theorem epoch_mtime_is_never_backed_up
    (env : tick_env) (st : monitor) (w : world) (negative : bool) :
  te_key env = NoKey →
  mod_is_zero (heartbeat st + 1) (interval (m_settings st)) = inr true →
  OS.getmtime (SOURCE (m_settings st)) w = Ok (S754_zero negative) w →
  tick env st w = Ok (beat st) (printed w (watching (heartbeat st + 1))).
Proof.
  intros Hk Hd Hm.
  apply (remembered_mtime_no_backup _ _ _ _ Hk Hd (getmtime_get_mtime _ _ _ Hm)).
  by destruct negative.
Qed.

(** X6: an iteration that backs up a change remembers the modification
    time it sampled, keeps the settings and counts one heartbeat; any
    later check that samples a time equal to the remembered one writes
    nothing. One change gives one backup. *)
Theorem one_backup_per_change
    (env : tick_env) (st st' : monitor) (w w' : world)
    (current_mtime : option spec_float) :
  te_key env = NoKey →
  mod_is_zero (heartbeat st + 1) (interval (m_settings st)) = inr true →
  get_mtime (SOURCE (m_settings st)) w = Ok current_mtime w →
  mtime_changed current_mtime (last_mtime st) = true →
  tick env st w = Ok st' w' →
  st' = Monitor (m_settings st) (heartbeat st + 1) current_mtime
  ∧ ∀ env2 st2 w2 sampled,
      te_key env2 = NoKey →
      m_settings st2 = m_settings st →
      last_mtime st2 = current_mtime →
      mod_is_zero (heartbeat st2 + 1) (interval (m_settings st2)) = inr true →
      get_mtime (SOURCE (m_settings st2)) w2 = Ok sampled w2 →
      mtime_eq sampled current_mtime = true →
      tick env2 st2 w2
      = Ok (beat st2) (printed w2 (watching (heartbeat st2 + 1))).
Proof.
  intros Hk Hd Hcur Hch Ht. split.
  - rewrite (tick_nokey _ _ _ Hk Hd) in Ht.
    rewrite (change_check_spec (te_now env) (beat st) _ _
               (get_mtime_ok _ _ _ _ Hcur)) in Ht.
    simpl in Ht. rewrite Hch in Ht.
    destruct (make_backup _ _ _) as [[] w1|]; [|discriminate].
    destruct (prune_after_backup _ _) as [[] w2|]; [|discriminate].
    by injection Ht as <- _.
  - intros env2 st2 w2 sampled Hk2 Hs2 Hl2 Hd2 Hcur2 Heq.
    apply (remembered_mtime_no_backup _ _ _ _ Hk2 Hd2 Hcur2).
    rewrite Hl2. by apply mtime_eq_unchanged.
Qed.

(** X7: on Ctrl+Q with the menu handing back settings, whatever the loop
    remembered is dropped: the settings handed back are in force, the
    heartbeat restarts at zero and the modification time is sampled
    afresh, so that a change of the source that was still pending, or
    happened while the menu was open, is not backed up by a later check
    that samples the same time. *)
Theorem menu_return_forgets_pending_change
    (env : tick_env) (st : monitor) (w : world)
    (cfg : settings) (current_mtime : option spec_float) :
  te_key env = CtrlQ (Some cfg) →
  get_mtime (SOURCE cfg) w = Ok current_mtime w →
  tick env st w
  = Ok (Monitor cfg 0 current_mtime)
      (printed w [LogReturningToMenu; LogResumed])
  ∧ ∀ env2 st2 w2 sampled,
      te_key env2 = NoKey →
      m_settings st2 = cfg →
      last_mtime st2 = current_mtime →
      mod_is_zero (heartbeat st2 + 1) (interval cfg) = inr true →
      get_mtime (SOURCE cfg) w2 = Ok sampled w2 →
      mtime_eq sampled current_mtime = true →
      tick env2 st2 w2
      = Ok (beat st2) (printed w2 (watching (heartbeat st2 + 1))).
Proof.
  intros Hk Hcur. split.
  - unfold tick, bind. rewrite Hk. simpl.
    rewrite get_mtime_spec, mtime_at_console.
    rewrite (get_mtime_ok _ _ _ _ Hcur). simpl.
    unfold printed. by rewrite <- app_assoc.
  - intros env2 st2 w2 sampled Hk2 Hs2 Hl2 Hd2 Hcur2 Heq.
    subst cfg.
    apply (remembered_mtime_no_backup _ _ _ _ Hk2 Hd2 Hcur2).
    rewrite Hl2. by apply mtime_eq_unchanged.
Qed.

(** ** A backup and the pruning that follows it *)

Lemma copy2_success src dst w w' :
  OS.copy2 src dst w = Ok tt w' →
  is_dir (OS.lookup_path dst w) = false →
  ∃ n data,
    OS.lookup_path src w = Some n ∧ n_kind n = KFile data
    ∧ n_readable n = true
    ∧ OS.resolve src ≠ OS.resolve dst
    ∧ w_fs w' = <[OS.resolve dst :=
                   Node (KFile data) (n_mtime n) true false]> (w_fs w)
    ∧ w_console w' = w_console w.
Proof.
  unfold OS.copy2, is_dir. intros H Hd.
  destruct (OS.lookup_path dst w) as [[[d|] t r l]|] eqn:Edst;
    try discriminate Hd;
    destruct (OS.lookup_path src w) as [n|] eqn:Esrc; try discriminate H;
    case_bool_decide as Hne; try discriminate H;
    destruct (n_kind n) as [data|] eqn:Ek; try discriminate H;
    destruct (n_readable n) eqn:Hr; try discriminate H; simpl in H;
    destruct (OS.parent_check _ _); try discriminate H;
    rewrite ?Edst in H; repeat case_match; simplify_eq;
    exists n, data; split_and!; done.
Qed.

(** The node that a backup leaves at its path reads like the source. *)
Lemma make_backup_node now cfg w w' :
  make_backup now cfg w = Ok tt w' →
  is_dir (OS.lookup_path
            (OS.join (BACKUP_DIR cfg)
               (backup_name_at now (read_at (SOURCE cfg) w))) w) = false →
  ∃ n data,
    OS.lookup_path (SOURCE cfg) w = Some n ∧ n_kind n = KFile data
    ∧ n_readable n = true
    ∧ OS.lookup_path (SOURCE cfg) w' = Some n
    ∧ OS.lookup_path
        (OS.join (BACKUP_DIR cfg)
           (backup_name_at now (read_at (SOURCE cfg) w))) w'
      = Some (Node (KFile data) (n_mtime n) true false)
    ∧ ∀ k, k ≠ OS.resolve (OS.join (BACKUP_DIR cfg)
                             (backup_name_at now (read_at (SOURCE cfg) w))) →
           w_fs w' !! k = w_fs w !! k.
Proof.
  intros Hrun Hnd. rewrite make_backup_spec in Hrun. simpl in Hrun.
  destruct (OS.copy2 _ _ _) as [[] w1|] eqn:Hcopy; [|discriminate].
  injection Hrun as <-.
  destruct (copy2_success _ _ _ _ Hcopy Hnd)
    as (n & data & Hsrc & Hk & Hr & Hne & Hfs & _).
  exists n, data. unfold OS.lookup_path in *. simpl in *.
  split_and!; try done.
  - rewrite Hfs. by rewrite lookup_insert_ne.
  - rewrite Hfs. by rewrite lookup_insert_eq.
  - intros k Hk'. rewrite Hfs. by rewrite lookup_insert_ne.
Qed.

(** X8: the backup that [make_backup] writes carries the metadata of the
    source: reading it gives the same bytes, [get_save_year] the same
    year, [get_player_tag] the tag that its name bears, and
    [os.path.getmtime] the modification time of the source, which
    [shutil.copy2] preserves. The source itself is untouched. *)
Theorem backup_carries_the_metadata_of_the_source
    (now : struct_time) (cfg : settings) (w w' : world) :
  let r := read_at (SOURCE cfg) w in
  let path := OS.join (BACKUP_DIR cfg) (backup_name_at now r) in
  make_backup now cfg w = Ok tt w' →
  is_dir (OS.lookup_path path w) = false →
  ∃ data t year,
    OS.read_bytes (SOURCE cfg) w = Ok data w
    ∧ OS.read_bytes path w' = Ok data w'
    ∧ OS.getmtime (SOURCE cfg) w = Ok t w
    ∧ OS.getmtime path w' = Ok t w'
    ∧ get_save_year (SOURCE cfg) w = Ok year w
    ∧ get_save_year path w' = Ok year w'
    ∧ get_player_tag path w' = Ok (node_tag r).1 (printed w' (node_tag r).2)
    ∧ OS.lookup_path (SOURCE cfg) w' = OS.lookup_path (SOURCE cfg) w.
Proof.
  intros r path Hrun Hnd.
  destruct (make_backup_node _ _ _ _ Hrun Hnd)
    as (n & data & Hsrc & Hk & Hr & Hsrc' & Hdst & _).
  fold r path in Hdst.
  assert (Hread : read_at (SOURCE cfg) w = inr data).
  { unfold read_at, read_node. by rewrite Hsrc, Hk, Hr. }
  assert (Hread' : read_at path w' = inr data).
  { unfold read_at, read_node. by rewrite Hdst. }
  exists data, (n_mtime n), (node_year (Some n)).
  split_and!.
  - by rewrite read_bytes_spec, Hread.
  - by rewrite read_bytes_spec, Hread'.
  - unfold OS.getmtime. by rewrite Hsrc.
  - unfold OS.getmtime. by rewrite Hdst.
  - by rewrite get_save_year_spec, Hsrc.
  - rewrite get_save_year_spec, Hdst. f_equal.
    unfold node_year, read_node. simpl. by rewrite Hk, Hr.
  - rewrite get_player_tag_spec, Hread'. unfold r. by rewrite Hread.
  - by rewrite Hsrc', Hsrc.
Qed.

(** With a retention that is not negative, the cleanup after a backup
    leaves every file in place whose year is that of the source. *)
Lemma prune_keeps_the_year_of_the_source cfg w w' path :
  prune_after_backup cfg w = Ok tt w' →
  (∀ keep, PyInt.int (keep_years cfg) = inr keep → 0 ≤ keep) →
  node_year (OS.lookup_path path w) = node_year (OS.lookup_path (SOURCE cfg) w) →
  OS.lookup_path path w' = OS.lookup_path path w.
Proof.
  unfold prune_after_backup, bind. rewrite get_save_year_spec.
  destruct (node_year (OS.lookup_path (SOURCE cfg) w)) as [y|] eqn:Hy;
    [|by intros [= <-]].
  intros Hrun Hkeep Hsame.
  unfold cleanup_old_backups in Hrun.
  destruct (is_all (keep_years cfg)); [by injection Hrun as <-|].
  destruct (PyInt.int (keep_years cfg)) as [e|keep] eqn:Hint.
  { destruct (bool_decide (e = TypeError) || bool_decide (e = ValueError));
      [by injection Hrun as <-|discriminate]. }
  unfold bind in Hrun.
  destruct (OS.listdir _ w) as [names w1|] eqn:Hls; [|discriminate].
  assert (w1 = w) as ->.
  { unfold OS.listdir in Hls. repeat case_match; by simplify_eq. }
  destruct (cleanup_loop_spec (BACKUP_DIR cfg) y keep names w)
    as (w2 & Hloop & Hfs).
  rewrite Hloop in Hrun. injection Hrun as <-.
  unfold OS.lookup_path in *. rewrite Hfs.
  unfold doomed, too_old. rewrite Hsame.
  specialize (Hkeep keep eq_refl).
  assert ((y <? y - keep) = false) as -> by (apply Z.ltb_ge; lia).
  by rewrite andb_false_r.
Qed.

(** X9: with a retention that is not negative, the backup written in an
    iteration and the source itself are still in place after the cleanup
    of the same iteration, even when the source lies in the backup
    directory: both bear the current year, which is never below the
    cutoff. *)
Theorem fresh_backup_survives_its_cleanup
    (now : struct_time) (cfg : settings) (w w1 w2 : world) :
  let path := OS.join (BACKUP_DIR cfg)
                (backup_name_at now (read_at (SOURCE cfg) w)) in
  make_backup now cfg w = Ok tt w1 →
  prune_after_backup cfg w1 = Ok tt w2 →
  is_dir (OS.lookup_path path w) = false →
  (∀ keep, PyInt.int (keep_years cfg) = inr keep → 0 ≤ keep) →
  OS.lookup_path path w2 = OS.lookup_path path w1
  ∧ is_Some (OS.lookup_path path w2)
  ∧ OS.lookup_path (SOURCE cfg) w2 = OS.lookup_path (SOURCE cfg) w.
Proof.
  intros path Hrun Hprune Hnd Hkeep.
  destruct (make_backup_node _ _ _ _ Hrun Hnd)
    as (n & data & Hsrc & Hk & Hr & Hsrc' & Hdst & _).
  fold path in Hdst.
  assert (Hy : node_year (OS.lookup_path path w1)
               = node_year (OS.lookup_path (SOURCE cfg) w1)).
  { rewrite Hdst, Hsrc'. unfold node_year, read_node. simpl.
    by rewrite Hk, Hr. }
  pose proof (prune_keeps_the_year_of_the_source _ _ _ path Hprune Hkeep Hy)
    as Hp.
  pose proof (prune_keeps_the_year_of_the_source _ _ _ (SOURCE cfg) Hprune
                Hkeep eq_refl) as Hs.
  split_and!; [done| |].
  - rewrite Hp, Hdst. eauto.
  - by rewrite Hs, Hsrc', Hsrc.
Qed.

Lemma listdir_ok path w names w' :
  OS.listdir path w = Ok names w' →
  w' = w ∧ names = OS.entries (OS.resolve path) (w_fs w)
  ∧ ∃ n, OS.lookup_path path w = Some n ∧ n_kind n = KDir
         ∧ n_readable n = true.
Proof.
  unfold OS.listdir.
  destruct (OS.lookup_path path w) as [n|]; [|discriminate].
  destruct (n_kind n) eqn:Hk; [discriminate|].
  destruct (n_readable n) eqn:Hr; [|discriminate].
  intros [= <- <-]. eauto 10.
Qed.

Lemma doomed_is_file fs d cutoff names k :
  doomed fs d cutoff names k = true →
  ∃ n data, fs !! k = Some n ∧ n_kind n = KFile data.
Proof.
  unfold doomed. rewrite !andb_true_iff. intros [_ Hr].
  unfold removable in Hr. destruct (fs !! k) as [n|]; [|done].
  destruct (n_kind n) eqn:Hk; [eauto|done].
Qed.

(** X10: pruning is idempotent: a second pass right after a pass that
    returned returns as well and leaves every file as the first pass left
    it. *)
Theorem pruning_twice_is_pruning_once
    (backup_dir : pystr) (current_year : Z) (keep_years : pyval)
    (w w1 : world) :
  cleanup_old_backups backup_dir current_year keep_years w = Ok tt w1 →
  ∃ w2, cleanup_old_backups backup_dir current_year keep_years w1 = Ok tt w2
        ∧ w_fs w2 = w_fs w1.
Proof.
  unfold cleanup_old_backups.
  destruct (is_all keep_years); [intros [= <-]; eauto|].
  destruct (PyInt.int keep_years) as [e|keep].
  { destruct (bool_decide (e = TypeError) || bool_decide (e = ValueError));
      [intros [= <-]; eauto|discriminate]. }
  unfold bind.
  destruct (OS.listdir backup_dir w) as [names w0|] eqn:Hls; [|discriminate].
  destruct (listdir_ok _ _ _ _ Hls) as (-> & Hnames & n & Hdir & Hk & Hr).
  intros Hrun.
  destruct (cleanup_loop_spec backup_dir current_year keep names w)
    as (w1' & Hloop & Hfs).
  rewrite Hloop in Hrun. injection Hrun as ->.
  assert (Hdir1 : OS.lookup_path backup_dir w1 = Some n).
  { unfold OS.lookup_path in *. rewrite Hfs.
    destruct (doomed _ _ _ _ _) eqn:Hd; [|done].
    destruct (doomed_is_file _ _ _ _ _ Hd) as (n' & data & Hn' & Hk').
    rewrite Hdir in Hn'. injection Hn' as <-. congruence. }
  unfold OS.listdir. rewrite Hdir1, Hk, Hr.
  destruct (cleanup_loop_spec backup_dir current_year keep
              (OS.entries (OS.resolve backup_dir) (w_fs w1)) w1)
    as (w2 & Hloop2 & Hfs2).
  exists w2. split; [done|]. apply map_eq. intros k. rewrite Hfs2.
  destruct (doomed (w_fs w1) _ _ _ k) eqn:Hd2; [|done]. exfalso.
  unfold doomed in Hd2. rewrite !andb_true_iff in Hd2.
  destruct Hd2 as [[Hsel Hold] Hrem].
  rewrite Hfs in Hold, Hrem.
  destruct (doomed (w_fs w) _ _ names k) eqn:Hd1; [done|].
  unfold doomed in Hd1. rewrite Hold, Hrem, !andb_true_r in Hd1.
  unfold selected in Hsel, Hd1.
  apply existsb_exists in Hsel as (fname & Hin & Hf).
  apply list_elem_of_In, entries_spec in Hin.
  assert (Hin0 : fname ∈ names).
  { rewrite Hnames. apply entries_spec. rewrite Hfs in Hin.
    destruct (doomed _ _ _ _ _); [by destruct Hin|done]. }
  assert (existsb
            (λ fname, endswith eu4_ext fname
                      && bool_decide (entry_key backup_dir fname = k)) names
          = true); [|congruence].
  apply existsb_exists. exists fname. split; [by apply list_elem_of_In|done].
Qed.

(** X11: the retention is only looked at when the source has a year.
    An iteration that backs up a source in which [get_save_year] finds
    no year completes with the world as the backup left it, whatever the
    retention is, also one on which [int] would raise. *)
Theorem undated_source_skips_the_cleanup
    (env : tick_env) (st : monitor) (w w1 : world)
    (current_mtime : option spec_float) :
  let cfg := m_settings st in
  te_key env = NoKey →
  mod_is_zero (heartbeat st + 1) (interval cfg) = inr true →
  get_mtime (SOURCE cfg) w = Ok current_mtime w →
  mtime_changed current_mtime (last_mtime st) = true →
  make_backup (te_now env) cfg (printed w (watching (heartbeat st + 1)))
  = Ok tt w1 →
  node_year (OS.lookup_path (SOURCE cfg) w1) = None →
  tick env st w = Ok (Monitor cfg (heartbeat st + 1) current_mtime) w1.
Proof.
  intros cfg Hk Hd Hcur Hch Hbackup Hyear.
  rewrite (tick_nokey _ _ _ Hk Hd).
  rewrite (change_check_spec (te_now env) (beat st) _ _
             (get_mtime_ok _ _ _ _ Hcur)).
  simpl. rewrite Hch. fold cfg. rewrite Hbackup.
  unfold prune_after_backup, bind. rewrite get_save_year_spec.
  fold cfg. by rewrite Hyear.
Qed.

(** X12: when the tag holds no path separator, the backup is written
    directly into the backup directory under its name: the name ends in
    [.eu4], and a listing of the backup directory after the backup shows
    it, so that later pruning passes consider it. *)
Theorem backup_is_an_entry_of_the_backup_directory
    (now : struct_time) (cfg : settings) (w w' : world)
    (names0 : list pystr) :
  let r := read_at (SOURCE cfg) w in
  let name := backup_name_at now r in
  make_backup now cfg w = Ok tt w' →
  Forall (λ c, c ≠ OS.slash) (node_tag r).1 →
  OS.listdir (BACKUP_DIR cfg) w = Ok names0 w →
  is_dir (OS.lookup_path (OS.join (BACKUP_DIR cfg) name) w) = false →
  endswith eu4_ext name = true
  ∧ OS.resolve (OS.join (BACKUP_DIR cfg) name)
    = OS.resolve (BACKUP_DIR cfg) ++ [name]
  ∧ ∃ names, OS.listdir (BACKUP_DIR cfg) w' = Ok names w'
             ∧ name ∈ names
             ∧ ∀ other, other ∈ names0 → other ∈ names.
Proof.
  intros r name Hrun Htag Hls Hnd.
  assert (Hsimple : simple_name name).
  { apply backup_name_simple; [done|apply strftime_no_slash]. }
  pose proof (resolve_join (BACKUP_DIR cfg) name Hsimple) as Hkey.
  destruct (make_backup_node _ _ _ _ Hrun Hnd)
    as (n & data & Hsrc & Hk & Hr & Hsrc' & Hdst & Hother).
  fold r name in Hdst, Hother.
  destruct (listdir_ok _ _ _ _ Hls) as (_ & Hnames0 & nd & Hdir & Hkd & Hrd).
  split_and!; [|done|].
  - unfold name, backup_name_at, backup_name_of.
    rewrite !app_assoc. apply endswith_app.
  - exists (OS.entries (OS.resolve (BACKUP_DIR cfg)) (w_fs w')).
    split_and!.
    + unfold OS.listdir, OS.lookup_path in *.
      rewrite Hother, Hdir, Hkd, Hrd; [done|].
      rewrite Hkey. intros Heq.
      apply (f_equal length) in Heq. rewrite length_app in Heq.
      simpl in Heq. lia.
    + apply entries_spec. rewrite <- Hkey.
      unfold OS.lookup_path in Hdst. rewrite Hdst. eauto.
    + intros other. rewrite Hnames0, !entries_spec.
      destruct (decide (OS.resolve (BACKUP_DIR cfg) ++ [other]
                        = OS.resolve (OS.join (BACKUP_DIR cfg) name)))
        as [Heq|Hne].
      * intros _. rewrite Heq. unfold OS.lookup_path in Hdst.
        rewrite Hdst. eauto.
      * by rewrite (Hother _ Hne).
Qed.

(** One pass of the loop body, the whole world: a removal frees the
    space of the file and prints one line; nothing else changes. *)
Lemma cleanup_entry_world backup_dir current_year keep fname w :
  cleanup_entry backup_dir current_year keep fname w =
  Ok tt
    match node_year (w_fs w !! entry_key backup_dir fname) with
    | Some y =>
        if endswith eu4_ext fname && (y <? current_year - keep)
           && removable (w_fs w !! entry_key backup_dir fname)
        then pruned_entry backup_dir fname y w
        else w
    | None => w
    end.
Proof.
  unfold cleanup_entry. destruct (endswith eu4_ext fname).
  2:{ by destruct (node_year _). }
  unfold bind. rewrite get_backup_year_spec. unfold entry_key, pruned_entry.
  change (w_fs w !! OS.resolve (OS.join backup_dir fname))
    with (OS.lookup_path (OS.join backup_dir fname) w).
  destruct (node_year _) as [y|]; [|done]. simpl.
  destruct (y <? current_year - keep); [|done]. simpl.
  unfold try_except, bind. rewrite remove_spec.
  destruct (removable _) eqn:Hr; simpl.
  - reflexivity.
  - unfold OS.absent_error.
    destruct (OS.lookup_path _ w) as [[[data|] t r l]|]; try done.
    by destruct (OS.under_file _ _).
Qed.

(** The loop never brings a file back. *)
Lemma cleanup_loop_stays_gone backup_dir current_year keep names w w' k :
  cleanup_loop backup_dir current_year keep names w = Ok tt w' →
  w_fs w !! k = None → w_fs w' !! k = None.
Proof.
  intros Hrun Hk.
  destruct (cleanup_loop_spec backup_dir current_year keep names w)
    as (w'' & Hrun' & Hfs).
  rewrite Hrun in Hrun'. injection Hrun' as <-.
  rewrite Hfs, Hk. by destruct (doomed _ _ _ _ _).
Qed.

(** The loop prints one line for each removal it makes, in the order of
    the names, and nothing else; [removed] holds the names with their
    years. *)
Lemma cleanup_loop_report backup_dir current_year keep names w w' :
  cleanup_loop backup_dir current_year keep names w = Ok tt w' →
  ∃ removed : list (pystr * Z),
    w_console w'
    = w_console w ++ map (λ fy, LogCleanedUp fy.1 fy.2) removed
    ∧ removed.*1 `sublist_of` names
    ∧ NoDup (map (λ fy, entry_key backup_dir fy.1) removed)
    ∧ Forall (λ fy,
        endswith eu4_ext fy.1 = true
        ∧ node_year (w_fs w !! entry_key backup_dir fy.1) = Some fy.2
        ∧ fy.2 < current_year - keep
        ∧ w_fs w' !! entry_key backup_dir fy.1 = None) removed
    ∧ (w_free w ≤ w_free w')%N.
Proof.
  revert w. induction names as [|fname rest IH]; intros w.
  { intros [= <-]. exists []. simpl. rewrite app_nil_r.
    split_and!; try done; constructor. }
  simpl. unfold bind. rewrite cleanup_entry_world.
  set (key := entry_key backup_dir fname).
  assert (Hsame : ∀ w1,
    w1 = w →
    cleanup_loop backup_dir current_year keep rest w1 = Ok tt w' →
    ∃ removed : list (pystr * Z),
      w_console w'
      = w_console w ++ map (λ fy, LogCleanedUp fy.1 fy.2) removed
      ∧ removed.*1 `sublist_of` fname :: rest
      ∧ NoDup (map (λ fy, entry_key backup_dir fy.1) removed)
      ∧ Forall (λ fy,
          endswith eu4_ext fy.1 = true
          ∧ node_year (w_fs w !! entry_key backup_dir fy.1) = Some fy.2
          ∧ fy.2 < current_year - keep
          ∧ w_fs w' !! entry_key backup_dir fy.1 = None) removed
      ∧ (w_free w ≤ w_free w')%N).
  { intros w1 -> Hrun.
    destruct (IH w Hrun) as (removed & Hc & Hs & Hn & Hall & Hf).
    exists removed. split_and!; try done. by apply sublist_cons. }
  destruct (node_year (w_fs w !! key)) as [y|] eqn:Hy; [|by apply Hsame].
  destruct (endswith eu4_ext fname && (y <? current_year - keep)
            && removable (w_fs w !! key)) eqn:Hcond; [|by apply Hsame].
  clear Hsame.
  apply andb_true_iff in Hcond as [Hcond Hrem].
  apply andb_true_iff in Hcond as [Hext Hlt]. apply Z.ltb_lt in Hlt.
  intros Hrun.
  destruct (IH _ Hrun) as (removed & Hc & Hs & Hn & Hall & Hf).
  unfold pruned_entry in Hc, Hf, Hall. simpl in Hc, Hf, Hall.
  fold key in Hc, Hf, Hall.
  assert (Hgone : w_fs w' !! key = None).
  { apply (cleanup_loop_stays_gone _ _ _ _ _ _ _ Hrun).
    unfold pruned_entry. simpl. apply lookup_delete_eq. }
  assert (Hother : Forall (λ fy, entry_key backup_dir fy.1 ≠ key) removed).
  { eapply Forall_impl; [exact Hall|]. intros fy (_ & Hny & _) Heq.
    rewrite Heq, lookup_delete_eq in Hny. done. }
  exists ((fname, y) :: removed). split_and!.
  - rewrite Hc, <- app_assoc. done.
  - simpl. by apply sublist_skip.
  - simpl. constructor; [|done]. fold key.
    intros Hin. apply list_elem_of_fmap in Hin as (fy & Heq & Hin).
    rewrite Forall_forall in Hother. by apply (Hother fy Hin).
  - constructor; [done|].
    rewrite Forall_forall in Hall, Hother. apply Forall_forall.
    intros fy Hin. destruct (Hall fy Hin) as (? & Hny & ? & ?).
    split_and!; try done.
    by rewrite lookup_delete_ne in Hny by (symmetry; apply (Hother fy Hin)).
  - lia.
Qed.

(** X13: a pruning pass that returns prints nothing but [Cleaned up]
    lines, in the order of the listing and never two for the same file:
    each line names a listed [.eu4] entry with its year, which lies below
    the cutoff, and the file of that entry was there before the pass and
    is gone after it. The free space never shrinks. *)
Theorem pruning_reports_only_what_it_removed
    (backup_dir : pystr) (current_year : Z) (keep_years : pyval)
    (keep : Z) (names : list pystr) (w w' : world) :
  PyInt.int keep_years = inr keep →
  OS.listdir backup_dir w = Ok names w →
  cleanup_old_backups backup_dir current_year keep_years w = Ok tt w' →
  ∃ removed : list (pystr * Z),
    w_console w'
    = w_console w ++ map (λ fy, LogCleanedUp fy.1 fy.2) removed
    ∧ removed.*1 `sublist_of` names
    ∧ NoDup (map (λ fy, entry_key backup_dir fy.1) removed)
    ∧ Forall (λ fy,
        endswith eu4_ext fy.1 = true
        ∧ node_year (w_fs w !! entry_key backup_dir fy.1) = Some fy.2
        ∧ fy.2 < current_year - keep
        ∧ w_fs w' !! entry_key backup_dir fy.1 = None) removed
    ∧ (w_free w ≤ w_free w')%N.
Proof.
  intros Hint Hls. rewrite (cleanup_old_backups_int _ _ _ _ _ Hint), Hls.
  apply cleanup_loop_report.
Qed.

(** ** A retention below zero *)

(** X14: with a retention below zero the cutoff lies above the current
    year, and the cleanup of an iteration removes the very backup that
    the iteration has just written (for a source with a year and a tag
    free of the separator). *)
Theorem negative_retention_removes_the_fresh_backup
    (now : struct_time) (cfg : settings) (w w1 w2 : world) (keep : Z) :
  let r := read_at (SOURCE cfg) w in
  let path := OS.join (BACKUP_DIR cfg) (backup_name_at now r) in
  make_backup now cfg w = Ok tt w1 →
  prune_after_backup cfg w1 = Ok tt w2 →
  is_dir (OS.lookup_path path w) = false →
  Forall (λ c, c ≠ OS.slash) (node_tag r).1 →
  is_Some (node_year (OS.lookup_path (SOURCE cfg) w)) →
  PyInt.int (keep_years cfg) = inr keep →
  keep < 0 →
  is_Some (OS.lookup_path path w1) ∧ OS.lookup_path path w2 = None.
Proof.
  intros r path Hrun Hprune Hnd Htag [y Hy] Hint Hneg.
  destruct (make_backup_node _ _ _ _ Hrun Hnd)
    as (n & data & Hsrc & Hk & Hr & Hsrc' & Hdst & _).
  fold r path in Hdst.
  split; [rewrite Hdst; eauto|].
  assert (Hsimple : simple_name (backup_name_at now r)).
  { apply backup_name_simple; [done|apply strftime_no_slash]. }
  pose proof (resolve_join (BACKUP_DIR cfg) _ Hsimple) as Hkey.
  fold path in Hkey.
  assert (Hyear : node_year (OS.lookup_path path w1) = Some y).
  { rewrite Hdst. rewrite Hsrc in Hy. rewrite <- Hy.
    unfold node_year, read_node. simpl. by rewrite Hk, Hr. }
  unfold prune_after_backup, bind in Hprune.
  rewrite get_save_year_spec, Hsrc', <- Hsrc, Hy in Hprune.
  rewrite (cleanup_old_backups_int _ _ _ _ _ Hint) in Hprune.
  destruct (OS.listdir (BACKUP_DIR cfg) w1) as [names w1'|] eqn:Hls;
    [|discriminate].
  destruct (listdir_ok _ _ _ _ Hls) as (-> & Hnames & _).
  destruct (cleanup_loop_spec (BACKUP_DIR cfg) y keep names w1)
    as (w2' & Hloop & Hfs).
  rewrite Hloop in Hprune. injection Hprune as <-.
  unfold OS.lookup_path in *. rewrite Hfs.
  assert (doomed (w_fs w1) (BACKUP_DIR cfg) (y - keep) names
            (OS.resolve path) = true) as ->; [|done].
  apply doomed_spec. exists (backup_name_at now r), y. split_and!.
  - rewrite Hnames. apply entries_spec. rewrite <- Hkey, Hdst. eauto.
  - unfold backup_name_at, backup_name_of.
    rewrite !app_assoc. apply endswith_app.
  - done.
  - done.
  - lia.
  - by rewrite Hdst.
Qed.

(** ** A source that cannot be looked up *)

(** X15: [get_mtime] handles [FileNotFoundError] only. When a directory
    on the way to the source is in fact a file, the first due check ends
    the loop with [NotADirectoryError], before anything is printed or
    written. *)
Theorem source_below_a_file_ends_the_loop
    (env : tick_env) (rest : list tick_env) (st : monitor) (w : world) :
  te_key env = NoKey →
  mod_is_zero (heartbeat st + 1) (interval (m_settings st)) = inr true →
  OS.getmtime (SOURCE (m_settings st)) (te_others env w)
  = Raise NotADirectoryError (te_others env w) →
  run (env :: rest) st w = Crashed NotADirectoryError (te_others env w).
Proof.
  intros Hk Hd Hm. simpl run.
  rewrite (tick_nokey _ _ _ Hk Hd).
  unfold change_check, bind. simpl.
  unfold get_mtime, try_except, bind. rewrite Hm. done.
Qed.

(** ** What the scanners return *)

Lemma split_pieces_no_sep sep s :
  Forall (λ piece, Forall (λ c, c ≠ sep) piece) (split sep s).
Proof.
  induction s as [|c s IH]; simpl; [by repeat constructor|].
  destruct (N.eqb_spec c sep) as [->|Hne]; [by constructor|].
  destruct (split sep s) as [|p ps]; [by repeat constructor|].
  apply Forall_cons in IH as [Hp Hps]. constructor; [by constructor|done].
Qed.

Lemma dropwhile_Forall (P : N → Prop) p s :
  Forall P s → Forall P (dropwhile p s).
Proof.
  induction 1 as [|c s Hc Hs IH]; simpl; [done|].
  destruct (p c); [done|by constructor].
Qed.

Lemma strip_by_Forall (P : N → Prop) p s :
  Forall P s → Forall P (strip_by p s).
Proof.
  intros H. unfold strip_by, rstrip_by, lstrip_by.
  apply Forall_rev, dropwhile_Forall, Forall_rev. by apply dropwhile_Forall.
Qed.

(** What is left of a strip neither begins nor ends with a stripped
    character. *)
Lemma strip_by_head p s c : head (strip_by p s) = Some c → p c = false.
Proof.
  unfold strip_by, lstrip_by.
  destruct (dropwhile p s) as [|c' t] eqn:Hd; [done|].
  pose proof (dropwhile_head _ _ _ _ Hd) as Hc'.
  change (c' :: t) with ([] ++ c' :: t).
  rewrite (rstrip_by_app_stop p [] c' t Hc'). simpl. by intros [= <-].
Qed.

Lemma strip_by_last p s c : last (strip_by p s) = Some c → p c = false.
Proof.
  unfold strip_by, rstrip_by.
  destruct (dropwhile p (rev (lstrip_by p s))) as [|c' t] eqn:Hd; [done|].
  simpl. rewrite last_snoc. intros [= <-]. by apply (dropwhile_head _ _ _ _ Hd).
Qed.

Lemma value_of_shape line v :
  value_of line = inr v →
  Forall (λ c, c ≠ 61%N) v ∧ head v ≠ Some 34%N ∧ last v ≠ Some 34%N.
Proof.
  unfold value_of, item.
  destruct (split 61 line !! 1%nat) as [piece|] eqn:Hp; [|discriminate].
  intros [= <-]. split_and!.
  - apply strip_by_Forall, strip_by_Forall.
    pose proof (split_pieces_no_sep 61 line) as Hall.
    rewrite Forall_lookup in Hall. by apply (Hall _ _ Hp).
  - intros Hh. apply strip_by_head in Hh. done.
  - intros Hl. apply strip_by_last in Hl. done.
Qed.

(** A tag that the scan returns is the value of one of the lines, and it
    is set. *)
Lemma scan_player_found b lines tag :
  scan_player b lines = inr (Some tag) →
  ∃ line, line ∈ lines ∧ player_line b line = true
          ∧ value_of line = inr tag ∧ tag_set tag = true.
Proof.
  induction lines as [|line rest IH]; [discriminate|].
  rewrite scan_player_cons.
  destruct (player_line b line) eqn:Hl.
  - destruct (value_of line) as [e|v] eqn:Hv; [discriminate|].
    destruct (tag_set v) eqn:Hs.
    + intros [= <-]. exists line. split_and!; try done. by left.
    + intros H. destruct (IH H) as (l & Hin & ?).
      exists l. split; [by right|done].
  - intros H. destruct (IH H) as (l & Hin & ?).
    exists l. split; [by right|done].
Qed.

(** X16: [get_player_tag] always returns, and what it returns is never
    the empty string and never [---]; it holds no [=] sign, and it
    neither begins nor ends with a double quote. *)
Theorem tag_is_never_empty_nor_unset (path : pystr) (w : world) :
  ∃ tag w',
    get_player_tag path w = Ok tag w'
    ∧ tag ≠ [] ∧ tag ≠ py "---"
    ∧ Forall (λ c, c ≠ 61%N) tag
    ∧ head tag ≠ Some 34%N ∧ last tag ≠ Some 34%N.
Proof.
  rewrite get_player_tag_spec. eexists _, _. split; [reflexivity|].
  assert (Hunknown : UNKNOWN ≠ [] ∧ UNKNOWN ≠ py "---"
    ∧ Forall (λ c, c ≠ 61%N) UNKNOWN
    ∧ head UNKNOWN ≠ Some 34%N ∧ last UNKNOWN ≠ Some 34%N).
  { split_and!; try done. apply (bool_decide_unpack _). vm_compute. exact I. }
  unfold node_tag. destruct (read_at path w) as [e|data]; [done|].
  destruct (tag_of_content data) as [e|[tag|]] eqn:Ht; try done.
  simpl. unfold tag_of_content in Ht.
  assert (∃ b lines, scan_player b lines = inr (Some tag))
    as (b & lines & Hscan).
  { destruct (scan_player true _) as [e|[t|]] eqn:H1; try discriminate.
    - injection Ht as ->. eauto.
    - eauto. }
  destruct (scan_player_found _ _ _ Hscan) as (line & _ & _ & Hv & Hset).
  destruct (value_of_shape _ _ Hv) as (Heq & Hh & Hl).
  unfold tag_set in Hset. apply andb_true_iff in Hset as [H1 H2].
  apply negb_true_iff, bool_decide_eq_false in H1.
  apply negb_true_iff, bool_decide_eq_false in H2.
  done.
Qed.

Lemma scan_date_raises b line post e :
  scan_date b [line] = inl e → scan_date b (line :: post) = inl e.
Proof.
  rewrite !scan_date_cons.
  destruct (date_line b line); [|discriminate].
  destruct (value_of line) as [e'|v]; [done|].
  destruct (item _ 0) as [e'|y]; [done|].
  destruct (PyInt.of_str y); [done|discriminate].
Qed.

(** X17: when the first [date=] line of the content cannot be read as a
    year, neither [get_save_year] nor [get_backup_year] finds one,
    whatever the later lines hold and without the second pass being
    tried; such a backup is never old enough to be pruned. *)
Theorem unreadable_first_date_hides_the_rest
    (path : pystr) (w : world) (data : pybytes)
    (pre : list pystr) (line : pystr) (post : list pystr) (e : exn)
    (cutoff : Z) :
  read_at path w = inr data →
  binary_lines data = pre ++ line :: post →
  Forall (λ l, date_line true l = false) pre →
  scan_date true [line] = inl e →
  get_save_year path w = Ok None w
  ∧ get_backup_year path w = Ok None w
  ∧ too_old cutoff (OS.lookup_path path w) = false.
Proof.
  intros Hread Hlines Hpre Hbad.
  assert (Hyear : node_year (OS.lookup_path path w) = None).
  { unfold node_year. pose proof (read_at_node path w) as Hn.
    rewrite Hread in Hn. rewrite Hn. unfold year_of_content.
    rewrite Hlines, (scan_date_skip _ _ _ Hpre).
    by rewrite (scan_date_raises _ _ _ _ Hbad). }
  rewrite get_save_year_spec, get_backup_year_spec. unfold too_old.
  by rewrite Hyear.
Qed.

(** ** Detection of the save-game paths *)

Lemma endswith_snoc c s x : endswith [c] (s ++ [x]) = (c =? x)%N.
Proof.
  unfold endswith. rewrite rev_app_distr. simpl. apply andb_true_r.
Qed.

(** Joining a name that does not begin with a slash to a directory that
    does not end with one. *)
Lemma join_snoc d x name :
  x ≠ OS.slash → startswith [OS.slash] name = false →
  OS.join (d ++ [x]) name = (d ++ [x]) ++ OS.slash :: name.
Proof.
  intros Hx Hn. unfold OS.join. rewrite Hn, endswith_snoc.
  rewrite bool_decide_eq_false_2 by (by destruct d).
  by rewrite (proj2 (N.eqb_neq _ _)) by done.
Qed.

Lemma dirname_join d x name :
  x ≠ OS.slash → Forall (λ c, c ≠ OS.slash) name →
  dirname ((d ++ [x]) ++ OS.slash :: name) = d ++ [x].
Proof.
  intros Hx Hn. unfold dirname.
  assert (Hhead : rev (dropwhile (λ c, negb (c =? OS.slash)%N)
                         (rev ((d ++ [x]) ++ OS.slash :: name)))
                  = (d ++ [x]) ++ [OS.slash]).
  { rewrite rev_app_distr. simpl rev at 1. rewrite <- app_assoc.
    rewrite dropwhile_app_all.
    2:{ apply Forall_rev. eapply Forall_impl; [exact Hn|].
        intros c Hc. simpl. by rewrite (proj2 (N.eqb_neq _ _)). }
    simpl. by rewrite rev_involutive. }
  rewrite Hhead.
  rewrite bool_decide_eq_false_2 by (by destruct d). simpl.
  assert (forallb (λ c, (c =? OS.slash)%N) ((d ++ [x]) ++ [OS.slash]) = false)
    as ->.
  { rewrite !forallb_app. simpl.
    rewrite (proj2 (N.eqb_neq x _)) by done.
    by rewrite andb_false_r. }
  simpl. unfold rstrip_by. rewrite !rev_app_distr. simpl.
  rewrite (proj2 (N.eqb_neq x _)) by done.
  simpl. by rewrite rev_involutive.
Qed.

Lemma join_all_snoc a p b :
  join_all a (p ++ [b]) = OS.join (join_all a p) b.
Proof. unfold join_all. by rewrite fold_left_app. Qed.

(** Every candidate directory ends in [save games]. *)
Lemma common_location_shape env d :
  d ∈ common_locations env → ∃ p, d = p ++ [115%N].
Proof.
  assert (Hlast : ∀ a p, ∃ q,
    join_all a (p ++ [py "save games"]) = q ++ [115%N]).
  { intros a p. rewrite join_all_snoc. unfold OS.join.
    change (startswith [OS.slash] (py "save games")) with false. cbv iota.
    change (py "save games") with (py "save game" ++ [115%N]).
    case_match; eexists; [by rewrite app_assoc|].
    by rewrite app_comm_cons, app_assoc. }
  unfold common_locations, save_games. intros Hin.
  repeat (apply elem_of_cons in Hin as [->|Hin]);
    [| | | |by apply elem_of_nil in Hin].
  - apply (Hlast _ [_; _; _]).
  - apply (Hlast _ [_; _; _; _; _; _]).
  - apply (Hlast _ [_; _; _; _]).
  - apply (Hlast _ [_; _; _; _]).
Qed.

Lemma first_autosave_found dirs w a :
  first_autosave dirs w = Some a →
  ∃ d, d ∈ dirs ∧ a = OS.join d autosave_name ∧ path_exists a w = true.
Proof.
  induction dirs as [|d dirs IH]; simpl; [discriminate|].
  destruct (path_exists (OS.join d autosave_name) w) eqn:He.
  - intros [= <-]. exists d. split; [by left|done].
  - intros H. destruct (IH H) as (d' & Hin & ?).
    exists d'. split; [by right|done].
Qed.

Lemma first_autosave_none dirs w :
  first_autosave dirs w = None →
  Forall (λ d, path_exists (OS.join d autosave_name) w = false) dirs.
Proof.
  induction dirs as [|d dirs IH]; simpl; [by constructor|].
  destruct (path_exists _ w) eqn:He; [discriminate|].
  intros H. constructor; auto.
Qed.

Lemma detected_is_common env w d :
  d ∈ detect_eu4_save_paths env w →
  d ∈ common_locations env ∧ path_exists d w = true.
Proof.
  unfold detect_eu4_save_paths. rewrite list_elem_of_filter. tauto.
Qed.

(** The pair before the double check: the two paths are the autosave
    name and [backups] below one and the same candidate directory. *)
Lemma detected_pair_shape env w :
  ∃ d, d ∈ common_locations env
    ∧ detected_pair env w
      = (d ++ OS.slash :: autosave_name, d ++ OS.slash :: py "backups").
Proof.
  assert (Hjoin : ∀ d, d ∈ common_locations env →
    OS.join d autosave_name = d ++ OS.slash :: autosave_name
    ∧ OS.join d (py "backups") = d ++ OS.slash :: py "backups"
    ∧ dirname (d ++ OS.slash :: autosave_name) = d).
  { intros d Hd. destruct (common_location_shape _ _ Hd) as [p ->].
    split_and!.
    - by apply join_snoc.
    - by apply join_snoc.
    - apply dirname_join; [done|].
      apply (bool_decide_unpack _). vm_compute. exact I. }
  assert (Hother : ∃ d, d ∈ common_locations env
    ∧ match detect_eu4_save_paths env w with
      | first :: _ =>
          (OS.join first autosave_name, OS.join first (py "backups"))
      | [] =>
          let eu4_dir := join_all (expanduser_home env) save_games in
          (OS.join eu4_dir autosave_name, OS.join eu4_dir (py "backups"))
      end
      = (d ++ OS.slash :: autosave_name, d ++ OS.slash :: py "backups")).
  { destruct (detect_eu4_save_paths env w) as [|first rest] eqn:Hdirs.
    - exists (join_all (expanduser_home env) save_games).
      assert (Hin : join_all (expanduser_home env) save_games
                    ∈ common_locations env) by (by left).
      split; [done|]. cbv zeta.
      destruct (Hjoin _ Hin) as (-> & -> & _). done.
    - assert (Hin : first ∈ common_locations env).
      { apply (detected_is_common env w). rewrite Hdirs. by left. }
      exists first. split; [done|].
      destruct (Hjoin _ Hin) as (-> & -> & _). done. }
  unfold detected_pair.
  destruct (detect_autosave_file env w) as [a|] eqn:Ha; [|exact Hother].
  case_bool_decide as Hempty; [exact Hother|].
  apply first_autosave_found in Ha as (d & Hin & -> & _).
  apply detected_is_common in Hin as [Hin _].
  exists d. split; [done|].
  destruct (Hjoin _ Hin) as (H1 & H2 & H3). by rewrite H1, H3, H2.
Qed.

Lemma suspect_never d :
  backup_dir_suspect (d ++ OS.slash :: autosave_name)
                     (d ++ OS.slash :: py "backups") = false.
Proof.
  unfold backup_dir_suspect. apply orb_false_iff. split.
  - apply bool_decide_eq_false. intros Heq.
    apply app_inv_head in Heq. discriminate.
  - unfold endswith. rewrite rev_app_distr. reflexivity.
Qed.

(** X18: the paths that [get_detected_paths] returns are always the
    autosave name and [backups] below one and the same candidate
    directory of [detect_eu4_save_paths] (with the path functions of
    POSIX). Hence the backup directory never equals the source file and
    never ends in [.eu4], and the final double check of the function
    changes nothing. *)
Theorem detected_paths_are_siblings (env : environ) (w : world) :
  ∃ d, d ∈ common_locations env
    ∧ get_detected_paths env w
      = (d ++ OS.slash :: autosave_name, d ++ OS.slash :: py "backups")
    ∧ get_detected_paths env w = detected_pair env w
    ∧ backup_dir_suspect (get_detected_paths env w).1
                         (get_detected_paths env w).2 = false.
Proof.
  destruct (detected_pair_shape env w) as (d & Hin & Hpair).
  exists d. unfold get_detected_paths. rewrite Hpair, suspect_never.
  split_and!; try done. apply suspect_never.
Qed.

Lemma first_autosave_some dirs w d :
  d ∈ dirs → path_exists (OS.join d autosave_name) w = true →
  ∃ a, first_autosave dirs w = Some a.
Proof.
  induction dirs as [|d' dirs IH]; intros Hin He.
  { by apply elem_of_nil in Hin. }
  simpl. destruct (path_exists (OS.join d' autosave_name) w) eqn:He'.
  { eauto. }
  apply elem_of_cons in Hin as [->|Hin]; [congruence|]. by apply IH.
Qed.

(** X19: when one of the candidate directories exists and holds the file
    [mp_autosave.eu4], the source that [get_detected_paths] returns is
    an existing file of that name, and the directory it lies in exists
    as well. *)
Theorem detection_returns_an_existing_autosave
    (env : environ) (w : world) (c : pystr) :
  c ∈ common_locations env →
  path_exists c w = true →
  path_exists (OS.join c autosave_name) w = true →
  detect_autosave_file env w = Some (get_detected_paths env w).1
  ∧ path_exists (get_detected_paths env w).1 w = true
  ∧ path_exists (dirname (get_detected_paths env w).1) w = true
  ∧ dirname (get_detected_paths env w).1 ∈ detect_eu4_save_paths env w.
Proof.
  intros Hc Hdir Hfile.
  assert (Hdet : c ∈ detect_eu4_save_paths env w).
  { unfold detect_eu4_save_paths. by apply list_elem_of_filter. }
  destruct (first_autosave_some _ _ _ Hdet Hfile) as [a Ha].
  destruct (first_autosave_found _ _ _ Ha) as (d & Hd & Heq & Hex).
  destruct (detected_is_common _ _ _ Hd) as [Hd' Hdex].
  destruct (common_location_shape _ _ Hd') as [p Hp].
  assert (Hjoin : a = d ++ OS.slash :: autosave_name).
  { rewrite Heq, Hp. by apply join_snoc. }
  assert (Hdn : dirname a = d).
  { rewrite Hjoin, Hp. apply dirname_join; [done|].
    apply (bool_decide_unpack _). vm_compute. exact I. }
  assert (Hpaths : get_detected_paths env w
                   = (a, d ++ OS.slash :: py "backups")).
  { unfold get_detected_paths, detected_pair, detect_autosave_file.
    rewrite Ha. rewrite bool_decide_eq_false_2.
    2:{ rewrite Hjoin. by destruct d. }
    rewrite Hdn. replace (OS.join d (py "backups"))
      with (d ++ OS.slash :: py "backups").
    2:{ rewrite Hp. symmetry. by apply join_snoc. }
    rewrite Hjoin at 1. by rewrite suspect_never. }
  rewrite Hpaths. simpl. rewrite Hdn. done.
Qed.

(** X20: with [DEFAULT_SETTINGS] the source and the backup directory are
    [mp_autosave.eu4] and [backups] in one and the same directory, the
    change check is due exactly on the heartbeats that 60 divides, and
    pruning removes nothing. *)
Theorem default_settings_check_each_minute_and_keep_all
    (env : environ) (w : world) :
  let cfg := DEFAULT_SETTINGS env w in
  (∃ d, OS.resolve (SOURCE cfg) = d ++ [autosave_name]
        ∧ OS.resolve (BACKUP_DIR cfg) = d ++ [py "backups"])
  ∧ (∀ h, mod_is_zero h (interval cfg) = inr (h mod 60 =? 0))
  ∧ (∀ dir year w', cleanup_old_backups dir year (keep_years cfg) w'
                    = Ok tt w').
Proof.
  destruct (detected_pair_shape env w) as (d & Hin & Hpair).
  destruct (common_location_shape _ _ Hin) as [p Hp].
  assert (Hpaths : get_detected_paths env w
    = (OS.join d autosave_name, OS.join d (py "backups"))).
  { unfold get_detected_paths. rewrite Hpair, suspect_never.
    rewrite Hp. by rewrite !join_snoc. }
  unfold DEFAULT_SETTINGS. rewrite Hpaths. simpl. split_and!.
  - exists (OS.resolve d). split; apply resolve_join;
      (split_and!; [done|done|done|]);
      apply (bool_decide_unpack _); vm_compute; exact I.
  - intros h. unfold mod_is_zero, float_60. cbv iota beta.
    change (0 <=? -47) with false. cbv iota. f_equal.
    change (Z.pos 8444249301319680) with (60 * 2 ^ 47).
    change (- -47) with 47.
    rewrite Z.mul_mod_distr_r by lia.
    apply eq_true_iff_eq. rewrite !Z.eqb_eq. lia.
  - done.
Qed.

(** ** The prompts for the interval and the retention *)

Lemma validate_keep_years_input_cons current_value line rest out :
  validate_keep_years_input current_value (line :: rest) out =
  let out1 :=
    out ++ [KeepCurrent current_value; KeepOptions; KeepOptionAll;
            KeepOptionNumber; KeepPrompt] in
  let value := strip line in
  if bool_decide (value = []) then Returned current_value rest out1
  else if lower_is (py "all") value then
    Returned (PyStr (py "all")) rest out1
  else
    match PyInt.of_str value with
    | inr years =>
        if years <? 1 then
          validate_keep_years_input current_value rest
            (out1 ++ [KeepNotPositive])
        else if years <? 10 then
          match rest with
          | [] => Raised EOFError [] (out1 ++ [KeepOnlyFew years])
          | answer :: rest' =>
              if negb (lower_is (py "y") (strip answer)) then
                validate_keep_years_input current_value rest'
                  (out1 ++ [KeepOnlyFew years])
              else
                Returned (PyInt years) rest' (out1 ++ [KeepOnlyFew years])
          end
        else Returned (PyInt years) rest out1
    | inl e =>
        if bool_decide (e = ValueError) then
          validate_keep_years_input current_value rest
            (out1 ++ [KeepNotANumber])
        else Raised (Builtin e) rest out1
    end.
Proof. reflexivity. Qed.

Lemma validate_interval_input_cons current_value line rest out :
  validate_interval_input current_value (line :: rest) out =
  let out1 :=
    out ++ [IntervalCurrent current_value; IntervalSuggestions;
            IntervalPrompt] in
  let value := strip line in
  if bool_decide (value = []) then Returned current_value rest out1
  else
    match PyFloat.of_str value with
    | inr interval =>
        if SFltb interval float_5 then
          validate_interval_input current_value rest
            (out1 ++ [IntervalTooShort])
        else if SFltb float_3600 interval then
          match rest with
          | [] => Raised EOFError [] (out1 ++ [IntervalOverOneHour])
          | answer :: rest' =>
              if negb (lower_is (py "y") (strip answer)) then
                validate_interval_input current_value rest'
                  (out1 ++ [IntervalOverOneHour])
              else
                Returned (PyFloat interval) rest'
                  (out1 ++ [IntervalOverOneHour])
          end
        else Returned (PyFloat interval) rest out1
    | inl e =>
        if bool_decide (e = ValueError) then
          validate_interval_input current_value rest
            (out1 ++ [IntervalNotANumber])
        else Raised (Builtin e) rest out1
    end.
Proof. reflexivity. Qed.

Lemma dialogue_first line rest out printed :
  dialogue (line :: rest) rest out (out ++ printed).
Proof. exists [line], printed. done. Qed.

Lemma dialogue_first_two line answer rest out printed :
  dialogue (line :: answer :: rest) rest out (out ++ printed).
Proof. exists [line; answer], printed. done. Qed.

(** A dialogue that follows more reading and writing. *)
Lemma dialogue_after pre stdin rest out printed out' :
  dialogue stdin rest (out ++ printed) out' →
  dialogue (pre ++ stdin) rest out out'.
Proof.
  intros (used & printed' & -> & Hne & ->).
  exists (pre ++ used), (printed ++ printed'). split_and!.
  - by rewrite app_assoc.
  - destruct pre; [done|discriminate].
  - by rewrite app_assoc.
Qed.

Lemma confirmed_after pre stdin rest :
  confirmed stdin rest → confirmed (pre ++ stdin) rest.
Proof.
  intros (used & answer & -> & Hy). exists (pre ++ used), answer.
  by rewrite app_assoc.
Qed.

Ltac by_dialogue :=
  match goal with
  | out1 := _ |- _ =>
      subst out1; rewrite <- ?app_assoc;
      first [apply dialogue_first | apply dialogue_first_two]
  end.

(** X21: when [validate_keep_years_input] returns, it has read at least
    one line and only a prefix of what was typed, and its value is the
    current one, the string [all], or an integer that is at least 1; an
    integer below 10 is only returned after the answer [y] to the
    request for confirmation. Zero and negative retentions never
    leave the prompt. *)
Theorem retention_prompt_returns_a_usable_value
    (current_value : pyval) (stdin : list pystr) (out : list tty_line)
    (v : pyval) (rest : list pystr) (out' : list tty_line) :
  validate_keep_years_input current_value stdin out = Returned v rest out' →
  dialogue stdin rest out out'
  ∧ (v = current_value
     ∨ v = PyStr (py "all")
     ∨ ∃ years, v = PyInt years ∧ 1 ≤ years
                ∧ (years < 10 → confirmed stdin rest)).
Proof.
  remember (length stdin) as n eqn:Hn.
  assert (Hle : (length stdin ≤ n)%nat) by lia. clear Hn.
  revert stdin out Hle.
  induction n as [|n IH]; intros [|line rest0] out Hle;
    try (simpl in Hle; lia); try discriminate.
  rewrite validate_keep_years_input_cons. cbv zeta.
  set (out1 := out ++ _).
  case_bool_decide as Hempty.
  { intros [= <- <- <-]. split; [by_dialogue|by left]. }
  destruct (lower_is (py "all") (strip line)).
  { intros [= <- <- <-]. split; [by_dialogue|by right; left]. }
  assert (Hnext : ∀ printed,
    validate_keep_years_input current_value rest0 (out1 ++ printed)
    = Returned v rest out' →
    dialogue (line :: rest0) rest out out'
    ∧ (v = current_value ∨ v = PyStr (py "all")
       ∨ ∃ years, v = PyInt years ∧ 1 ≤ years
                  ∧ (years < 10 → confirmed (line :: rest0) rest))).
  { intros printed Hrun. apply IH in Hrun as [Hd Hv]; [|simpl in Hle; lia].
    split.
    - unfold out1 in Hd. rewrite <- app_assoc in Hd.
      exact (dialogue_after [line] _ _ _ _ _ Hd).
    - destruct Hv as [?|[?|(years & ? & ? & Hc)]]; [by left|by right; left|].
      right; right. exists years. split_and!; try done.
      intros Hlt. apply (confirmed_after [line]). auto. }
  destruct (PyInt.of_str (strip line)) as [e|years].
  { case_bool_decide; [apply Hnext|discriminate]. }
  destruct (years <? 1) eqn:Hpos; [apply Hnext|].
  apply Z.ltb_ge in Hpos.
  destruct (years <? 10) eqn:Hfew.
  2:{ intros [= <- <- <-]. split; [by_dialogue|].
      right; right. exists years. split_and!; try done.
      apply Z.ltb_ge in Hfew. lia. }
  destruct rest0 as [|answer rest']; [discriminate|].
  destruct (lower_is (py "y") (strip answer)) eqn:Hy; simpl.
  - intros [= <- <- <-]. split; [by_dialogue|].
    right; right. exists years. split_and!; try done.
    intros _. by exists [line], answer.
  - intros Hrun. apply IH in Hrun as [Hd Hv]; [|simpl in Hle; lia].
    split.
    + unfold out1 in Hd. rewrite <- app_assoc in Hd.
      exact (dialogue_after [line; answer] _ _ _ _ _ Hd).
    + destruct Hv as [?|[?|(years' & ? & ? & Hc)]]; [by left|by right; left|].
      right; right. exists years'. split_and!; try done.
      intros Hlt. apply (confirmed_after [line; answer]). auto.
Qed.

(** An interval that is not below 5 is a number the loop can divide
    by. *)
Lemma not_short_interval_divides f h :
  SFltb f float_5 = false → ∃ due, mod_is_zero h (PyFloat f) = inr due.
Proof.
  destruct f as [s|s| |s m e]; simpl; eauto.
  by destruct s.
Qed.

(** X22: when [validate_interval_input] returns, it has read at least
    one line and only a prefix of what was typed, and its value is the
    current one or a float that is not below 5, on which the division
    of the loop never raises; a float above 3600 is only returned after
    the answer [y] to the request for confirmation. *)
Theorem interval_prompt_returns_no_short_interval
    (current_value : pyval) (stdin : list pystr) (out : list tty_line)
    (v : pyval) (rest : list pystr) (out' : list tty_line) :
  validate_interval_input current_value stdin out = Returned v rest out' →
  dialogue stdin rest out out'
  ∧ (v = current_value
     ∨ ∃ f, v = PyFloat f ∧ SFltb f float_5 = false
            ∧ (∀ h, ∃ due, mod_is_zero h v = inr due)
            ∧ (SFltb float_3600 f = true → confirmed stdin rest)).
Proof.
  remember (length stdin) as n eqn:Hn.
  assert (Hle : (length stdin ≤ n)%nat) by lia. clear Hn.
  revert stdin out Hle.
  induction n as [|n IH]; intros [|line rest0] out Hle;
    try (simpl in Hle; lia); try discriminate.
  rewrite validate_interval_input_cons. cbv zeta.
  set (out1 := out ++ _).
  case_bool_decide as Hempty.
  { intros [= <- <- <-]. split; [by_dialogue|by left]. }
  assert (Hnext : ∀ printed,
    validate_interval_input current_value rest0 (out1 ++ printed)
    = Returned v rest out' →
    dialogue (line :: rest0) rest out out'
    ∧ (v = current_value
       ∨ ∃ f, v = PyFloat f ∧ SFltb f float_5 = false
              ∧ (∀ h, ∃ due, mod_is_zero h v = inr due)
              ∧ (SFltb float_3600 f = true → confirmed (line :: rest0) rest))).
  { intros printed Hrun. apply IH in Hrun as [Hd Hv]; [|simpl in Hle; lia].
    split.
    - unfold out1 in Hd. rewrite <- app_assoc in Hd.
      exact (dialogue_after [line] _ _ _ _ _ Hd).
    - destruct Hv as [?|(f & ? & ? & ? & Hc)]; [by left|].
      right. exists f. split_and!; try done.
      intros Hgt. apply (confirmed_after [line]). auto. }
  destruct (PyFloat.of_str (strip line)) as [e|f].
  { case_bool_decide; [apply Hnext|discriminate]. }
  destruct (SFltb f float_5) eqn:Hshort; [apply Hnext|].
  destruct (SFltb float_3600 f) eqn:Hlong.
  2:{ intros [= <- <- <-]. split; [by_dialogue|].
      right. exists f. split_and!; [done|done| |congruence].
      intros h. by apply not_short_interval_divides. }
  destruct rest0 as [|answer rest']; [discriminate|].
  destruct (lower_is (py "y") (strip answer)) eqn:Hy; simpl.
  - intros [= <- <- <-]. split; [by_dialogue|].
    right. exists f. split_and!; try done.
    + intros h. by apply not_short_interval_divides.
    + intros _. by exists [line], answer.
  - intros Hrun. apply IH in Hrun as [Hd Hv]; [|simpl in Hle; lia].
    split.
    + unfold out1 in Hd. rewrite <- app_assoc in Hd.
      exact (dialogue_after [line; answer] _ _ _ _ _ Hd).
    + destruct Hv as [?|(f' & ? & ? & ? & Hc)]; [by left|].
      right. exists f'. split_and!; try done.
      intros Hgt. apply (confirmed_after [line; answer]). auto.
Qed.

(** X23: a line that [float] reads as a NaN, such as [nan], is returned
    by [validate_interval_input] at once, with no warning and no request
    for confirmation; and while the interval is a NaN and no key is
    pressed, the loop only counts: no change check is ever due. *)
Theorem nan_passes_the_interval_prompt
    (current_value : pyval) (line : pystr) (rest : list pystr)
    (out : list tty_line) :
  PyFloat.of_str (strip line) = inr S754_nan →
  validate_interval_input current_value (line :: rest) out
  = Returned (PyFloat S754_nan) rest
      (out ++ [IntervalCurrent current_value; IntervalSuggestions;
               IntervalPrompt])
  ∧ ∀ envs st w,
      quiet envs →
      interval (m_settings st) = PyFloat S754_nan →
      run envs st w = Running (beats (length envs) st) (others_acted envs w).
Proof.
  intros Hnan. split.
  - rewrite validate_interval_input_cons. cbv zeta.
    rewrite bool_decide_eq_false_2.
    2:{ intros Hempty. rewrite Hempty in Hnan. discriminate. }
    by rewrite Hnan.
  - intros envs st w Hq Hi. apply run_not_due; [done|].
    intros i _. by rewrite Hi.
Qed.

(** ** The further properties at sample data *)

Lemma nonfinite_interval_never_checks_witness :
  let envs := [sample_env; sample_env] in
  let st := monitor_with_interval (PyFloat S754_nan) 0 in
  let w := world_without_backup_dir in
  (quiet envs ∧ 0 ≤ heartbeat st
   ∧ interval (m_settings st) = PyFloat S754_nan
   ∧ (S754_nan = S754_nan ∨ ∃ negative, S754_nan = S754_infinity negative))
  ∧ run envs st w = Running (beats (length envs) st) (others_acted envs w).
Proof.
  intros envs st w.
  assert (H1 : quiet envs) by (repeat constructor).
  assert (H2 : 0 ≤ heartbeat st) by (simpl; lia).
  assert (H3 : interval (m_settings st) = PyFloat S754_nan) by reflexivity.
  assert (H4 : S754_nan = S754_nan
               ∨ ∃ negative, S754_nan = S754_infinity negative)
    by (left; reflexivity).
  split; [exact (conj H1 (conj H2 (conj H3 H4)))|].
  exact (nonfinite_interval_never_checks envs st w S754_nan H1 H2 H3 H4).
Defined.

Lemma bad_interval_ends_the_loop_witness :
  let st := monitor_with_interval (PyInt 0) 0 in
  let w := world_without_backup_dir in
  te_key sample_env = NoKey
  ∧ run [sample_env] st w
    = Crashed ZeroDivisionError (te_others sample_env w).
Proof.
  intros st w.
  assert (H1 : te_key sample_env = NoKey) by reflexivity.
  split; [exact H1|].
  exact (proj1 (bad_interval_ends_the_loop sample_env [] st w H1)
           (or_introl eq_refl)).
Defined.

Lemma no_check_before_the_interval_witness :
  let envs := [sample_env; sample_env] in
  let st := monitor_with_interval (PyInt 60) 0 in
  let w := world_without_backup_dir in
  (quiet envs ∧ heartbeat st = 0
   ∧ interval (m_settings st) = PyInt 60
   ∧ Z.of_nat (length envs) < 60)
  ∧ run envs st w = Running (beats (length envs) st) (others_acted envs w).
Proof.
  intros envs st w.
  assert (H1 : quiet envs) by (repeat constructor).
  assert (H2 : heartbeat st = 0) by reflexivity.
  assert (H3 : interval (m_settings st) = PyInt 60) by reflexivity.
  assert (H4 : Z.of_nat (length envs) < 60) by (simpl; lia).
  split; [exact (conj H1 (conj H2 (conj H3 H4)))|].
  exact (no_check_before_the_interval envs st w 60 H1 H2 H3 H4).
Defined.

Lemma fractional_interval_rounds_up_witness :
  (-51 < 0 ∧ 0 ≤ 50 < - -51
   ∧ Z.pos 5629499534213120 = 5 * 2 ^ 50 ∧ Z.odd 5 = true)
  ∧ mod_is_zero 10 (PyFloat float_2_5) = inr (10 mod 5 =? 0).
Proof.
  assert (H1 : -51 < 0) by lia.
  assert (H2 : 0 ≤ 50 < - -51) by lia.
  assert (H3 : Z.pos 5629499534213120 = 5 * 2 ^ 50) by reflexivity.
  assert (H4 : Z.odd 5 = true) by reflexivity.
  split; [exact (conj H1 (conj H2 (conj H3 H4)))|].
  exact (fractional_interval_rounds_up 10 false 5629499534213120 (-51) 5 50
           H1 H2 H3 H4).
Defined.

Lemma epoch_mtime_is_never_backed_up_witness :
  let st := sample_monitor (PyInt 10) 7 in
  let w := world_at_epoch in
  (te_key sample_env = NoKey
   ∧ mod_is_zero (heartbeat st + 1) (interval (m_settings st)) = inr true
   ∧ OS.getmtime (SOURCE (m_settings st)) w = Ok (S754_zero false) w)
  ∧ tick sample_env st w
    = Ok (beat st) (printed w (watching (heartbeat st + 1))).
Proof.
  intros st w.
  assert (H1 : te_key sample_env = NoKey) by reflexivity.
  assert (H2 : mod_is_zero (heartbeat st + 1) (interval (m_settings st))
               = inr true) by reflexivity.
  assert (H3 : OS.getmtime (SOURCE (m_settings st)) w
               = Ok (S754_zero false) w) by vm_refl.
  split; [exact (conj H1 (conj H2 H3))|].
  exact (epoch_mtime_is_never_backed_up sample_env st w false H1 H2 H3).
Defined.

Lemma one_backup_per_change_witness :
  let st := sample_monitor (PyInt 10) 1 in
  let w := world_with_empty_backup_dir in
  let cur := Some (S754_finite false 7 0) in
  ∃ st' w',
    (te_key sample_env = NoKey
     ∧ mod_is_zero (heartbeat st + 1) (interval (m_settings st)) = inr true
     ∧ get_mtime (SOURCE (m_settings st)) w = Ok cur w
     ∧ mtime_changed cur (last_mtime st) = true
     ∧ tick sample_env st w = Ok st' w')
    ∧ st' = Monitor (m_settings st) (heartbeat st + 1) cur.
Proof.
  intros st w cur.
  pose (st' := match tick sample_env st w with
               | Ok s _ => s
               | Raise _ _ => st
               end).
  pose (w' := match tick sample_env st w with
              | Ok _ w1 => w1
              | Raise _ w1 => w1
              end).
  assert (H1 : te_key sample_env = NoKey) by reflexivity.
  assert (H2 : mod_is_zero (heartbeat st + 1) (interval (m_settings st))
               = inr true) by reflexivity.
  assert (H3 : get_mtime (SOURCE (m_settings st)) w = Ok cur w)
    by vm_refl.
  assert (H4 : mtime_changed cur (last_mtime st) = true) by reflexivity.
  assert (H5 : tick sample_env st w = Ok st' w')
    by vm_refl.
  exists st', w'.
  split; [exact (conj H1 (conj H2 (conj H3 (conj H4 H5))))|].
  exact (proj1 (one_backup_per_change sample_env st st' w w' cur
                  H1 H2 H3 H4 H5)).
Defined.

Lemma menu_return_forgets_pending_change_witness :
  let cfg := sample_settings (PyInt 10) in
  let st := sample_monitor (PyStr (py "all")) 1 in
  let w := world_without_backup_dir in
  let cur := Some (S754_finite false 7 0) in
  (te_key (menu_env cfg) = CtrlQ (Some cfg)
   ∧ get_mtime (SOURCE cfg) w = Ok cur w)
  ∧ tick (menu_env cfg) st w
    = Ok (Monitor cfg 0 cur) (printed w [LogReturningToMenu; LogResumed]).
Proof.
  intros cfg st w cur.
  assert (H1 : te_key (menu_env cfg) = CtrlQ (Some cfg)) by reflexivity.
  assert (H2 : get_mtime (SOURCE cfg) w = Ok cur w)
    by vm_refl.
  split; [exact (conj H1 H2)|].
  exact (proj1 (menu_return_forgets_pending_change (menu_env cfg) st w cfg cur
                  H1 H2)).
Defined.

Lemma backup_carries_the_metadata_of_the_source_witness :
  let cfg := sample_settings (PyInt 10) in
  let w := world_with_backups in
  let r := read_at (SOURCE cfg) w in
  let path := OS.join (BACKUP_DIR cfg) (backup_name_at sample_time r) in
  ∃ w',
    (make_backup sample_time cfg w = Ok tt w'
     ∧ is_dir (OS.lookup_path path w) = false)
    ∧ ∃ data t year,
        OS.read_bytes (SOURCE cfg) w = Ok data w
        ∧ OS.read_bytes path w' = Ok data w'
        ∧ OS.getmtime (SOURCE cfg) w = Ok t w
        ∧ OS.getmtime path w' = Ok t w'
        ∧ get_save_year (SOURCE cfg) w = Ok year w
        ∧ get_save_year path w' = Ok year w'
        ∧ get_player_tag path w'
          = Ok (node_tag r).1 (printed w' (node_tag r).2)
        ∧ OS.lookup_path (SOURCE cfg) w' = OS.lookup_path (SOURCE cfg) w.
Proof.
  intros cfg w r path.
  pose (w' := match make_backup sample_time cfg w with
              | Ok _ w1 => w1
              | Raise _ w1 => w1
              end).
  assert (H1 : make_backup sample_time cfg w = Ok tt w')
    by vm_refl.
  assert (H2 : is_dir (OS.lookup_path path w) = false)
    by vm_refl.
  exists w'. split; [exact (conj H1 H2)|].
  exact (backup_carries_the_metadata_of_the_source sample_time cfg w w' H1 H2).
Defined.

Lemma fresh_backup_survives_its_cleanup_witness :
  let cfg := sample_settings (PyInt 10) in
  let w := world_with_backups in
  let path := OS.join (BACKUP_DIR cfg)
                (backup_name_at sample_time (read_at (SOURCE cfg) w)) in
  ∃ w1 w2,
    (make_backup sample_time cfg w = Ok tt w1
     ∧ prune_after_backup cfg w1 = Ok tt w2
     ∧ is_dir (OS.lookup_path path w) = false
     ∧ ∀ keep, PyInt.int (keep_years cfg) = inr keep → 0 ≤ keep)
    ∧ OS.lookup_path path w2 = OS.lookup_path path w1
    ∧ is_Some (OS.lookup_path path w2)
    ∧ OS.lookup_path (SOURCE cfg) w2 = OS.lookup_path (SOURCE cfg) w.
Proof.
  intros cfg w path.
  pose (w1 := match make_backup sample_time cfg w with
              | Ok _ w' => w'
              | Raise _ w' => w'
              end).
  pose (w2 := match prune_after_backup cfg w1 with
              | Ok _ w' => w'
              | Raise _ w' => w'
              end).
  assert (H1 : make_backup sample_time cfg w = Ok tt w1)
    by vm_refl.
  assert (H2 : prune_after_backup cfg w1 = Ok tt w2)
    by vm_refl.
  assert (H3 : is_dir (OS.lookup_path path w) = false)
    by vm_refl.
  assert (H4 : ∀ keep, PyInt.int (keep_years cfg) = inr keep → 0 ≤ keep).
  { intros keep Hk. simpl in Hk. injection Hk as <-. lia. }
  exists w1, w2. split; [exact (conj H1 (conj H2 (conj H3 H4)))|].
  exact (fresh_backup_survives_its_cleanup sample_time cfg w w1 w2
           H1 H2 H3 H4).
Defined.

Lemma pruning_twice_is_pruning_once_witness :
  let w := world_with_backups in
  let d := sample_backup_dir in
  ∃ w1,
    cleanup_old_backups d 1523 (PyInt 10) w = Ok tt w1
    ∧ ∃ w2, cleanup_old_backups d 1523 (PyInt 10) w1 = Ok tt w2
            ∧ w_fs w2 = w_fs w1.
Proof.
  intros w d.
  pose (w1 := match cleanup_old_backups d 1523 (PyInt 10) w with
              | Ok _ w' => w'
              | Raise _ w' => w'
              end).
  assert (H1 : cleanup_old_backups d 1523 (PyInt 10) w = Ok tt w1)
    by vm_refl.
  exists w1. split; [exact H1|].
  exact (pruning_twice_is_pruning_once d 1523 (PyInt 10) w w1 H1).
Defined.

Lemma backup_is_an_entry_of_the_backup_directory_witness :
  let cfg := sample_settings (PyInt 10) in
  let w := world_with_backups in
  let r := read_at (SOURCE cfg) w in
  let name := backup_name_at sample_time r in
  let names0 := OS.entries (OS.resolve (BACKUP_DIR cfg)) (w_fs w) in
  ∃ w',
    (make_backup sample_time cfg w = Ok tt w'
     ∧ Forall (λ c, c ≠ OS.slash) (node_tag r).1
     ∧ OS.listdir (BACKUP_DIR cfg) w = Ok names0 w
     ∧ is_dir (OS.lookup_path (OS.join (BACKUP_DIR cfg) name) w) = false)
    ∧ endswith eu4_ext name = true
    ∧ OS.resolve (OS.join (BACKUP_DIR cfg) name)
      = OS.resolve (BACKUP_DIR cfg) ++ [name]
    ∧ ∃ names, OS.listdir (BACKUP_DIR cfg) w' = Ok names w'
               ∧ name ∈ names
               ∧ ∀ other, other ∈ names0 → other ∈ names.
Proof.
  intros cfg w r name names0.
  pose (w' := match make_backup sample_time cfg w with
              | Ok _ w1 => w1
              | Raise _ w1 => w1
              end).
  assert (H1 : make_backup sample_time cfg w = Ok tt w')
    by vm_refl.
  assert (H2 : Forall (λ c, c ≠ OS.slash) (node_tag r).1)
    by (apply (bool_decide_unpack _); vm_compute; exact I).
  assert (H3 : OS.listdir (BACKUP_DIR cfg) w = Ok names0 w)
    by vm_refl.
  assert (H4 : is_dir (OS.lookup_path (OS.join (BACKUP_DIR cfg) name) w)
               = false) by vm_refl.
  exists w'. split; [exact (conj H1 (conj H2 (conj H3 H4)))|].
  exact (backup_is_an_entry_of_the_backup_directory sample_time cfg w w'
           names0 H1 H2 H3 H4).
Defined.

Lemma pruning_reports_only_what_it_removed_witness :
  let w := world_with_backups in
  let d := sample_backup_dir in
  let names := OS.entries (OS.resolve d) (w_fs w) in
  ∃ w',
    (PyInt.int (PyInt 10) = inr 10
     ∧ OS.listdir d w = Ok names w
     ∧ cleanup_old_backups d 1523 (PyInt 10) w = Ok tt w')
    ∧ ∃ removed : list (pystr * Z),
        w_console w'
        = w_console w ++ map (λ fy, LogCleanedUp fy.1 fy.2) removed
        ∧ removed.*1 `sublist_of` names
        ∧ NoDup (map (λ fy, entry_key d fy.1) removed)
        ∧ Forall (λ fy,
            endswith eu4_ext fy.1 = true
            ∧ node_year (w_fs w !! entry_key d fy.1) = Some fy.2
            ∧ fy.2 < 1523 - 10
            ∧ w_fs w' !! entry_key d fy.1 = None) removed
        ∧ (w_free w ≤ w_free w')%N.
Proof.
  intros w d names.
  pose (w' := match cleanup_old_backups d 1523 (PyInt 10) w with
              | Ok _ w1 => w1
              | Raise _ w1 => w1
              end).
  assert (H1 : PyInt.int (PyInt 10) = inr 10) by reflexivity.
  assert (H2 : OS.listdir d w = Ok names w) by vm_refl.
  assert (H3 : cleanup_old_backups d 1523 (PyInt 10) w = Ok tt w')
    by vm_refl.
  exists w'. split; [exact (conj H1 (conj H2 H3))|].
  exact (pruning_reports_only_what_it_removed d 1523 (PyInt 10) 10 names
           w w' H1 H2 H3).
Defined.

Lemma undated_source_skips_the_cleanup_witness :
  let st := sample_monitor (PyFloat (S754_infinity false)) 1 in
  let cfg := m_settings st in
  let w := world_undated in
  let cur := Some (S754_finite false 7 0) in
  ∃ w1,
    (te_key sample_env = NoKey
     ∧ mod_is_zero (heartbeat st + 1) (interval cfg) = inr true
     ∧ get_mtime (SOURCE cfg) w = Ok cur w
     ∧ mtime_changed cur (last_mtime st) = true
     ∧ make_backup (te_now sample_env) cfg
         (printed w (watching (heartbeat st + 1))) = Ok tt w1
     ∧ node_year (OS.lookup_path (SOURCE cfg) w1) = None)
    ∧ tick sample_env st w = Ok (Monitor cfg (heartbeat st + 1) cur) w1.
Proof.
  intros st cfg w cur.
  pose (w1 := match make_backup (te_now sample_env) cfg
                      (printed w (watching (heartbeat st + 1))) with
              | Ok _ w' => w'
              | Raise _ w' => w'
              end).
  assert (H1 : te_key sample_env = NoKey) by reflexivity.
  assert (H2 : mod_is_zero (heartbeat st + 1) (interval cfg) = inr true)
    by reflexivity.
  assert (H3 : get_mtime (SOURCE cfg) w = Ok cur w)
    by vm_refl.
  assert (H4 : mtime_changed cur (last_mtime st) = true) by reflexivity.
  assert (H5 : make_backup (te_now sample_env) cfg
                 (printed w (watching (heartbeat st + 1))) = Ok tt w1)
    by vm_refl.
  assert (H6 : node_year (OS.lookup_path (SOURCE cfg) w1) = None)
    by vm_refl.
  exists w1.
  split; [exact (conj H1 (conj H2 (conj H3 (conj H4 (conj H5 H6)))))|].
  exact (undated_source_skips_the_cleanup sample_env st w w1 cur
           H1 H2 H3 H4 H5 H6).
Defined.


Lemma unreadable_first_date_hides_the_rest_witness :
  let path := py "save.eu4" in
  let w := world_of_file bad_date_save in
  let pre := [py "EU4txt"] in
  let line := py "date=abc.1.1" in
  let post := [py "date=1500.1.1"; []] in
  (read_at path w = inr bad_date_save
   ∧ binary_lines bad_date_save = pre ++ line :: post
   ∧ Forall (λ l, date_line true l = false) pre
   ∧ scan_date true [line] = inl ValueError)
  ∧ get_save_year path w = Ok None w
  ∧ get_backup_year path w = Ok None w
  ∧ too_old 2000 (OS.lookup_path path w) = false.
Proof.
  intros path w pre line post.
  assert (H1 : read_at path w = inr bad_date_save)
    by vm_refl.
  assert (H2 : binary_lines bad_date_save = pre ++ line :: post)
    by vm_refl.
  assert (H3 : Forall (λ l, date_line true l = false) pre)
    by (repeat constructor).
  assert (H4 : scan_date true [line] = inl ValueError)
    by vm_refl.
  split; [exact (conj H1 (conj H2 (conj H3 H4)))|].
  exact (unreadable_first_date_hides_the_rest path w bad_date_save pre line
           post ValueError 2000 H1 H2 H3 H4).
Defined.

Lemma detection_returns_an_existing_autosave_witness :
  let env := sample_environ in
  let w := world_with_home in
  let c :=
    py "/home/bob/Documents/Paradox Interactive/Europa Universalis IV/save games" in
  (c ∈ common_locations env
   ∧ path_exists c w = true
   ∧ path_exists (OS.join c autosave_name) w = true)
  ∧ detect_autosave_file env w = Some (get_detected_paths env w).1
  ∧ path_exists (get_detected_paths env w).1 w = true
  ∧ path_exists (dirname (get_detected_paths env w).1) w = true
  ∧ dirname (get_detected_paths env w).1 ∈ detect_eu4_save_paths env w.
Proof.
  intros env w c.
  assert (H1 : c ∈ common_locations env)
    by (apply (bool_decide_unpack _); vm_compute; exact I).
  assert (H2 : path_exists c w = true) by vm_refl.
  assert (H3 : path_exists (OS.join c autosave_name) w = true)
    by vm_refl.
  split; [exact (conj H1 (conj H2 H3))|].
  exact (detection_returns_an_existing_autosave env w c H1 H2 H3).
Defined.

Lemma retention_prompt_returns_a_usable_value_witness :
  let stdin := [py "0"; py "5"; py "n"; py " 5 "; py "Y"; py "next"] in
  ∃ out',
    validate_keep_years_input (PyStr (py "all")) stdin []
    = Returned (PyInt 5) [py "next"] out'
    ∧ dialogue stdin [py "next"] [] out'
    ∧ (PyInt 5 = PyStr (py "all")
       ∨ PyInt 5 = PyStr (py "all")
       ∨ ∃ years, PyInt 5 = PyInt years ∧ 1 ≤ years
                  ∧ (years < 10 → confirmed stdin [py "next"])).
Proof.
  intros stdin.
  pose (out' := match validate_keep_years_input (PyStr (py "all")) stdin []
                with
                | Returned _ _ o => o
                | Raised _ _ o => o
                end).
  assert (H1 : validate_keep_years_input (PyStr (py "all")) stdin []
               = Returned (PyInt 5) [py "next"] out')
    by vm_refl.
  exists out'. split; [exact H1|].
  exact (retention_prompt_returns_a_usable_value (PyStr (py "all")) stdin []
           (PyInt 5) [py "next"] out' H1).
Defined.

Lemma interval_prompt_returns_no_short_interval_witness :
  let stdin := [py "abc"; py "3"; py "7200"; py "n"; py "inf"; py "y"] in
  let v := PyFloat (S754_infinity false) in
  ∃ out',
    validate_interval_input (PyFloat float_60) stdin [] = Returned v [] out'
    ∧ dialogue stdin [] [] out'
    ∧ (v = PyFloat float_60
       ∨ ∃ f, v = PyFloat f ∧ SFltb f float_5 = false
              ∧ (∀ h, ∃ due, mod_is_zero h v = inr due)
              ∧ (SFltb float_3600 f = true → confirmed stdin [])).
Proof.
  intros stdin v.
  pose (out' := match validate_interval_input (PyFloat float_60) stdin []
                with
                | Returned _ _ o => o
                | Raised _ _ o => o
                end).
  assert (H1 : validate_interval_input (PyFloat float_60) stdin []
               = Returned v [] out')
    by vm_refl.
  exists out'. split; [exact H1|].
  exact (interval_prompt_returns_no_short_interval (PyFloat float_60) stdin []
           v [] out' H1).
Defined.

Lemma nan_passes_the_interval_prompt_witness :
  let line := py " nan " in
  PyFloat.of_str (strip line) = inr S754_nan
  ∧ validate_interval_input (PyFloat float_60) [line; py "next"] []
    = Returned (PyFloat S754_nan) [py "next"]
        [IntervalCurrent (PyFloat float_60); IntervalSuggestions;
         IntervalPrompt].
Proof.
  intros line.
  assert (H1 : PyFloat.of_str (strip line) = inr S754_nan)
    by vm_refl.
  split; [exact H1|].
  exact (proj1 (nan_passes_the_interval_prompt (PyFloat float_60) line
                  [py "next"] [] H1)).
Defined.

Lemma negative_retention_removes_the_fresh_backup_witness :
  let cfg := sample_settings (PyInt (-1)) in
  let w := world_with_empty_backup_dir in
  let r := read_at (SOURCE cfg) w in
  let path := OS.join (BACKUP_DIR cfg) (backup_name_at sample_time r) in
  ∃ w1 w2,
    (make_backup sample_time cfg w = Ok tt w1
     ∧ prune_after_backup cfg w1 = Ok tt w2
     ∧ is_dir (OS.lookup_path path w) = false
     ∧ Forall (λ c, c ≠ OS.slash) (node_tag r).1
     ∧ is_Some (node_year (OS.lookup_path (SOURCE cfg) w))
     ∧ PyInt.int (keep_years cfg) = inr (-1)
     ∧ -1 < 0)
    ∧ is_Some (OS.lookup_path path w1) ∧ OS.lookup_path path w2 = None.
Proof.
  intros cfg w r path.
  pose (w1 := match make_backup sample_time cfg w with
              | Ok _ w' => w'
              | Raise _ w' => w'
              end).
  pose (w2 := match prune_after_backup cfg w1 with
              | Ok _ w' => w'
              | Raise _ w' => w'
              end).
  assert (H1 : make_backup sample_time cfg w = Ok tt w1) by vm_refl.
  assert (H2 : prune_after_backup cfg w1 = Ok tt w2) by vm_refl.
  assert (H3 : is_dir (OS.lookup_path path w) = false) by vm_refl.
  assert (H4 : Forall (λ c, c ≠ OS.slash) (node_tag r).1)
    by (apply (bool_decide_unpack _); vm_compute; exact I).
  assert (H5 : is_Some (node_year (OS.lookup_path (SOURCE cfg) w))).
  { exists 1523. vm_refl. }
  assert (H6 : PyInt.int (keep_years cfg) = inr (-1)) by reflexivity.
  assert (H7 : -1 < 0) by lia.
  exists w1, w2.
  split; [exact (conj H1 (conj H2 (conj H3 (conj H4 (conj H5 (conj H6 H7))))))|].
  exact (negative_retention_removes_the_fresh_backup sample_time cfg w w1 w2
           (-1) H1 H2 H3 H4 H5 H6 H7).
Defined.

Lemma source_below_a_file_ends_the_loop_witness :
  let st := sample_monitor (PyInt 10) 7 in
  let w := world_saves_is_a_file in
  (te_key sample_env = NoKey
   ∧ mod_is_zero (heartbeat st + 1) (interval (m_settings st)) = inr true
   ∧ OS.getmtime (SOURCE (m_settings st)) (te_others sample_env w)
     = Raise NotADirectoryError (te_others sample_env w))
  ∧ run [sample_env; sample_env] st w
    = Crashed NotADirectoryError (te_others sample_env w).
Proof.
  intros st w.
  assert (H1 : te_key sample_env = NoKey) by reflexivity.
  assert (H2 : mod_is_zero (heartbeat st + 1) (interval (m_settings st))
               = inr true) by reflexivity.
  assert (H3 : OS.getmtime (SOURCE (m_settings st)) (te_others sample_env w)
               = Raise NotADirectoryError (te_others sample_env w))
    by vm_refl.
  split; [exact (conj H1 (conj H2 H3))|].
  exact (source_below_a_file_ends_the_loop sample_env [sample_env] st w
           H1 H2 H3).
Defined.
